(** * learn2trade: the portfolio ledger of [stock_app3.py]

    A shallow embedding of the ledger functions of [src/stock_app3.py]
    ([get_db_connection], [get_user_portfolio], [calculate_portfolio_value],
    [update_portfolio_db]) together with the part of the PostgreSQL schema
    they touch (tables [portfolios], [holdings], [orders]).

    Modelling conventions.
    - Currency amounts are rationals [Q].  A [DECIMAL(15,2)] column keeps
      what is assigned to it rounded to the cent, half away from zero, and
      refuses a value of 10^13 or more ([numeric_15_2]); an [INTEGER] column
      refuses a value outside the 32-bit range ([int4]).  The arithmetic of
      Python's [float] is taken as exact: its rounding error, below 0.002 for
      amounts that the columns can hold, is not modelled, and the statements
      about amounts leave a cent of margin for it.  Share counts (Python
      [int]) are [Z].  The widths of the [VARCHAR] columns are not modelled;
      a statement that promises the success of an insert assumes that the
      strings fit them.
    - The store is an explicit [Database] value inside a [World].  A world
      also carries the schedule of storage outages still to come and the
      error messages shown to the user with [st.error].
    - Python exceptions are the [Raise] outcome of the effect monad [Eff];
      [try: ... except Exception as e: ...] is [try_except].
    - [timestamp], [created_at], [updated_at] and the serial [id] columns of
      [holdings] and [orders] are left out; [user_id] is the id of a
      registered account, so the foreign key into [users] always holds.
      [cur.close()] and [conn.close()] have no effect on the store and are
      left out too.

    After the ledger come the other data functions of the file: the market
    hours, the accounts ([register_user], [login_user]), the watchlists, the
    learning progress of [User] with the [DatabaseManager] connection, and
    the [Stock] and [Portfolio] classes, each with the conventions stated
    where it is defined. *)

From Stdlib Require Import ZArith QArith Qabs Qround List String Bool Lia Lqa.
Import ListNotations.

Open Scope Q_scope.

(** ** The relational store *)

Record PortfolioRow := mkPortfolioRow {
  p_id : Z;
  p_user_id : Z;
  p_cash : Q;
  p_total_value : Q
}.

Record HoldingRow := mkHoldingRow {
  h_portfolio_id : Z;
  h_symbol : string;
  h_company_name : string;
  h_shares : Z;
  h_avg_price : Q;
  h_total_invested : Q
}.

Record OrderRow := mkOrderRow {
  o_portfolio_id : Z;
  o_symbol : string;
  o_company_name : string;
  o_action : string;
  o_shares : Z;
  o_price : Q;
  o_total : Q;
  o_profit_loss : option Q   (* NULL for a buy *)
}.

(** [portfolios_id_seq] is the sequence behind [portfolios.id SERIAL]. *)
Record Database := mkDatabase {
  tbl_portfolios : list PortfolioRow;
  portfolios_id_seq : Z;
  tbl_holdings : list HoldingRow;
  tbl_orders : list OrderRow
}.

Definition set_portfolios (ps : list PortfolioRow) (d : Database) : Database :=
  mkDatabase ps (portfolios_id_seq d) (tbl_holdings d) (tbl_orders d).

Definition set_holdings (hs : list HoldingRow) (d : Database) : Database :=
  mkDatabase (tbl_portfolios d) (portfolios_id_seq d) hs (tbl_orders d).

Definition set_orders (os : list OrderRow) (d : Database) : Database :=
  mkDatabase (tbl_portfolios d) (portfolios_id_seq d) (tbl_holdings d) os.

(** What a statement can raise. *)
Inductive DbError :=
| OperationalError        (* the store fails to execute the statement *)
| ForeignKeyViolation     (* portfolio_id REFERENCES portfolios(id) *)
| DivisionByZero          (* a [/] whose divisor evaluates to 0 *)
| NumericValueOutOfRange. (* "integer out of range", "numeric field overflow" *)

(** The integer nearest to [x], a half going away from zero: how [numeric]
    rounds. *)
Definition round_half_away (x : Q) : Z :=
  if Qle_bool 0 x then Qfloor (x + (1 # 2)) else (- Qfloor ((1 # 2) - x))%Z.

(** [x] rounded to two decimals. *)
Definition cents (x : Q) : Q := Qred (inject_Z (round_half_away (x * 100)) / 100).

(** Assignment to a [DECIMAL(15,2)] column: the value is rounded to the cent
    and must then be below 10^13 in absolute value. *)
Definition numeric_15_2 (x : Q) : DbError + Q :=
  if Qle_bool 10000000000000 (Qabs (cents x))
  then inl NumericValueOutOfRange
  else inr (cents x).

(** Assignment to an [INTEGER] column. *)
Definition int4 (n : Z) : DbError + Z :=
  if ((-2147483648 <=? n) && (n <=? 2147483647))%Z
  then inr n
  else inl NumericValueOutOfRange.

(** Evaluation goes on with the value, or stops at the error. *)
Definition and_then {A B : Type} (x : DbError + A) (k : A -> DbError + B) : DbError + B :=
  match x with
  | inl e => inl e
  | inr a => k a
  end.

(** A statement either raises or yields its result and the new store. *)
Definition Stmt (A : Type) : Type := Database -> DbError + (A * Database).

Definition query {A : Type} (f : Database -> A) : Stmt A :=
  fun d => inr (f d, d).

Definition portfolio_exists (portfolio_id : Z) (d : Database) : bool :=
  existsb (fun r => (p_id r =? portfolio_id)%Z) (tbl_portfolios d).

Definition holding_matches (portfolio_id : Z) (symbol : string) (r : HoldingRow) : bool :=
  (h_portfolio_id r =? portfolio_id)%Z && String.eqb (h_symbol r) symbol.

(** [SELECT id, cash FROM portfolios WHERE user_id = %s] then [fetchone()]. *)
Definition sql_select_portfolio (user_id : Z) : Stmt (option (Z * Q)) :=
  query (fun d =>
    match find (fun r => (p_user_id r =? user_id)%Z) (tbl_portfolios d) with
    | Some r => Some (p_id r, p_cash r)
    | None => None
    end).

Definition of_portfolio (portfolio_id : Z) (r : HoldingRow) : bool :=
  (h_portfolio_id r =? portfolio_id)%Z.

(** [SELECT symbol, company_name, shares, avg_price, total_invested
     FROM holdings WHERE portfolio_id = %s] then [fetchall()]. *)
Definition sql_select_holdings (portfolio_id : Z) : Stmt (list HoldingRow) :=
  query (fun d =>
    filter (of_portfolio portfolio_id) (tbl_holdings d)).

Definition order_of_portfolio (portfolio_id : Z) (r : OrderRow) : bool :=
  (o_portfolio_id r =? portfolio_id)%Z.

(** [SELECT ... FROM orders WHERE portfolio_id = %s
     ORDER BY timestamp DESC LIMIT 50]: rows are kept in insertion order, so
    the most recent ones are the last ones. *)
Definition sql_select_recent_orders (portfolio_id : Z) : Stmt (list OrderRow) :=
  query (fun d =>
    firstn 50 (rev (filter (order_of_portfolio portfolio_id) (tbl_orders d)))).

(** [INSERT INTO portfolios (user_id) VALUES (%s) RETURNING id]; [cash] and
    [total_value] take their column default 100000.00. *)
Definition sql_insert_portfolio (user_id : Z) : Stmt Z :=
  fun d =>
    let new_id := portfolios_id_seq d in
    inr (new_id,
         mkDatabase (tbl_portfolios d ++ [mkPortfolioRow new_id user_id 100000 100000])
                    (new_id + 1)%Z (tbl_holdings d) (tbl_orders d)).

(** [UPDATE portfolios SET cash = %s, updated_at = CURRENT_TIMESTAMP WHERE id = %s]. *)
Definition with_cash (new_cash : Q) (portfolio_id : Z) (r : PortfolioRow) : PortfolioRow :=
  if (p_id r =? portfolio_id)%Z
  then mkPortfolioRow (p_id r) (p_user_id r) new_cash (p_total_value r)
  else r.

Definition sql_update_cash (new_cash : Q) (portfolio_id : Z) : Stmt unit :=
  fun d =>
    and_then (numeric_15_2 new_cash) (fun cash =>
    inr (tt, set_portfolios (map (with_cash cash portfolio_id) (tbl_portfolios d)) d)).

(** [UPDATE portfolios SET total_value = %s, updated_at = CURRENT_TIMESTAMP
     WHERE user_id = %s]. *)
Definition with_total_value (total_value : Q) (user_id : Z) (r : PortfolioRow) : PortfolioRow :=
  if (p_user_id r =? user_id)%Z
  then mkPortfolioRow (p_id r) (p_user_id r) (p_cash r) total_value
  else r.

Definition sql_update_total_value (total_value : Q) (user_id : Z) : Stmt unit :=
  fun d =>
    and_then (numeric_15_2 total_value) (fun total =>
    inr (tt, set_portfolios (map (with_total_value total user_id) (tbl_portfolios d)) d)).

(** [SELECT id FROM holdings WHERE portfolio_id = %s AND symbol = %s] then
    [fetchone()]; only the truth value of the result is used. *)
Definition sql_select_holding_id (portfolio_id : Z) (symbol : string) : Stmt bool :=
  query (fun d => existsb (holding_matches portfolio_id symbol) (tbl_holdings d)).

(** [UPDATE holdings SET shares = shares + %s,
       total_invested = total_invested + %s,
       avg_price = (total_invested + %s) / (shares + %s), ...
     WHERE portfolio_id = %s AND symbol = %s]
    with parameters [(shares, total_cost, total_cost, shares, ...)].  The
    right-hand sides read the row as it was before the statement; the quotient
    is taken as exact before the column rounds it. *)
Definition bought (shares : Z) (total_cost : Q) (r : HoldingRow) : HoldingRow :=
  mkHoldingRow (h_portfolio_id r) (h_symbol r) (h_company_name r)
    (h_shares r + shares)
    (cents ((h_total_invested r + total_cost) / inject_Z (h_shares r + shares)))
    (cents (h_total_invested r + total_cost)).

(** What the update raises on the row [r], if anything. *)
Definition buy_error (shares : Z) (total_cost : Q) (r : HoldingRow) : option DbError :=
  if (h_shares r + shares =? 0)%Z then Some DivisionByZero
  else
    match int4 (h_shares r + shares),
          numeric_15_2 (h_total_invested r + total_cost),
          numeric_15_2 ((h_total_invested r + total_cost) / inject_Z (h_shares r + shares))
    with
    | inr _, inr _, inr _ => None
    | _, _, _ => Some NumericValueOutOfRange
    end.

Definition buy_fails (shares : Z) (total_cost : Q) (portfolio_id : Z) (symbol : string)
    (r : HoldingRow) : bool :=
  holding_matches portfolio_id symbol r
  && match buy_error shares total_cost r with Some _ => true | None => false end.

Definition sql_update_holding_buy (shares : Z) (total_cost : Q)
    (portfolio_id : Z) (symbol : string) : Stmt unit :=
  fun d =>
    match find (buy_fails shares total_cost portfolio_id symbol) (tbl_holdings d) with
    | Some r =>
        match buy_error shares total_cost r with
        | Some e => inl e
        | None => inl NumericValueOutOfRange
        end
    | None =>
        inr (tt, set_holdings
                   (map (fun r => if holding_matches portfolio_id symbol r
                                  then bought shares total_cost r else r)
                        (tbl_holdings d)) d)
    end.

(** [INSERT INTO holdings (portfolio_id, symbol, company_name, shares,
     avg_price, total_invested) VALUES (...)]. *)
Definition sql_insert_holding (portfolio_id : Z) (symbol company_name : string)
    (shares : Z) (avg_price total_invested : Q) : Stmt unit :=
  fun d =>
    and_then (int4 shares) (fun shares =>
    and_then (numeric_15_2 avg_price) (fun avg_price =>
    and_then (numeric_15_2 total_invested) (fun total_invested =>
    if portfolio_exists portfolio_id d
    then inr (tt, set_holdings
                    (tbl_holdings d ++
                       [mkHoldingRow portfolio_id symbol company_name shares avg_price
                          total_invested]) d)
    else inl ForeignKeyViolation))).

(** [DELETE FROM holdings WHERE portfolio_id = %s AND symbol = %s]. *)
Definition sql_delete_holding (portfolio_id : Z) (symbol : string) : Stmt unit :=
  fun d =>
    inr (tt, set_holdings
               (filter (fun r => negb (holding_matches portfolio_id symbol r)) (tbl_holdings d)) d).

(** [UPDATE holdings SET shares = %s, total_invested = %s, ...
     WHERE portfolio_id = %s AND symbol = %s]. *)
Definition sold (remaining_shares : Z) (new_total_invested : Q) (r : HoldingRow) : HoldingRow :=
  mkHoldingRow (h_portfolio_id r) (h_symbol r) (h_company_name r)
    remaining_shares (h_avg_price r) new_total_invested.

Definition sql_update_holding_sell (remaining_shares : Z) (new_total_invested : Q)
    (portfolio_id : Z) (symbol : string) : Stmt unit :=
  fun d =>
    and_then (int4 remaining_shares) (fun remaining_shares =>
    and_then (numeric_15_2 new_total_invested) (fun new_total_invested =>
    inr (tt, set_holdings
               (map (fun r => if holding_matches portfolio_id symbol r
                              then sold remaining_shares new_total_invested r else r)
                    (tbl_holdings d)) d))).

(** [INSERT INTO orders (portfolio_id, symbol, company_name, action, shares,
     price, total [, profit_loss]) VALUES (...)]. *)
Definition sql_insert_order (portfolio_id : Z) (symbol company_name action : string)
    (shares : Z) (price total : Q) (profit_loss : option Q) : Stmt unit :=
  fun d =>
    and_then (int4 shares) (fun shares =>
    and_then (numeric_15_2 price) (fun price =>
    and_then (numeric_15_2 total) (fun total =>
    and_then (match profit_loss with
              | Some pl => and_then (numeric_15_2 pl) (fun pl => inr (Some pl))
              | None => inr None
              end) (fun profit_loss =>
    if portfolio_exists portfolio_id d
    then inr (tt, set_orders
                    (tbl_orders d ++
                       [mkOrderRow portfolio_id symbol company_name action shares price total
                          profit_loss]) d)
    else inl ForeignKeyViolation)))).

(** ** Worlds and effects *)

(** Messages shown with [st.error]. *)
Inductive Toast :=
| DatabaseConnectionError          (* "Database connection error: ..." *)
| ErrorGettingPortfolio (e : DbError).   (* "Error getting portfolio: ..." *)

(** [outages] schedules the storage failures: each attempt to connect and
    each [cur.execute] consumes the head of the list, and fails when it is
    [true].  Once the list is used up the store works. *)
Record World := mkWorld {
  db : Database;
  outages : list bool;
  st_errors : list Toast
}.

Definition set_db (d : Database) (w : World) : World :=
  mkWorld d (outages w) (st_errors w).

Inductive Outcome (A : Type) :=
| Return (a : A)
| Raise (e : DbError).
Arguments Return {A} a.
Arguments Raise {A} e.

Definition Eff (A : Type) : Type := World -> Outcome A * World.

Definition ret {A : Type} (a : A) : Eff A := fun w => (Return a, w).

Definition bind {A B : Type} (m : Eff A) (k : A -> Eff B) : Eff B :=
  fun w =>
    match m w with
    | (Return a, w1) => k a w1
    | (Raise e, w1) => (Raise e, w1)
    end.

(** Runs an effect for its final world. *)
Definition exec {A : Type} (m : Eff A) (w : World) : World := snd (m w).

(** Runs an effect for what it returns or raises. *)
Definition result {A : Type} (m : Eff A) (w : World) : Outcome A := fst (m w).

Declare Scope eff_scope.
Delimit Scope eff_scope with eff.
Notation "x <- m ;; k" := (bind m (fun x => k))
  (at level 100, m at next level, right associativity) : eff_scope.
Notation "m ;; k" := (bind m (fun _ => k))
  (at level 100, right associativity) : eff_scope.
Open Scope eff_scope.

(** [try: body except Exception as e: handler e]. *)
Definition try_except {A : Type} (body : Eff A) (handler : DbError -> Eff A) : Eff A :=
  fun w =>
    match body w with
    | (Return a, w1) => (Return a, w1)
    | (Raise e, w1) => handler e w1
    end.

Definition st_error (t : Toast) : Eff unit :=
  fun w => (Return tt, mkWorld (db w) (outages w) (st_errors w ++ [t])).

Definition next_outage (w : World) : bool * World :=
  match outages w with
  | [] => (false, w)
  | b :: rest => (b, mkWorld (db w) rest (st_errors w))
  end.

(** A psycopg2 connection: its [autocommit] attribute and the store as it was
    when its current transaction began (what [rollback] would restore). *)
Record Connection := mkConnection {
  autocommit : bool;
  txn_start : Database
}.

(** [get_db_connection]: both branches (DATABASE_URL set or not) connect, set
    [conn.autocommit = True] and return the connection; any exception is
    reported with [st.error] and [None] is returned. *)
Definition get_db_connection : Eff (option Connection) :=
  fun w =>
    let (down, w1) := next_outage w in
    if down
    then (x <- st_error DatabaseConnectionError ;; ret None) w1
    else (Return (Some (mkConnection true (db w1))), w1).

(** [cur.execute(stmt, params)].  On an autocommit connection the statement
    is its own transaction: its effect is durable as soon as it returns. *)
Definition execute {A : Type} (conn : Connection) (stmt : Stmt A) : Eff A :=
  fun w =>
    let (down, w1) := next_outage w in
    if down then (Raise OperationalError, w1)
    else
      match stmt (db w1) with
      | inl e => (Raise e, w1)
      | inr (a, d') => (Return a, set_db d' w1)
      end.

(** [conn.commit()]: nothing is pending on an autocommit connection.  In the
    source a commit is the last statement on its connection. *)
Definition commit (conn : Connection) : Eff unit := ret tt.

(** [conn.rollback()]: undoes the open transaction, which on an autocommit
    connection is empty.  An outage is taken to fail its statement and to
    leave the connection open; on a connection that the failure has closed
    the call would raise in its turn. *)
Definition rollback (conn : Connection) : Eff unit :=
  fun w =>
    if autocommit conn then (Return tt, w)
    else (Return tt, set_db (txn_start conn) w).

(** ** Python values of the ledger functions *)

(** A value of the [holdings] dict of a portfolio. *)
Module Holding.
Record t := mk {
  shares : Z;
  avg_price : Q;
  total_invested : Q;
  company_name : string
}.
End Holding.

(** An element of the [orders] list of a portfolio. *)
Module Order.
Record t := mk {
  symbol : string;
  company_name : string;
  action : string;
  shares : Z;
  price : Q;
  total : Q;
  profit_loss : option Q
}.
End Order.

(** A [dict] keyed by symbol, in insertion order. *)
Definition Dict : Type := list (string * Holding.t).

Fixpoint dict_get (k : string) (d : Dict) : option Holding.t :=
  match d with
  | [] => None
  | (k', v) :: rest => if String.eqb k' k then Some v else dict_get k rest
  end.

(** [d[k] = v]: replaces the value of an existing key in place, appends a new key. *)
Fixpoint dict_set (k : string) (v : Holding.t) (d : Dict) : Dict :=
  match d with
  | [] => [(k, v)]
  | (k', v') :: rest =>
      if String.eqb k' k then (k', v) :: rest else (k', v') :: dict_set k v rest
  end.

(** The dict returned by [get_user_portfolio]. *)
Module Portfolio.
Record t := mk {
  cash : Q;
  holdings : Dict;
  orders : list Order.t;
  portfolio_id : Z
}.
End Portfolio.

(** The dict returned when the store cannot be used. *)
Definition default_portfolio : Portfolio.t := Portfolio.mk 100000 [] [] 0.

Definition holding_of_row (r : HoldingRow) : Holding.t :=
  Holding.mk (h_shares r) (h_avg_price r) (h_total_invested r) (h_company_name r).

Definition holdings_of_rows (rows : list HoldingRow) : Dict :=
  fold_left (fun d r => dict_set (h_symbol r) (holding_of_row r) d) rows [].

(** [float(profit_loss) if profit_loss else None]: NULL and 0 both give [None]. *)
Definition order_of_row (r : OrderRow) : Order.t :=
  Order.mk (o_symbol r) (o_company_name r) (o_action r) (o_shares r) (o_price r) (o_total r)
    (match o_profit_loss r with
     | Some pl => if Qeq_bool pl 0 then None else Some pl
     | None => None
     end).

(** The message of a [(success, message)] result.  [SellOrderExecuted pl] is
    the string "Sell order executed (P&L: ...)" formatting [pl];
    [TransactionFailed e] is "Transaction failed: " followed by [str(e)]. *)
Inductive Message :=
| PortfolioNotFound
| DatabaseConnectionFailed
| InsufficientFunds
| BuyOrderExecuted
| NoSharesToSell
| InsufficientShares
| SellOrderExecuted (profit_loss : Q)
| TransactionFailed (e : DbError).

(** What the price feed ([yf.Ticker(symbol).fast_info]) answers for a symbol. *)
Inductive Quote :=
| LastPrice (p : Q)   (* a price *)
| NoLastPrice         (* the key is missing, or its value is [None] *)
| FeedException.      (* the lookup raises *)

(** ** The ledger functions *)

Definition get_user_portfolio (user_id : Z) : Eff (option Portfolio.t) :=
  conn <- get_db_connection ;;
  match conn with
  | None => ret (Some default_portfolio)
  | Some conn =>
      try_except
        (portfolio_data <- execute conn (sql_select_portfolio user_id) ;;
         match portfolio_data with
         | Some (portfolio_id, cash) =>
             holdings_rows <- execute conn (sql_select_holdings portfolio_id) ;;
             let holdings := holdings_of_rows holdings_rows in
             orders_rows <- execute conn (sql_select_recent_orders portfolio_id) ;;
             let orders := map order_of_row orders_rows in
             ret (Some (Portfolio.mk cash holdings orders portfolio_id))
         | None =>
             portfolio_id <- execute conn (sql_insert_portfolio user_id) ;;
             commit conn ;;
             ret (Some (Portfolio.mk 100000 [] [] portfolio_id))
         end)
        (fun e =>
           st_error (ErrorGettingPortfolio e) ;;
           ret (Some default_portfolio))
  end.

(** One round of the loop over [portfolio['holdings'].items()]. *)
Definition holding_value (feed : string -> Quote) (total_value : Q)
    (item : string * Holding.t) : Q :=
  let (symbol, holding) := item in
  match feed symbol with
  | LastPrice current_price =>
      total_value + inject_Z (Holding.shares holding) * current_price
  | NoLastPrice =>
      total_value + inject_Z (Holding.shares holding) * Holding.avg_price holding
  | FeedException =>
      total_value + inject_Z (Holding.shares holding) * Holding.avg_price holding
  end.

Definition calculate_portfolio_value (feed : string -> Quote) (user_id : Z) : Eff Q :=
  portfolio <- get_user_portfolio user_id ;;
  match portfolio with
  | None => ret 100000
  | Some portfolio =>
      let total_value :=
        fold_left (holding_value feed) (Portfolio.holdings portfolio) (Portfolio.cash portfolio) in
      conn <- get_db_connection ;;
      match conn with
      | Some conn =>
          try_except
            (execute conn (sql_update_total_value total_value user_id) ;;
             commit conn)
            (fun _ => ret tt)
      | None => ret tt
      end ;;
      ret total_value
  end.

(** The result is [None] where the Python function falls off its end. *)
Definition update_portfolio_db (user_id : Z) (symbol action : string)
    (shares : Z) (price : Q) (company_name : string) : Eff (option (bool * Message)) :=
  portfolio <- get_user_portfolio user_id ;;
  match portfolio with
  | None => ret (Some (false, PortfolioNotFound))
  | Some portfolio =>
      let portfolio_id := Portfolio.portfolio_id portfolio in
      let cash := Portfolio.cash portfolio in
      let holdings := Portfolio.holdings portfolio in
      conn <- get_db_connection ;;
      match conn with
      | None => ret (Some (false, DatabaseConnectionFailed))
      | Some conn =>
          try_except
            (if String.eqb action "buy" then
               let total_cost := inject_Z shares * price in
               if negb (Qle_bool total_cost cash) then
                 ret (Some (false, InsufficientFunds))
               else
                 let new_cash := cash - total_cost in
                 execute conn (sql_update_cash new_cash portfolio_id) ;;
                 holding_exists <- execute conn (sql_select_holding_id portfolio_id symbol) ;;
                 (if holding_exists : bool
                  then execute conn (sql_update_holding_buy shares total_cost portfolio_id symbol)
                  else execute conn (sql_insert_holding portfolio_id symbol company_name
                                       shares price total_cost)) ;;
                 execute conn (sql_insert_order portfolio_id symbol company_name "buy"
                                 shares price total_cost None) ;;
                 commit conn ;;
                 ret (Some (true, BuyOrderExecuted))
             else if String.eqb action "sell" then
               match dict_get symbol holdings with
               | None => ret (Some (false, NoSharesToSell))
               | Some holding =>
                   if (Holding.shares holding <? shares)%Z then
                     ret (Some (false, InsufficientShares))
                   else
                     let avg_price := Holding.avg_price holding in
                     let profit_loss := (price - avg_price) * inject_Z shares in
                     let total_value := inject_Z shares * price in
                     let new_cash := cash + total_value in
                     execute conn (sql_update_cash new_cash portfolio_id) ;;
                     let remaining_shares := (Holding.shares holding - shares)%Z in
                     (if (remaining_shares =? 0)%Z
                      then execute conn (sql_delete_holding portfolio_id symbol)
                      else
                        let new_total_invested := inject_Z remaining_shares * avg_price in
                        execute conn (sql_update_holding_sell remaining_shares new_total_invested
                                        portfolio_id symbol)) ;;
                     execute conn (sql_insert_order portfolio_id symbol company_name "sell"
                                     shares price total_value (Some profit_loss)) ;;
                     commit conn ;;
                     ret (Some (true, SellOrderExecuted profit_loss))
               end
             else ret None)
            (fun e =>
               rollback conn ;;
               ret (Some (false, TransactionFailed e)))
      end
  end.

(** The arguments of [Portfolio.execute_trade], with the user of the portfolio. *)
Record Trade := mkTrade {
  t_user_id : Z;
  t_symbol : string;
  t_action : string;
  t_shares : Z;
  t_price : Q;
  t_company_name : string
}.

(** [Portfolio.execute_trade] hands the trade to [update_portfolio_db]. *)
Definition execute_trade (t : Trade) : Eff (option (bool * Message)) :=
  update_portfolio_db (t_user_id t) (t_symbol t) (t_action t) (t_shares t) (t_price t)
    (t_company_name t).

(** Trades run one after the other, each in the world the previous one left. *)
Fixpoint run_trades (ts : list Trade) (w : World) : World :=
  match ts with
  | [] => w
  | t :: rest => run_trades rest (exec (execute_trade t) w)
  end.

(** ** Definitions used to state the claims *)

(** The store before anyone registers; [SERIAL] ids start at 1. *)
Definition empty_database : Database := mkDatabase [] 1 [] [].

(** A world in which the store works and nothing was shown yet. *)
Definition healthy (d : Database) : World := mkWorld d [] [].

(** The row [fetchone()] finds for a user. *)
Definition row_of (user_id : Z) (d : Database) : option PortfolioRow :=
  find (fun r => (p_user_id r =? user_id)%Z) (tbl_portfolios d).

(** The dict [get_user_portfolio] builds from the row [r] of a user. *)
Definition read_portfolio (r : PortfolioRow) (d : Database) : Portfolio.t :=
  Portfolio.mk (p_cash r)
    (holdings_of_rows (filter (of_portfolio (p_id r)) (tbl_holdings d)))
    (map order_of_row
       (firstn 50 (rev (filter (order_of_portfolio (p_id r)) (tbl_orders d)))))
    (p_id r).

(** The store after the insert of a portfolio for [user_id]. *)
Definition provision (user_id : Z) (d : Database) : Database :=
  mkDatabase (tbl_portfolios d ++ [mkPortfolioRow (portfolios_id_seq d) user_id 100000 100000])
    (portfolios_id_seq d + 1)%Z (tbl_holdings d) (tbl_orders d).

Definition has_symbol (symbol : string) (r : HoldingRow) : bool :=
  String.eqb (h_symbol r) symbol.

(** The row of [symbol] that a load of portfolio [portfolio_id] puts in the dict. *)
Definition held (portfolio_id : Z) (symbol : string) (rows : list HoldingRow) : option HoldingRow :=
  find (has_symbol symbol) (rev (filter (of_portfolio portfolio_id) rows)).

(** The store after the three writes of a buy by the user of row [r], when
    every written value fits its column. *)
Definition after_buy (r : PortfolioRow) (symbol : string) (shares : Z) (price : Q)
    (company_name : string) (d : Database) : Database :=
  let total_cost := inject_Z shares * price in
  mkDatabase
    (map (with_cash (cents (p_cash r - total_cost)) (p_id r)) (tbl_portfolios d))
    (portfolios_id_seq d)
    (if existsb (holding_matches (p_id r) symbol) (tbl_holdings d)
     then map (fun x => if holding_matches (p_id r) symbol x
                        then bought shares total_cost x else x) (tbl_holdings d)
     else tbl_holdings d ++
          [mkHoldingRow (p_id r) symbol company_name shares (cents price) (cents total_cost)])
    (tbl_orders d ++
       [mkOrderRow (p_id r) symbol company_name "buy" shares (cents price) (cents total_cost)
          None]).

(** The store after the three writes of a sell of the holding [holding], when
    every written value fits its column. *)
Definition after_sell (r : PortfolioRow) (holding : Holding.t) (symbol : string) (shares : Z)
    (price : Q) (company_name : string) (d : Database) : Database :=
  let remaining_shares := (Holding.shares holding - shares)%Z in
  mkDatabase
    (map (with_cash (cents (p_cash r + inject_Z shares * price)) (p_id r)) (tbl_portfolios d))
    (portfolios_id_seq d)
    (if (remaining_shares =? 0)%Z
     then filter (fun x => negb (holding_matches (p_id r) symbol x)) (tbl_holdings d)
     else map (fun x => if holding_matches (p_id r) symbol x
                        then sold remaining_shares
                               (cents (inject_Z remaining_shares * Holding.avg_price holding)) x
                        else x) (tbl_holdings d))
    (tbl_orders d ++
       [mkOrderRow (p_id r) symbol company_name "sell" shares (cents price)
          (cents (inject_Z shares * price))
          (Some (cents ((price - Holding.avg_price holding) * inject_Z shares)))]).

(** An amount that a [DECIMAL(15,2)] column holds, with a margin of one. *)
Definition fits (x : Q) : Prop := Qabs x <= 9999999999999.

(** Two amounts less than a cent apart. *)
Definition within_a_cent (x y : Q) : Prop := Qabs (x - y) < 1 # 100.

(** Worlds used to run the code on concrete inputs: user 1 with a freshly
    provisioned portfolio, and the same user after buying 10 TCS at 100. *)
Definition fresh_world : World := healthy (provision 1 empty_database).

Definition world_after_first_buy : World :=
  exec (update_portfolio_db 1 "TCS" "buy" 10 100 "Tata") fresh_world.

(** User 1 after buying one share of TCS at 10. *)
Definition world_after_small_buy : World :=
  exec (update_portfolio_db 1 "TCS" "buy" 1 10 "Tata") fresh_world.

(** What a load shows of a holdings row: shares, average price, total invested. *)
Definition position (h : HoldingRow) : Z * Q * Q :=
  (h_shares h, h_avg_price h, h_total_invested h).

(** How the store [d] may differ from [d0] after a load for [user_id]: not
    at all, or by the portfolio provisioned for a user who had none. *)
Definition load_frame (user_id : Z) (d0 d : Database) : Prop :=
  d = d0 \/ (row_of user_id d0 = None /\ d = provision user_id d0).

(** Two buys of one share at 0.125, each a tie between two cents. *)
Definition tie_trades : list Trade :=
  [mkTrade 1 "TCS" "buy" 1 (1 # 8) "Tata"; mkTrade 1 "TCS" "buy" 1 (1 # 8) "Tata"].

(** Holdings and orders refer to portfolios that were created: their
    [portfolio_id] was drawn from the sequence of [portfolios.id]. *)
Definition referential_integrity (d : Database) : Prop :=
  (forall h, In h (tbl_holdings d) -> (h_portfolio_id h < portfolios_id_seq d)%Z) /\
  (forall o, In o (tbl_orders d) -> (o_portfolio_id o < portfolios_id_seq d)%Z).

(** [hoare P m Q E]: run from a store satisfying [P], the effect [m] either
    returns [a] in a store satisfying [Q a] or raises in a store satisfying
    [E], whatever outages are scheduled. *)
Definition hoare {A : Type} (P : Database -> Prop) (m : Eff A)
    (Q : A -> Database -> Prop) (E : Database -> Prop) : Prop :=
  forall w, P (db w) ->
    match m w with
    | (Return a, w') => Q a (db w')
    | (Raise _, w') => E (db w')
    end.

(** A statement that keeps an invariant of the store. *)
Definition stmt_keeps {A : Type} (I : Database -> Prop) (stmt : Stmt A) : Prop :=
  forall d a d', I d -> stmt d = inr (a, d') -> I d'.


(** Statements on [holdings] and [orders] leave [portfolios] alone. *)
Definition leaves_portfolios {A : Type} (stmt : Stmt A) : Prop :=
  forall d a d', stmt d = inr (a, d') -> tbl_portfolios d' = tbl_portfolios d.



(** The spec's scenarios 1 to 4, run one after the other for user 1. *)
Definition scenario_trades : list Trade :=
  [mkTrade 1 "TCS" "buy" 10 100 "Tata"; mkTrade 1 "TCS" "buy" 10 120 "Tata";
   mkTrade 1 "TCS" "sell" 5 150 EmptyString; mkTrade 1 "TCS" "sell" 15 90 EmptyString].

(** The store of [world_after_first_buy] when the next connection fails. *)
Definition world_without_connection : World :=
  mkWorld (db world_after_first_buy) [true] [].

(** The world after a valuation for user 1 at the quote 120 for every symbol. *)
Definition world_after_valuation : World :=
  exec (calculate_portfolio_value (fun _ => LastPrice 120) 1) world_after_first_buy.

(** The store fails at the ninth storage access of the call: the four of the
    load, the connection, the cash update, the holding lookup and the holding
    insert succeed, the insert of the order fails. *)
Definition order_insert_fails : World :=
  mkWorld (provision 1 empty_database)
    [false; false; false; false; false; false; false; false; true] [].

(** The statements a load executes after connecting: the select of the
    portfolio, then the selects of holdings and orders, or the insert of a
    new portfolio. *)
Definition load_statements (user_id : Z) (d : Database) : nat :=
  match row_of user_id d with
  | Some _ => 3
  | None => 2
  end.

(** An outage is scheduled for the connection or one of the statements of a load. *)
Definition storage_fails_during_load (user_id : Z) (w : World) : bool :=
  existsb (fun down => down) (firstn (S (load_statements user_id (db w))) (outages w)).

(** The part of a portfolio row that belongs to the ledger: everything but
    the cached [total_value]. *)
Definition ledger_part (r : PortfolioRow) : Z * Z * Q := (p_id r, p_user_id r, p_cash r).

Definition ledger_rows (d : Database) : list (Z * Z * Q) := map ledger_part (tbl_portfolios d).

(** How the store [d] may differ from [d0] after a valuation for [user_id]. *)
Definition valuation_frame (user_id : Z) (d0 d : Database) : Prop :=
  tbl_holdings d = tbl_holdings d0 /\
  tbl_orders d = tbl_orders d0 /\
  ((ledger_rows d = ledger_rows d0 /\ portfolios_id_seq d = portfolios_id_seq d0) \/
   (row_of user_id d0 = None /\
    ledger_rows d = ledger_rows d0 ++ [(portfolios_id_seq d0, user_id, 100000)])).

Definition counts_as (action : string) (portfolio_id : Z) (o : OrderRow) : bool :=
  order_of_portfolio portfolio_id o && String.eqb (o_action o) action.

Definition sum_totals (action : string) (portfolio_id : Z) (os : list OrderRow) : Q :=
  fold_right Qplus 0 (map o_total (filter (counts_as action portfolio_id) os)).

(** The sum of the [total] of the orders of a portfolio with the given action. *)
Definition order_totals (action : string) (portfolio_id : Z) (d : Database) : Q :=
  sum_totals action portfolio_id (tbl_orders d).

(** The sum of [total_invested] over the holdings of a portfolio. *)
Definition invested (portfolio_id : Z) (d : Database) : Q :=
  fold_right Qplus 0
    (map h_total_invested (filter (of_portfolio portfolio_id) (tbl_holdings d))).

(** A run of trades that all report success. *)
Fixpoint successful_run (ts : list Trade) (w : World) : option World :=
  match ts with
  | [] => Some w
  | t :: rest =>
      match execute_trade t w with
      | (Return (Some (true, _)), w') => successful_run rest w'
      | _ => None
      end
  end.

(** The cash of the user less the sells plus the buys of the portfolio: the
    quantity a successful trade keeps. *)
Definition cash_less_flow (r : PortfolioRow) (d : Database) : Q :=
  p_cash r + order_totals "buy" (p_id r) d - order_totals "sell" (p_id r) d.

(** ** Definitions used to state further properties of the ledger *)

(** The key of a holding: the portfolio and the symbol. *)
Definition holding_key (h : HoldingRow) : Z * string := (h_portfolio_id h, h_symbol h).

(** No portfolio has two holdings rows for one symbol. *)
Definition unique_holdings (d : Database) : Prop :=
  NoDup (map holding_key (tbl_holdings d)).

(** Every holdings row has a positive number of shares. *)
Definition positive_holdings (d : Database) : Prop :=
  Forall (fun h => (0 < h_shares h)%Z) (tbl_holdings d).

(** Every holdings row has [total_invested = shares * avg_price]. *)
Definition consistent_holdings (d : Database) : Prop :=
  Forall (fun h => h_total_invested h == inject_Z (h_shares h) * h_avg_price h)
    (tbl_holdings d).

(** The dict entry of [symbol] in a loaded portfolio comes from the row that
    the holdings table [hs] holds for it. *)
Definition dict_from_rows (symbol : string) (p : Portfolio.t) (hs : list HoldingRow) : Prop :=
  forall h, dict_get symbol (Portfolio.holdings p) = Some h ->
            exists row, held (Portfolio.portfolio_id p) symbol hs = Some row /\
                        h = holding_of_row row.

(** An order row that records the trade, its amounts rounded to the cent. *)
Definition records_trade (symbol action company_name : string) (shares : Z) (price : Q)
    (row : OrderRow) : Prop :=
  o_symbol row = symbol /\ o_company_name row = company_name /\ o_action row = action /\
  o_shares row = shares /\
  within_a_cent (o_price row) price /\
  within_a_cent (o_total row) (inject_Z shares * price).

(** The id of the portfolio a call for [user_id] works on when its load
    succeeds: the id of the user's row, or the id the next insert will draw. *)
Definition own_portfolio_id (user_id : Z) (d : Database) : Z :=
  match row_of user_id d with
  | Some r => p_id r
  | None => portfolios_id_seq d
  end.

(** Everything the store holds about portfolio [q]. *)
Definition slice (q : Z) (d : Database)
  : list PortfolioRow * list HoldingRow * list OrderRow :=
  (filter (fun r => (p_id r =? q)%Z) (tbl_portfolios d),
   filter (of_portfolio q) (tbl_holdings d),
   filter (order_of_portfolio q) (tbl_orders d)).

(** A price feed that has no price for any symbol: the lookup raises or
    yields no [last_price]. *)
Definition feed_down (feed : string -> Quote) : Prop :=
  forall symbol, feed symbol = NoLastPrice \/ feed symbol = FeedException.

Open Scope Z_scope.

(** ** Market hours *)

(** A naive [datetime]: the proleptic Gregorian ordinal of its date
    ([date.toordinal()]) and the microseconds since midnight of its time. *)
Record datetime := mkDatetime {
  ordinal : Z;
  micros : Z
}.

Definition day_micros : Z := 86400000000.

(** [time(hour, minute)] as microseconds since midnight. *)
Definition time (hour minute : Z) : Z := (hour * 3600 + minute * 60) * 1000000.

(** [timedelta(minutes=n)] and [timedelta(days=n)] in microseconds. *)
Definition minutes (n : Z) : Z := n * 60000000.
Definition days (n : Z) : Z := n * day_micros.

(** A valid [datetime] has its time within the day. *)
Definition valid_datetime (dt : datetime) : Prop := 0 <= micros dt < day_micros.

(** Microseconds since the midnight that starts ordinal 0. *)
Definition timestamp (dt : datetime) : Z := ordinal dt * day_micros + micros dt.

(** [dt - timedelta]: exact arithmetic, renormalised to a date and a time. *)
Definition minus_timedelta (dt : datetime) (delta : Z) : datetime :=
  mkDatetime ((timestamp dt - delta) / day_micros) ((timestamp dt - delta) mod day_micros).

(** [datetime.combine(dt.date(), t)]. *)
Definition combine_date (dt : datetime) (t : Z) : datetime := mkDatetime (ordinal dt) t.

(** [dt.weekday()]: Monday is 0 and Sunday is 6. *)
Definition weekday (dt : datetime) : Z := (ordinal dt + 6) mod 7.

(** [is_market_open_now], as a function of [datetime.now()]. *)
Definition is_market_open_now (now : datetime) : bool :=
  let current_time := micros now in
  let market_open := time 9 15 in
  let market_close := time 15 30 in
  let is_weekday := weekday now <? 5 in
  is_weekday && ((market_open <=? current_time) && (current_time <=? market_close)).

(** [get_live_data_period], as a function of [datetime.now()]: the pair
    [(start_time, end_time)]. *)
Definition get_live_data_period (now : datetime) : datetime * datetime :=
  let start_time := minus_timedelta now (minutes 30) in
  let current_time := micros now in
  let market_open := time 9 15 in
  if current_time <? market_open then
    let yesterday := minus_timedelta now (days 1) in
    let market_close_yesterday := time 15 30 in
    let start_time :=
      minus_timedelta (combine_date yesterday market_close_yesterday) (minutes 30) in
    let end_time := combine_date yesterday market_close_yesterday in
    (start_time, end_time)
  else
    let end_time := now in
    (start_time, end_time).

Close Scope Z_scope.

(** ** Accounts, watchlists and learning progress *)

(** The tables [users], [watchlists] and [learning_progress].  As for the
    ledger tables, the timestamp columns and the serial ids of [watchlists]
    and [learning_progress] are left out; [u_last_login] tells whether
    [last_login] is set or still NULL. *)
Record UserRow := mkUserRow {
  u_id : Z;
  u_username : string;
  u_email : string;
  u_password_hash : string;
  u_last_login : bool
}.

Record WatchlistRow := mkWatchlistRow {
  wl_user_id : Z;
  wl_symbol : string;
  wl_company_name : string;
  wl_notes : string
}.

Record ProgressRow := mkProgressRow {
  lp_user_id : Z;
  lp_course_category : string;
  lp_lesson_name : string;
  lp_completed : bool
}.

(** What a statement on these tables can raise. *)
Inductive SiteError :=
| StoreError (e : DbError)   (* as for the ledger tables *)
| UniqueViolation            (* a UNIQUE constraint *)
| DuplicateTable.            (* CREATE TABLE of a table that exists *)

(** The message of a result tuple of the account and watchlist functions. *)
Inductive SiteMessage :=
| ConnectionFailed                           (* "Database connection failed" *)
| UsernameOrEmailExists
| RegistrationSuccessful
| RegistrationFailed (e : SiteError)         (* "Registration failed: ..." *)
| InvalidUsernameOrPassword
| LoginSuccessful
| LoginFailed (e : SiteError)                (* "Login failed: ..." *)
| StockAlreadyInWatchlist
| AddedToWatchlist
| FailedToAddToWatchlist (e : SiteError)     (* "Failed to add to watchlist: ..." *)
| RemovedFromWatchlist
| FailedToRemoveFromWatchlist (e : SiteError).

(** What [st.warning], [st.info], [st.success] and the [st.error] calls outside
    the ledger functions show. *)
Inductive Notice :=
| DemoModeWarning                            (* "Running in demo mode - ..." *)
| CreatingTables
| TablesCreated
| TablesAlreadyExist
| ErrorInitializingDatabase (e : SiteError)
| ErrorGettingWatchlist (e : SiteError)
| ErrorGettingLearningProgress (e : SiteError)
| ErrorMarkingLessonComplete (e : SiteError).

(** The whole application state: the world of the ledger functions, the
    other tables, what was shown, and the connection kept by the one
    [DatabaseManager] instance. *)
Record Site := mkSite {
  world : World;
  tbl_users : list UserRow;
  users_id_seq : Z;
  tbl_watchlists : list WatchlistRow;
  tbl_learning_progress : list ProgressRow;
  notices : list Notice;
  manager_connection : option Connection
}.

Definition set_world (w : World) (s : Site) : Site :=
  mkSite w (tbl_users s) (users_id_seq s) (tbl_watchlists s) (tbl_learning_progress s)
    (notices s) (manager_connection s).

Definition set_users (us : list UserRow) (s : Site) : Site :=
  mkSite (world s) us (users_id_seq s) (tbl_watchlists s) (tbl_learning_progress s)
    (notices s) (manager_connection s).

Definition set_users_id_seq (n : Z) (s : Site) : Site :=
  mkSite (world s) (tbl_users s) n (tbl_watchlists s) (tbl_learning_progress s)
    (notices s) (manager_connection s).

Definition set_watchlists (ws : list WatchlistRow) (s : Site) : Site :=
  mkSite (world s) (tbl_users s) (users_id_seq s) ws (tbl_learning_progress s)
    (notices s) (manager_connection s).

Definition set_learning_progress (ls : list ProgressRow) (s : Site) : Site :=
  mkSite (world s) (tbl_users s) (users_id_seq s) (tbl_watchlists s) ls
    (notices s) (manager_connection s).

Definition set_manager_connection (c : option Connection) (s : Site) : Site :=
  mkSite (world s) (tbl_users s) (users_id_seq s) (tbl_watchlists s) (tbl_learning_progress s)
    (notices s) c.

Inductive SiteOutcome (A : Type) :=
| Returns (a : A)
| Raises (e : SiteError).
Arguments Returns {A} a.
Arguments Raises {A} e.

Definition SiteEff (A : Type) : Type := Site -> SiteOutcome A * Site.

Definition site_ret {A : Type} (a : A) : SiteEff A := fun s => (Returns a, s).

Definition site_bind {A B : Type} (m : SiteEff A) (k : A -> SiteEff B) : SiteEff B :=
  fun s =>
    match m s with
    | (Returns a, s1) => k a s1
    | (Raises e, s1) => (Raises e, s1)
    end.

Definition site_exec {A : Type} (m : SiteEff A) (s : Site) : Site := snd (m s).

Definition site_result {A : Type} (m : SiteEff A) (s : Site) : SiteOutcome A := fst (m s).

Declare Scope site_scope.
Delimit Scope site_scope with site.
Notation "x <- m ;; k" := (site_bind m (fun x => k))
  (at level 100, m at next level, right associativity) : site_scope.
Notation "m ;; k" := (site_bind m (fun _ => k))
  (at level 100, right associativity) : site_scope.
Open Scope site_scope.

(** [try: body except Exception as e: handler e]. *)
Definition site_try {A : Type} (body : SiteEff A) (handler : SiteError -> SiteEff A) : SiteEff A :=
  fun s =>
    match body s with
    | (Returns a, s1) => (Returns a, s1)
    | (Raises e, s1) => handler e s1
    end.

(** A ledger effect run inside the site. *)
Definition lift {A : Type} (m : Eff A) : SiteEff A :=
  fun s =>
    match m (world s) with
    | (Return a, w1) => (Returns a, set_world w1 s)
    | (Raise e, w1) => (Raises (StoreError e), set_world w1 s)
    end.

Definition st_notice (n : Notice) : SiteEff unit :=
  fun s =>
    (Returns tt,
     mkSite (world s) (tbl_users s) (users_id_seq s) (tbl_watchlists s)
       (tbl_learning_progress s) (notices s ++ [n]) (manager_connection s)).

(** A statement on the site's tables: what it raises or returns, and the store
    it leaves (a failed INSERT still consumes a value of its sequence). *)
Definition SiteStmt (A : Type) : Type := Site -> (SiteError + A) * Site.

Definition site_query {A : Type} (f : Site -> A) : SiteStmt A :=
  fun s => (inr (f s), s).

(** [cur.execute(stmt, params)] on an autocommit connection. *)
Definition site_execute {A : Type} (conn : Connection) (stmt : SiteStmt A) : SiteEff A :=
  fun s =>
    let (down, w1) := next_outage (world s) in
    let s1 := set_world w1 s in
    if down then (Raises (StoreError OperationalError), s1)
    else
      match stmt s1 with
      | (inl e, s2) => (Raises e, s2)
      | (inr a, s2) => (Returns a, s2)
      end.

Definition user_exists (user_id : Z) (s : Site) : bool :=
  existsb (fun r => (u_id r =? user_id)%Z) (tbl_users s).

(** *** Statements on [users] *)

Definition username_or_email (username email : string) (r : UserRow) : bool :=
  String.eqb (u_username r) username || String.eqb (u_email r) email.

(** [SELECT id FROM users WHERE username = %s OR email = %s] then
    [fetchone()]; only the truth value of the result is used. *)
Definition sql_select_user_id (username email : string) : SiteStmt bool :=
  site_query (fun s => existsb (username_or_email username email) (tbl_users s)).

(** [INSERT INTO users (username, email, password_hash) VALUES (%s, %s, %s)
     RETURNING id] then [fetchone()[0]]; [username] and [email] are UNIQUE. *)
Definition sql_insert_user (username email password_hash : string) : SiteStmt Z :=
  fun s =>
    let new_id := users_id_seq s in
    if existsb (username_or_email username email) (tbl_users s)
    then (inl UniqueViolation, set_users_id_seq (new_id + 1)%Z s)
    else
      (inr new_id,
       set_users_id_seq (new_id + 1)%Z
         (set_users (tbl_users s ++ [mkUserRow new_id username email password_hash false]) s)).

(** [INSERT INTO portfolios (user_id) VALUES (%s)], with
    [user_id REFERENCES users(id)]. *)
Definition sql_insert_user_portfolio (user_id : Z) : SiteStmt unit :=
  fun s =>
    match sql_insert_portfolio user_id (db (world s)) with
    | inr (_, d') =>
        if user_exists user_id s
        then (inr tt, set_world (set_db d' (world s)) s)
        else (inl (StoreError ForeignKeyViolation),
              set_world (set_db (mkDatabase (tbl_portfolios (db (world s)))
                                   (portfolios_id_seq d') (tbl_holdings (db (world s)))
                                   (tbl_orders (db (world s)))) (world s)) s)
    | inl e => (inl (StoreError e), s)
    end.

(** [SELECT id, username, password_hash FROM users WHERE username = %s] then
    [fetchone()]. *)
Definition sql_select_user (username : string) : SiteStmt (option (Z * string * string)) :=
  site_query (fun s =>
    match find (fun r => String.eqb (u_username r) username) (tbl_users s) with
    | Some r => Some (u_id r, u_username r, u_password_hash r)
    | None => None
    end).

(** [UPDATE users SET last_login = CURRENT_TIMESTAMP WHERE id = %s]. *)
Definition logged_in (user_id : Z) (r : UserRow) : UserRow :=
  if (u_id r =? user_id)%Z
  then mkUserRow (u_id r) (u_username r) (u_email r) (u_password_hash r) true
  else r.

Definition sql_update_last_login (user_id : Z) : SiteStmt unit :=
  fun s => (inr tt, set_users (map (logged_in user_id) (tbl_users s)) s).

(** *** Statements on [watchlists] *)

Definition watch_matches (user_id : Z) (symbol : string) (r : WatchlistRow) : bool :=
  (wl_user_id r =? user_id)%Z && String.eqb (wl_symbol r) symbol.

Definition watched_by (user_id : Z) (r : WatchlistRow) : bool :=
  (wl_user_id r =? user_id)%Z.

(** [SELECT id FROM watchlists WHERE user_id = %s AND symbol = %s] then
    [fetchone()]; only the truth value of the result is used. *)
Definition sql_select_watchlist_id (user_id : Z) (symbol : string) : SiteStmt bool :=
  site_query (fun s => existsb (watch_matches user_id symbol) (tbl_watchlists s)).

(** [INSERT INTO watchlists (user_id, symbol, company_name, notes)
     VALUES (...)], with [UNIQUE(user_id, symbol)] and
    [user_id REFERENCES users(id)]. *)
Definition sql_insert_watchlist (user_id : Z) (symbol company_name notes : string)
    : SiteStmt unit :=
  fun s =>
    if existsb (watch_matches user_id symbol) (tbl_watchlists s)
    then (inl UniqueViolation, s)
    else if user_exists user_id s
    then (inr tt,
          set_watchlists
            (tbl_watchlists s ++ [mkWatchlistRow user_id symbol company_name notes]) s)
    else (inl (StoreError ForeignKeyViolation), s).

(** [DELETE FROM watchlists WHERE user_id = %s AND symbol = %s]. *)
Definition sql_delete_watchlist (user_id : Z) (symbol : string) : SiteStmt unit :=
  fun s =>
    (inr tt,
     set_watchlists
       (filter (fun r => negb (watch_matches user_id symbol r)) (tbl_watchlists s)) s).

(** [SELECT symbol, company_name, notes, added_at FROM watchlists
     WHERE user_id = %s ORDER BY added_at DESC] then [fetchall()]: rows are
    kept in insertion order, so the most recent ones are the last ones. *)
Definition sql_select_watchlist (user_id : Z) : SiteStmt (list WatchlistRow) :=
  site_query (fun s => rev (filter (watched_by user_id) (tbl_watchlists s))).

(** *** Statements on [learning_progress] *)

Definition lesson_matches (user_id : Z) (course_category lesson_name : string)
    (r : ProgressRow) : bool :=
  (lp_user_id r =? user_id)%Z
  && String.eqb (lp_course_category r) course_category
  && String.eqb (lp_lesson_name r) lesson_name.

Definition progress_of (user_id : Z) (r : ProgressRow) : bool :=
  (lp_user_id r =? user_id)%Z.

(** [SELECT course_category, lesson_name, completed FROM learning_progress
     WHERE user_id = %s] then [fetchall()]. *)
Definition sql_select_progress (user_id : Z) : SiteStmt (list ProgressRow) :=
  site_query (fun s => filter (progress_of user_id) (tbl_learning_progress s)).

(** [SELECT completed FROM learning_progress WHERE user_id = %s AND
     course_category = %s AND lesson_name = %s] then [fetchone()]. *)
Definition sql_select_completed (user_id : Z) (course_category lesson_name : string)
    : SiteStmt (option bool) :=
  site_query (fun s =>
    match find (lesson_matches user_id course_category lesson_name)
            (tbl_learning_progress s) with
    | Some r => Some (lp_completed r)
    | None => None
    end).

(** [UPDATE learning_progress SET completed = TRUE, completed_at = ...
     WHERE user_id = %s AND course_category = %s AND lesson_name = %s]. *)
Definition completed_row (user_id : Z) (course_category lesson_name : string)
    (r : ProgressRow) : ProgressRow :=
  if lesson_matches user_id course_category lesson_name r
  then mkProgressRow (lp_user_id r) (lp_course_category r) (lp_lesson_name r) true
  else r.

Definition sql_update_completed (user_id : Z) (course_category lesson_name : string)
    : SiteStmt unit :=
  fun s =>
    (inr tt,
     set_learning_progress
       (map (completed_row user_id course_category lesson_name) (tbl_learning_progress s)) s).

(** [INSERT INTO learning_progress (user_id, course_category, lesson_name,
     completed, completed_at) VALUES (%s, %s, %s, TRUE, CURRENT_TIMESTAMP)],
    with [UNIQUE(user_id, course_category, lesson_name)] and
    [user_id REFERENCES users(id)]. *)
Definition sql_insert_completed (user_id : Z) (course_category lesson_name : string)
    : SiteStmt unit :=
  fun s =>
    if existsb (lesson_matches user_id course_category lesson_name) (tbl_learning_progress s)
    then (inl UniqueViolation, s)
    else if user_exists user_id s
    then (inr tt,
          set_learning_progress
            (tbl_learning_progress s ++
               [mkProgressRow user_id course_category lesson_name true]) s)
    else (inl (StoreError ForeignKeyViolation), s).

(** *** Setting up the tables *)

(** [SELECT EXISTS (SELECT FROM information_schema.tables WHERE table_name =
     'users')]: the store of the model has its tables. *)
Definition sql_users_table_exists : SiteStmt bool := site_query (fun _ => true).

(** The [CREATE TABLE] script, run on a store that has the tables. *)
Definition sql_create_tables : SiteStmt unit := fun s => (inl DuplicateTable, s).

(** [finally: if conn: conn.close()] has no effect on the store. *)
Definition initialize_database : SiteEff bool :=
  conn <- lift get_db_connection ;;
  match conn with
  | None => st_notice DemoModeWarning ;; site_ret false
  | Some conn =>
      site_try
        (table_exists <- site_execute conn sql_users_table_exists ;;
         (if negb table_exists then
            st_notice CreatingTables ;;
            site_execute conn sql_create_tables ;;
            lift (commit conn) ;;
            st_notice TablesCreated
          else st_notice TablesAlreadyExist) ;;
         site_ret true)
        (fun e => st_notice (ErrorInitializingDatabase e) ;; site_ret false)
  end.

(** *** Accounts *)

Section Accounts.

(** [hashlib.sha256(password.encode()).hexdigest()]. *)
Variable sha256_hexdigest : string -> string.

Definition hash_password (password : string) : string := sha256_hexdigest password.

Definition verify_password (stored_password provided_password : string) : bool :=
  String.eqb stored_password (hash_password provided_password).

Definition register_user (username email password : string)
    : SiteEff (bool * SiteMessage * option Z) :=
  conn <- lift get_db_connection ;;
  match conn with
  | None => site_ret (false, ConnectionFailed, None)
  | Some conn =>
      site_try
        (taken <- site_execute conn (sql_select_user_id username email) ;;
         if taken : bool then site_ret (false, UsernameOrEmailExists, None)
         else
           let password_hash := hash_password password in
           user_id <- site_execute conn (sql_insert_user username email password_hash) ;;
           site_execute conn (sql_insert_user_portfolio user_id) ;;
           lift (commit conn) ;;
           initialize_database ;;
           site_ret (true, RegistrationSuccessful, Some user_id))
        (fun e => site_ret (false, RegistrationFailed e, None))
  end.

Definition login_user (username password : string)
    : SiteEff (bool * SiteMessage * option Z) :=
  conn <- lift get_db_connection ;;
  match conn with
  | None => site_ret (false, ConnectionFailed, None)
  | Some conn =>
      site_try
        (user <- site_execute conn (sql_select_user username) ;;
         match user with
         | None => site_ret (false, InvalidUsernameOrPassword, None)
         | Some (user_id, _, stored_hash) =>
             if negb (verify_password stored_hash password) then
               site_ret (false, InvalidUsernameOrPassword, None)
             else
               site_execute conn (sql_update_last_login user_id) ;;
               lift (commit conn) ;;
               site_ret (true, LoginSuccessful, Some user_id)
         end)
        (fun e => site_ret (false, LoginFailed e, None))
  end.

End Accounts.

(** *** Watchlists *)

(** An element of the list returned by [get_watchlist]. *)
Module WatchlistItem.
Record t := mk {
  symbol : string;
  company_name : string;
  notes : string
}.
End WatchlistItem.

Definition watchlist_item_of_row (r : WatchlistRow) : WatchlistItem.t :=
  WatchlistItem.mk (wl_symbol r) (wl_company_name r) (wl_notes r).

Definition add_to_watchlist (user_id : Z) (symbol company_name notes : string)
    : SiteEff (bool * SiteMessage) :=
  conn <- lift get_db_connection ;;
  match conn with
  | None => site_ret (false, ConnectionFailed)
  | Some conn =>
      site_try
        (listed <- site_execute conn (sql_select_watchlist_id user_id symbol) ;;
         if listed : bool then site_ret (false, StockAlreadyInWatchlist)
         else
           site_execute conn (sql_insert_watchlist user_id symbol company_name notes) ;;
           lift (commit conn) ;;
           site_ret (true, AddedToWatchlist))
        (fun e => site_ret (false, FailedToAddToWatchlist e))
  end.

Definition remove_from_watchlist (user_id : Z) (symbol : string)
    : SiteEff (bool * SiteMessage) :=
  conn <- lift get_db_connection ;;
  match conn with
  | None => site_ret (false, ConnectionFailed)
  | Some conn =>
      site_try
        (site_execute conn (sql_delete_watchlist user_id symbol) ;;
         lift (commit conn) ;;
         site_ret (true, RemovedFromWatchlist))
        (fun e => site_ret (false, FailedToRemoveFromWatchlist e))
  end.

Definition get_watchlist (user_id : Z) : SiteEff (list WatchlistItem.t) :=
  conn <- lift get_db_connection ;;
  match conn with
  | None => site_ret []
  | Some conn =>
      site_try
        (rows <- site_execute conn (sql_select_watchlist user_id) ;;
         let watchlist := map watchlist_item_of_row rows in
         site_ret watchlist)
        (fun e => st_notice (ErrorGettingWatchlist e) ;; site_ret [])
  end.

(** *** Definitions used to state the properties of accounts and watchlists *)

(** A site in which the store works. *)
Definition working (s : Site) : Prop := outages (world s) = [].

(** The watchlist of a user as [get_watchlist] reads it from the table. *)
Definition watchlist_of (user_id : Z) (s : Site) : list WatchlistItem.t :=
  map watchlist_item_of_row (rev (filter (watched_by user_id) (tbl_watchlists s))).

Definition username_taken (username : string) (s : Site) : bool :=
  existsb (fun r => String.eqb (u_username r) username) (tbl_users s).

Definition email_taken (email : string) (s : Site) : bool :=
  existsb (fun r => String.eqb (u_email r) email) (tbl_users s).

(** Portfolios belong to accounts that were created: their [user_id] was drawn
    from the sequence of [users.id]. *)
Definition portfolios_of_accounts (s : Site) : Prop :=
  forall p, In p (tbl_portfolios (db (world s))) -> (p_user_id p < users_id_seq s)%Z.

(** A site with the given tables of accounts and watchlists, an empty ledger
    and a working store. *)
Definition site_with (us : list UserRow) (next_user : Z) (ws : list WatchlistRow) : Site :=
  mkSite (healthy empty_database) us next_user ws [] [] None.

(** A site with one account, of user 1, who has no portfolio row. *)
Definition account_without_portfolio : Site :=
  site_with [mkUserRow 1 "asha" "asha@example.com" "5e88" false] 2 [].

(** *** Learning progress *)

(** [DatabaseManager.get_connection]: the one instance keeps its connection
    and connects only when it has none.  Nothing in the application closes
    that connection, so [self.connection.closed] is false for a kept one. *)
Definition get_connection : SiteEff (option Connection) :=
  fun s =>
    match manager_connection s with
    | Some conn => (Returns (Some conn), s)
    | None =>
        let (down, w1) := next_outage (world s) in
        if down
        then (Returns None, set_world (exec (st_error DatabaseConnectionError) w1) s)
        else
          let conn := mkConnection true (db w1) in
          (Returns (Some conn), set_manager_connection (Some conn) (set_world w1 s))
    end.

(** A [User] object. *)
Module User.
Record t := mk {
  user_id : Z;
  username : string
}.
End User.

(** A [dict] with string keys, in insertion order. *)
Fixpoint assoc_get {V : Type} (k : string) (d : list (string * V)) : option V :=
  match d with
  | [] => None
  | (k', v) :: rest => if String.eqb k' k then Some v else assoc_get k rest
  end.

Fixpoint assoc_set {V : Type} (k : string) (v : V) (d : list (string * V))
    : list (string * V) :=
  match d with
  | [] => [(k, v)]
  | (k', v') :: rest =>
      if String.eqb k' k then (k', v) :: rest else (k', v') :: assoc_set k v rest
  end.

(** A value of the dict returned by [get_learning_progress]. *)
Module CategoryProgress.
Record t := mk {
  completed : Z;
  total : Z;
  lessons : list (string * bool)
}.
End CategoryProgress.

(** One round of the loop over the rows of the user: the entry of the
    category is created on its first row, then updated in place. *)
Definition count_lesson (progress : list (string * CategoryProgress.t)) (row : ProgressRow)
    : list (string * CategoryProgress.t) :=
  let category := lp_course_category row in
  let lesson := lp_lesson_name row in
  let completed := lp_completed row in
  let entry :=
    match assoc_get category progress with
    | Some entry => entry
    | None => CategoryProgress.mk 0 0 []
    end in
  assoc_set category
    (CategoryProgress.mk
       (CategoryProgress.completed entry + (if completed then 1 else 0))
       (CategoryProgress.total entry + 1)
       (assoc_set lesson completed (CategoryProgress.lessons entry)))
    progress.

(** One round of the loop over the categories of [STOCK_MARKET_COURSES]; the
    table maps a category to its lessons, of which only the number is used. *)
Definition set_total (progress : list (string * CategoryProgress.t))
    (course : string * list string) : list (string * CategoryProgress.t) :=
  let (category, course_lessons) := course in
  match assoc_get category progress with
  | None =>
      assoc_set category
        (CategoryProgress.mk 0 (Z.of_nat (List.length course_lessons)) []) progress
  | Some entry =>
      assoc_set category
        (CategoryProgress.mk (CategoryProgress.completed entry)
           (Z.of_nat (List.length course_lessons)) (CategoryProgress.lessons entry))
        progress
  end.

Section Courses.

(** [STOCK_MARKET_COURSES]: the lesson names of each category, in the order
    of the dict; its keys are distinct. *)
Variable STOCK_MARKET_COURSES : list (string * list string).

Definition get_learning_progress (self : User.t)
    : SiteEff (list (string * CategoryProgress.t)) :=
  conn <- get_connection ;;
  match conn with
  | None => site_ret []
  | Some conn =>
      site_try
        (rows <- site_execute conn (sql_select_progress (User.user_id self)) ;;
         let progress := fold_left count_lesson rows [] in
         let progress := fold_left set_total STOCK_MARKET_COURSES progress in
         site_ret progress)
        (fun e => st_notice (ErrorGettingLearningProgress e) ;; site_ret [])
  end.

End Courses.

Definition mark_lesson_complete (self : User.t) (course_category lesson_name : string)
    : SiteEff bool :=
  conn <- get_connection ;;
  match conn with
  | None => site_ret false
  | Some conn =>
      site_try
        (existing <- site_execute conn
                       (sql_select_completed (User.user_id self) course_category lesson_name) ;;
         match existing with
         | Some true => site_ret false
         | Some false =>
             site_execute conn
               (sql_update_completed (User.user_id self) course_category lesson_name) ;;
             lift (commit conn) ;;
             site_ret true
         | None =>
             site_execute conn
               (sql_insert_completed (User.user_id self) course_category lesson_name) ;;
             lift (commit conn) ;;
             site_ret true
         end)
        (fun e =>
           lift (rollback conn) ;;
           st_notice (ErrorMarkingLessonComplete e) ;;
           site_ret false)
  end.

(** What [learning_progress] records about a lesson of a user: no row, or the
    [completed] flag of the row. *)
Definition recorded (user_id : Z) (course_category lesson_name : string) (s : Site)
    : option bool :=
  match find (lesson_matches user_id course_category lesson_name)
          (tbl_learning_progress s) with
  | Some r => Some (lp_completed r)
  | None => None
  end.

(** The number of rows of a category among [rows] that are completed. *)
Definition completed_in (course_category : string) (rows : list ProgressRow) : Z :=
  Z.of_nat (List.length (filter (fun r => String.eqb (lp_course_category r) course_category
                                      && lp_completed r) rows)).

(** [site_hoare P m Q E]: run from a site satisfying [P], the effect [m]
    either returns [a] in a site satisfying [Q a] or raises [e] in a site
    satisfying [E e], whatever outages are scheduled. *)
Definition site_hoare {A : Type} (P : Site -> Prop) (m : SiteEff A)
    (Q : A -> Site -> Prop) (E : SiteError -> Site -> Prop) : Prop :=
  forall s, P s ->
    match m s with
    | (Returns a, s') => Q a s'
    | (Raises e, s') => E e s'
    end.

(** A property of the tables of accounts, watchlists and learning progress:
    it does not look at the world, at what was shown or at the kept
    connection. *)
Definition of_tables (P : Site -> Prop) : Prop :=
  forall s w n c,
    P s ->
    P (mkSite w (tbl_users s) (users_id_seq s) (tbl_watchlists s)
         (tbl_learning_progress s) n c).

Close Scope site_scope.

(** ** The [Stock] and [Portfolio] classes *)

(** What [ticker.history(period="1d")] answers for a symbol: the [Close]
    column of the frame, oldest first, or an exception. *)
Inductive History :=
| Closes (closes : list Q)
| HistoryException.

(** [Stock(symbol).get_current_price()]: the last price of the feed, else the
    last close of the day's history, else [None]; any exception gives [None]. *)
Definition get_current_price (feed : string -> Quote) (history : string -> History)
    (symbol : string) : option Q :=
  match feed symbol with
  | LastPrice price => Some price
  | NoLastPrice =>
      match history symbol with
      | Closes closes =>
          match rev closes with
          | last_close :: _ => Some last_close
          | [] => None
          end
      | HistoryException => None
      end
  | FeedException => None
  end.

(** A [Portfolio] object: its user and the portfolio it has loaded, if any. *)
Module PortfolioObject.
Record t := mk {
  user : User.t;
  portfolio_data : option Portfolio.t
}.
End PortfolioObject.

(** [Portfolio.load_portfolio]: the loaded dict and the object that keeps it. *)
Definition load_portfolio (self : PortfolioObject.t)
    : Eff (option Portfolio.t * PortfolioObject.t) :=
  portfolio_data <- get_user_portfolio (User.user_id (PortfolioObject.user self)) ;;
  ret (portfolio_data, PortfolioObject.mk (PortfolioObject.user self) portfolio_data).

(** One round of the loop of [Portfolio.get_total_value]. *)
Definition stock_value (feed : string -> Quote) (history : string -> History)
    (total_value : Q) (item : string * Holding.t) : Q :=
  let (symbol, holding) := item in
  let current_price :=
    match get_current_price feed history symbol with
    | Some current_price => current_price
    | None => Holding.avg_price holding
    end in
  total_value + inject_Z (Holding.shares holding) * current_price.

(** [Portfolio.get_total_value]: the total and the object, which loads its
    portfolio only when it has none. *)
Definition get_total_value (feed : string -> Quote) (history : string -> History)
    (self : PortfolioObject.t) : Eff (Q * PortfolioObject.t) :=
  self <- match PortfolioObject.portfolio_data self with
          | Some _ => ret self
          | None => loaded <- load_portfolio self ;; ret (snd loaded)
          end ;;
  match PortfolioObject.portfolio_data self with
  | None => ret (100000, self)
  | Some portfolio_data =>
      let total_value :=
        fold_left (stock_value feed history) (Portfolio.holdings portfolio_data)
          (Portfolio.cash portfolio_data) in
      ret (total_value, self)
  end.

(** The price history has nothing to add to the feed: where the feed has no
    last price, the day's history is empty or cannot be read. *)
Definition history_adds_nothing (feed : string -> Quote) (history : string -> History) : Prop :=
  forall symbol,
    feed symbol = NoLastPrice ->
    history symbol = Closes [] \/ history symbol = HistoryException.

(** * Reasoning about the model *)

Arguments Qplus : simpl never.
Arguments Qminus : simpl never.
Arguments Qmult : simpl never.
Arguments Qdiv : simpl never.
Arguments Qle_bool : simpl never.
Arguments Qeq_bool : simpl never.
Arguments inject_Z : simpl never.
Arguments firstn : simpl never.
Arguments cents : simpl never.
Arguments numeric_15_2 : simpl never.
Arguments int4 : simpl never.

(** ** Rounding to the cent *)

Lemma round_half_away_close (y : Q) :
  y - (1 # 2) <= inject_Z (round_half_away y) <= y + (1 # 2).
Proof.
  unfold round_half_away. destruct (Qle_bool 0 y).
  - pose proof (Qfloor_le (y + (1 # 2))) as Hle.
    pose proof (Qlt_floor (y + (1 # 2))) as Hlt.
    rewrite inject_Z_plus in Hlt. change (inject_Z 1) with 1 in Hlt. lra.
  - pose proof (Qfloor_le ((1 # 2) - y)) as Hle.
    pose proof (Qlt_floor ((1 # 2) - y)) as Hlt.
    rewrite inject_Z_plus in Hlt. change (inject_Z 1) with 1 in Hlt.
    rewrite inject_Z_opp. lra.
Qed.

Lemma cents_eq (x : Q) : cents x == inject_Z (round_half_away (x * 100)) / 100.
Proof. unfold cents. apply Qred_correct. Qed.

(** Rounding moves an amount by half a cent at most. *)
Lemma cents_close (x : Q) : x - (1 # 200) <= cents x <= x + (1 # 200).
Proof.
  pose proof (round_half_away_close (x * 100)) as [Hlo Hhi].
  rewrite cents_eq. set (n := inject_Z (round_half_away (x * 100))) in *.
  split.
  - apply Qle_shift_div_l; [reflexivity |]. lra.
  - apply Qle_shift_div_r; [reflexivity |]. lra.
Qed.



Lemma within_a_cent_cents (x : Q) : within_a_cent (cents x) x.
Proof.
  unfold within_a_cent. pose proof (cents_close x) as [Hlo Hhi].
  apply Qabs_Qlt_condition. split; lra.
Qed.

Lemma numeric_15_2_inr (x v : Q) : numeric_15_2 x = inr v -> v = cents x.
Proof.
  unfold numeric_15_2. destruct (Qle_bool _ _); [discriminate |].
  intros H. injection H as <-. reflexivity.
Qed.

(** An amount below 10^13 - 1 in absolute value is stored, rounded. *)
Lemma numeric_15_2_fits (x : Q) : fits x -> numeric_15_2 x = inr (cents x).
Proof.
  unfold fits, numeric_15_2. intros Hx.
  destruct (Qle_bool 10000000000000 (Qabs (cents x))) eqn:Hle; [| reflexivity].
  exfalso. apply Qle_bool_iff in Hle.
  pose proof (cents_close x) as [Hlo Hhi].
  apply Qabs_Qle_condition in Hx. destruct Hx as [Hx1 Hx2].
  assert (Hc : Qabs (cents x) <= 9999999999999 + (1 # 200)).
  { apply Qabs_Qle_condition. split; lra. }
  lra.
Qed.

Lemma int4_inr (n m : Z) : int4 n = inr m -> m = n /\ (-2147483648 <= n <= 2147483647)%Z.
Proof.
  unfold int4. destruct (_ && _) eqn:E; [| discriminate].
  intros H. injection H as <-. split; [reflexivity | lia].
Qed.

Lemma int4_fits (n : Z) : (-2147483648 <= n <= 2147483647)%Z -> int4 n = inr n.
Proof.
  intros H. unfold int4.
  replace ((-2147483648 <=? n) && (n <=? 2147483647))%Z with true; [reflexivity |].
  symmetry. apply andb_true_iff. split; apply Z.leb_le; lia.
Qed.

Lemma and_then_inr {A B : Type} (x : DbError + A) (k : A -> DbError + B) (b : B) :
  and_then x k = inr b -> exists a, x = inr a /\ k a = inr b.
Proof. destruct x as [e | a]; simpl; [discriminate | eauto]. Qed.

Ltac stmt_inv H :=
  repeat (apply and_then_inr in H;
          let v := fresh "v" in
          let Hv := fresh "Hv" in
          destruct H as (v & Hv & H); cbv beta in H).

(** ** The store while no outage is scheduled *)

Lemma get_db_connection_healthy (d : Database) (log : list Toast) :
  get_db_connection (mkWorld d [] log)
  = (Return (Some (mkConnection true d)), mkWorld d [] log).
Proof. reflexivity. Qed.

Lemma execute_healthy {A : Type} (conn : Connection) (stmt : Stmt A)
    (d : Database) (log : list Toast) :
  execute conn stmt (mkWorld d [] log)
  = match stmt d with
    | inl e => (Raise e, mkWorld d [] log)
    | inr (a, d') => (Return a, mkWorld d' [] log)
    end.
Proof.
  unfold execute, next_outage; simpl.
  destruct (stmt d) as [e | [a d']]; reflexivity.
Qed.

Lemma get_user_portfolio_existing (user_id : Z) (d : Database) (log : list Toast)
    (r : PortfolioRow) :
  row_of user_id d = Some r ->
  get_user_portfolio user_id (mkWorld d [] log)
  = (Return (Some (read_portfolio r d)), mkWorld d [] log).
Proof.
  intros Hrow. unfold get_user_portfolio, bind, try_except.
  rewrite get_db_connection_healthy, execute_healthy.
  unfold sql_select_portfolio, query. unfold row_of in Hrow. rewrite Hrow.
  rewrite execute_healthy. unfold sql_select_holdings, query.
  rewrite execute_healthy. reflexivity.
Qed.

Lemma get_user_portfolio_new (user_id : Z) (d : Database) (log : list Toast) :
  row_of user_id d = None ->
  get_user_portfolio user_id (mkWorld d [] log)
  = (Return (Some (Portfolio.mk 100000 [] [] (portfolios_id_seq d))),
     mkWorld (provision user_id d) [] log).
Proof.
  intros Hrow. unfold get_user_portfolio, bind, try_except.
  rewrite get_db_connection_healthy, execute_healthy.
  unfold sql_select_portfolio, query. unfold row_of in Hrow. rewrite Hrow.
  rewrite execute_healthy. reflexivity.
Qed.

Lemma provision_changes (user_id : Z) (d : Database) : provision user_id d <> d.
Proof.
  intros H. apply (f_equal portfolios_id_seq) in H. simpl in H. lia.
Qed.

(** A load that leaves the world as it is has read the row of the user. *)
Lemma load_is_read (user_id : Z) (d : Database) (log : list Toast) (pf : Portfolio.t) :
  get_user_portfolio user_id (mkWorld d [] log) = (Return (Some pf), mkWorld d [] log) ->
  exists r, row_of user_id d = Some r /\ pf = read_portfolio r d.
Proof.
  intros H. destruct (row_of user_id d) as [r |] eqn:Hrow.
  - rewrite (get_user_portfolio_existing _ _ _ _ Hrow) in H.
    exists r. split; [reflexivity | congruence].
  - rewrite (get_user_portfolio_new _ _ _ Hrow) in H.
    exfalso. apply (provision_changes user_id d). congruence.
Qed.

(** ** Dicts and tables *)

Lemma dict_get_set (k k' : string) (v : Holding.t) (d : Dict) :
  dict_get k (dict_set k' v d) = if String.eqb k' k then Some v else dict_get k d.
Proof.
  induction d as [| [k0 v0] rest IH]; simpl.
  - reflexivity.
  - destruct (String.eqb k0 k') eqn:E0; simpl.
    + apply String.eqb_eq in E0. subst k0.
      destruct (String.eqb k' k); reflexivity.
    + destruct (String.eqb k0 k) eqn:E1.
      * apply String.eqb_eq in E1. subst k0.
        rewrite String.eqb_sym, E0. reflexivity.
      * exact IH.
Qed.

(** A key of the holdings dict maps to the last row that carries it. *)
Lemma dict_get_holdings_of_rows (symbol : string) (rows : list HoldingRow) :
  dict_get symbol (holdings_of_rows rows)
  = option_map holding_of_row (find (has_symbol symbol) (rev rows)).
Proof.
  unfold holdings_of_rows.
  induction rows as [| r rows IH] using rev_ind; simpl.
  - reflexivity.
  - rewrite fold_left_app, rev_app_distr. simpl.
    rewrite dict_get_set. unfold has_symbol at 1.
    destruct (String.eqb (h_symbol r) symbol); [reflexivity | exact IH].
Qed.

Lemma find_map_same {A : Type} (q : A -> bool) (f : A -> A) (l : list A) :
  (forall x, q (f x) = q x) ->
  find q (map f l) = option_map f (find q l).
Proof.
  intros Hq. induction l as [| x l IH]; simpl.
  - reflexivity.
  - rewrite Hq. destruct (q x); [reflexivity | exact IH].
Qed.

Lemma held_snoc (portfolio_id : Z) (symbol : string) (rows : list HoldingRow) (x : HoldingRow) :
  held portfolio_id symbol (rows ++ [x])
  = if holding_matches portfolio_id symbol x then Some x else held portfolio_id symbol rows.
Proof.
  unfold held, holding_matches. rewrite filter_app. simpl.
  fold (of_portfolio portfolio_id x). destruct (of_portfolio portfolio_id x); simpl.
  - rewrite rev_app_distr. simpl. fold (has_symbol symbol x).
    destruct (has_symbol symbol x); reflexivity.
  - rewrite app_nil_r. reflexivity.
Qed.

Lemma existsb_matches_held (portfolio_id : Z) (symbol : string) (rows : list HoldingRow) :
  existsb (holding_matches portfolio_id symbol) rows
  = match held portfolio_id symbol rows with Some _ => true | None => false end.
Proof.
  induction rows as [| x rows IH] using rev_ind.
  - reflexivity.
  - rewrite existsb_app, held_snoc. simpl. rewrite IH.
    destruct (holding_matches portfolio_id symbol x);
      destruct (held portfolio_id symbol rows); reflexivity.
Qed.

(** An update of the matching rows that keeps their key updates the held row. *)
Lemma held_update (portfolio_id : Z) (symbol : string) (f : HoldingRow -> HoldingRow)
    (rows : list HoldingRow) :
  (forall r, h_portfolio_id (f r) = h_portfolio_id r) ->
  (forall r, h_symbol (f r) = h_symbol r) ->
  held portfolio_id symbol
    (map (fun r => if holding_matches portfolio_id symbol r then f r else r) rows)
  = option_map f (held portfolio_id symbol rows).
Proof.
  intros Hpid Hsym.
  induction rows as [| x rows IH] using rev_ind.
  - reflexivity.
  - rewrite map_app. simpl. rewrite !held_snoc.
    destruct (holding_matches portfolio_id symbol x) eqn:Hx.
    + unfold holding_matches. rewrite Hpid, Hsym. fold (holding_matches portfolio_id symbol x).
      rewrite Hx. reflexivity.
    + rewrite Hx. exact IH.
Qed.

Lemma held_delete (portfolio_id : Z) (symbol : string) (rows : list HoldingRow) :
  held portfolio_id symbol
    (filter (fun r => negb (holding_matches portfolio_id symbol r)) rows) = None.
Proof.
  induction rows as [| x rows IH] using rev_ind.
  - reflexivity.
  - rewrite filter_app. simpl.
    destruct (holding_matches portfolio_id symbol x) eqn:Hx; simpl.
    + rewrite app_nil_r. exact IH.
    + rewrite held_snoc, Hx. exact IH.
Qed.

Lemma dict_get_read_portfolio (r : PortfolioRow) (d : Database) (symbol : string) :
  dict_get symbol (Portfolio.holdings (read_portfolio r d))
  = option_map holding_of_row (held (p_id r) symbol (tbl_holdings d)).
Proof. apply dict_get_holdings_of_rows. Qed.

Lemma with_cash_user (c : Q) (pid : Z) (r : PortfolioRow) :
  p_user_id (with_cash c pid r) = p_user_id r.
Proof. unfold with_cash. destruct (p_id r =? pid)%Z; reflexivity. Qed.

Lemma with_cash_id (c : Q) (pid : Z) (r : PortfolioRow) :
  p_id (with_cash c pid r) = p_id r.
Proof. unfold with_cash. destruct (p_id r =? pid)%Z; reflexivity. Qed.

Lemma row_of_with_cash (user_id : Z) (c : Q) (d : Database) (r : PortfolioRow) :
  row_of user_id d = Some r ->
  find (fun x => (p_user_id x =? user_id)%Z) (map (with_cash c (p_id r)) (tbl_portfolios d))
  = Some (mkPortfolioRow (p_id r) (p_user_id r) c (p_total_value r)).
Proof.
  intros Hrow. rewrite find_map_same.
  - unfold row_of in Hrow. rewrite Hrow. simpl. unfold with_cash.
    rewrite Z.eqb_refl. reflexivity.
  - intros x. rewrite with_cash_user. reflexivity.
Qed.

Lemma exists_with_cash (pid pid' : Z) (c : Q) (rows : list PortfolioRow) :
  existsb (fun r => (p_id r =? pid)%Z) (map (with_cash c pid') rows)
  = existsb (fun r => (p_id r =? pid)%Z) rows.
Proof.
  induction rows as [| x rows IH]; simpl.
  - reflexivity.
  - rewrite with_cash_id, IH. reflexivity.
Qed.

Lemma row_of_exists (user_id : Z) (d : Database) (r : PortfolioRow) :
  row_of user_id d = Some r -> portfolio_exists (p_id r) d = true.
Proof.
  intros Hrow. apply find_some in Hrow. destruct Hrow as [Hin _].
  unfold portfolio_exists. apply existsb_exists. exists r. split; [exact Hin | apply Z.eqb_refl].
Qed.

(** ** What the statements write *)

Lemma sql_update_cash_inr (new_cash : Q) (portfolio_id : Z) (d d' : Database) (a : unit) :
  sql_update_cash new_cash portfolio_id d = inr (a, d') ->
  d' = set_portfolios (map (with_cash (cents new_cash) portfolio_id) (tbl_portfolios d)) d.
Proof.
  unfold sql_update_cash. intros H. stmt_inv H.
  apply numeric_15_2_inr in Hv. subst v. injection H as _ <-. reflexivity.
Qed.

Lemma sql_update_cash_fits (new_cash : Q) (portfolio_id : Z) (d : Database) :
  fits new_cash ->
  sql_update_cash new_cash portfolio_id d
  = inr (tt, set_portfolios (map (with_cash (cents new_cash) portfolio_id) (tbl_portfolios d)) d).
Proof. intros H. unfold sql_update_cash. rewrite (numeric_15_2_fits _ H). reflexivity. Qed.

Lemma sql_update_total_value_inr (total_value : Q) (user_id : Z) (d d' : Database) (a : unit) :
  sql_update_total_value total_value user_id d = inr (a, d') ->
  d' = set_portfolios (map (with_total_value (cents total_value) user_id) (tbl_portfolios d)) d.
Proof.
  unfold sql_update_total_value. intros H. stmt_inv H.
  apply numeric_15_2_inr in Hv. subst v. injection H as _ <-. reflexivity.
Qed.

Lemma sql_insert_holding_inr (portfolio_id : Z) (symbol company_name : string) (shares : Z)
    (avg_price total_invested : Q) (d d' : Database) (a : unit) :
  sql_insert_holding portfolio_id symbol company_name shares avg_price total_invested d
  = inr (a, d') ->
  d' = set_holdings
         (tbl_holdings d ++
            [mkHoldingRow portfolio_id symbol company_name shares (cents avg_price)
               (cents total_invested)]) d.
Proof.
  unfold sql_insert_holding. intros H. stmt_inv H.
  apply int4_inr in Hv. destruct Hv as [-> _].
  apply numeric_15_2_inr in Hv0, Hv1. subst v0 v1.
  destruct (portfolio_exists portfolio_id d); [| discriminate].
  injection H as _ <-. reflexivity.
Qed.

Lemma sql_insert_holding_fits (portfolio_id : Z) (symbol company_name : string) (shares : Z)
    (avg_price total_invested : Q) (d : Database) :
  (-2147483648 <= shares <= 2147483647)%Z -> fits avg_price -> fits total_invested ->
  portfolio_exists portfolio_id d = true ->
  sql_insert_holding portfolio_id symbol company_name shares avg_price total_invested d
  = inr (tt, set_holdings
               (tbl_holdings d ++
                  [mkHoldingRow portfolio_id symbol company_name shares (cents avg_price)
                     (cents total_invested)]) d).
Proof.
  intros Hs Ha Ht Hfk. unfold sql_insert_holding.
  rewrite (int4_fits _ Hs), (numeric_15_2_fits _ Ha), (numeric_15_2_fits _ Ht).
  simpl. rewrite Hfk. reflexivity.
Qed.

Lemma sql_update_holding_buy_inr (shares : Z) (total_cost : Q) (portfolio_id : Z)
    (symbol : string) (d d' : Database) (a : unit) :
  sql_update_holding_buy shares total_cost portfolio_id symbol d = inr (a, d') ->
  find (buy_fails shares total_cost portfolio_id symbol) (tbl_holdings d) = None /\
  d' = set_holdings
         (map (fun r => if holding_matches portfolio_id symbol r
                        then bought shares total_cost r else r) (tbl_holdings d)) d.
Proof.
  unfold sql_update_holding_buy. intros H.
  destruct (find _ _) as [r |].
  - destruct (buy_error shares total_cost r); discriminate.
  - injection H as _ <-. split; reflexivity.
Qed.

Lemma sql_update_holding_buy_fits (shares : Z) (total_cost : Q) (portfolio_id : Z)
    (symbol : string) (d : Database) :
  find (buy_fails shares total_cost portfolio_id symbol) (tbl_holdings d) = None ->
  sql_update_holding_buy shares total_cost portfolio_id symbol d
  = inr (tt, set_holdings
               (map (fun r => if holding_matches portfolio_id symbol r
                              then bought shares total_cost r else r) (tbl_holdings d)) d).
Proof. intros H. unfold sql_update_holding_buy. rewrite H. reflexivity. Qed.

Lemma sql_update_holding_sell_inr (remaining_shares : Z) (new_total_invested : Q)
    (portfolio_id : Z) (symbol : string) (d d' : Database) (a : unit) :
  sql_update_holding_sell remaining_shares new_total_invested portfolio_id symbol d
  = inr (a, d') ->
  d' = set_holdings
         (map (fun r => if holding_matches portfolio_id symbol r
                        then sold remaining_shares (cents new_total_invested) r else r)
            (tbl_holdings d)) d.
Proof.
  unfold sql_update_holding_sell. intros H. stmt_inv H.
  apply int4_inr in Hv. destruct Hv as [-> _].
  apply numeric_15_2_inr in Hv0. subst v0. injection H as _ <-. reflexivity.
Qed.

Lemma sql_update_holding_sell_fits (remaining_shares : Z) (new_total_invested : Q)
    (portfolio_id : Z) (symbol : string) (d : Database) :
  (-2147483648 <= remaining_shares <= 2147483647)%Z -> fits new_total_invested ->
  sql_update_holding_sell remaining_shares new_total_invested portfolio_id symbol d
  = inr (tt, set_holdings
               (map (fun r => if holding_matches portfolio_id symbol r
                              then sold remaining_shares (cents new_total_invested) r else r)
                  (tbl_holdings d)) d).
Proof.
  intros Hs Ht. unfold sql_update_holding_sell.
  rewrite (int4_fits _ Hs), (numeric_15_2_fits _ Ht). reflexivity.
Qed.

Lemma sql_insert_order_inr (portfolio_id : Z) (symbol company_name action : string)
    (shares : Z) (price total : Q) (profit_loss : option Q) (d d' : Database) (a : unit) :
  sql_insert_order portfolio_id symbol company_name action shares price total profit_loss d
  = inr (a, d') ->
  d' = set_orders
         (tbl_orders d ++
            [mkOrderRow portfolio_id symbol company_name action shares (cents price)
               (cents total) (option_map cents profit_loss)]) d.
Proof.
  unfold sql_insert_order. intros H. stmt_inv H.
  apply int4_inr in Hv. destruct Hv as [-> _].
  apply numeric_15_2_inr in Hv0, Hv1. subst v0 v1.
  assert (Hpl : v2 = option_map cents profit_loss).
  { destruct profit_loss as [pl |]; simpl in Hv2.
    - stmt_inv Hv2. apply numeric_15_2_inr in Hv. subst v. injection Hv2 as <-. reflexivity.
    - injection Hv2 as <-. reflexivity. }
  subst v2. destruct (portfolio_exists portfolio_id d); [| discriminate].
  injection H as _ <-. reflexivity.
Qed.

Lemma sql_insert_order_fits (portfolio_id : Z) (symbol company_name action : string)
    (shares : Z) (price total : Q) (profit_loss : option Q) (d : Database) :
  (-2147483648 <= shares <= 2147483647)%Z -> fits price -> fits total ->
  match profit_loss with Some pl => fits pl | None => True end ->
  portfolio_exists portfolio_id d = true ->
  sql_insert_order portfolio_id symbol company_name action shares price total profit_loss d
  = inr (tt, set_orders
               (tbl_orders d ++
                  [mkOrderRow portfolio_id symbol company_name action shares (cents price)
                     (cents total) (option_map cents profit_loss)]) d).
Proof.
  intros Hs Hp Ht Hpl Hfk. unfold sql_insert_order.
  rewrite (int4_fits _ Hs), (numeric_15_2_fits _ Hp), (numeric_15_2_fits _ Ht).
  destruct profit_loss as [pl |]; simpl.
  - rewrite (numeric_15_2_fits _ Hpl). simpl. rewrite Hfk. reflexivity.
  - rewrite Hfk. reflexivity.
Qed.

(** ** What a trade does while the store works *)

Ltac run_stmt :=
  rewrite execute_healthy;
  match goal with
  | |- context [match ?x with inl _ => _ | inr _ => _ end] =>
      destruct x as [? | [[] ?]]; [reflexivity |]
  end.

(** The writes of a buy, one after the other; the first that raises ends
    the call and leaves the earlier ones in place. *)
Lemma buy_run (user_id : Z) (symbol : string) (shares : Z) (price : Q) (company_name : string)
    (d : Database) (log : list Toast) (r : PortfolioRow) :
  row_of user_id d = Some r ->
  update_portfolio_db user_id symbol "buy" shares price company_name (mkWorld d [] log)
  = if negb (Qle_bool (inject_Z shares * price) (p_cash r))
    then (Return (Some (false, InsufficientFunds)), mkWorld d [] log)
    else
      match sql_update_cash (p_cash r - inject_Z shares * price) (p_id r) d with
      | inl e => (Return (Some (false, TransactionFailed e)), mkWorld d [] log)
      | inr (_, d1) =>
          match (if existsb (holding_matches (p_id r) symbol) (tbl_holdings d)
                 then sql_update_holding_buy shares (inject_Z shares * price) (p_id r) symbol
                 else sql_insert_holding (p_id r) symbol company_name shares price
                        (inject_Z shares * price)) d1 with
          | inl e => (Return (Some (false, TransactionFailed e)), mkWorld d1 [] log)
          | inr (_, d2) =>
              match sql_insert_order (p_id r) symbol company_name "buy" shares price
                      (inject_Z shares * price) None d2 with
              | inl e => (Return (Some (false, TransactionFailed e)), mkWorld d2 [] log)
              | inr (_, d3) => (Return (Some (true, BuyOrderExecuted)), mkWorld d3 [] log)
              end
          end
      end.
Proof.
  intros Hrow. unfold update_portfolio_db, bind.
  rewrite (get_user_portfolio_existing _ _ _ _ Hrow).
  rewrite get_db_connection_healthy. unfold try_except.
  change (String.eqb "buy" "buy") with true. cbv iota.
  cbn [Portfolio.cash Portfolio.portfolio_id read_portfolio].
  destruct (negb (Qle_bool (inject_Z shares * price) (p_cash r))); [reflexivity |].
  unfold bind. rewrite execute_healthy.
  destruct (sql_update_cash _ _ d) as [e | [[] d1]] eqn:Hcash; [reflexivity |].
  apply sql_update_cash_inr in Hcash.
  assert (Hh : tbl_holdings d1 = tbl_holdings d) by (subst d1; reflexivity).
  rewrite execute_healthy. unfold sql_select_holding_id, query. rewrite Hh.
  destruct (existsb (holding_matches (p_id r) symbol) (tbl_holdings d));
    run_stmt; run_stmt; reflexivity.
Qed.

(** The state [d] with the cash of portfolio [r] set. *)
Lemma portfolio_exists_after_cash (user_id : Z) (d : Database) (r : PortfolioRow)
    (c : Q) (hs : list HoldingRow) :
  row_of user_id d = Some r ->
  portfolio_exists (p_id r)
    (set_holdings hs (set_portfolios (map (with_cash c (p_id r)) (tbl_portfolios d)) d)) = true.
Proof.
  intros Hrow. unfold portfolio_exists. cbn [tbl_portfolios set_holdings set_portfolios].
  rewrite exists_with_cash. apply (row_of_exists _ _ _ Hrow).
Qed.

Lemma portfolio_exists_after_cash' (user_id : Z) (d : Database) (r : PortfolioRow) (c : Q) :
  row_of user_id d = Some r ->
  portfolio_exists (p_id r)
    (set_portfolios (map (with_cash c (p_id r)) (tbl_portfolios d)) d) = true.
Proof.
  intros Hrow. unfold portfolio_exists. cbn [tbl_portfolios set_portfolios].
  rewrite exists_with_cash. apply (row_of_exists _ _ _ Hrow).
Qed.

(** A buy that reports success has made its three writes. *)
Lemma buy_executed (user_id : Z) (symbol : string) (shares : Z) (price : Q)
    (company_name : string) (d : Database) (log : list Toast) (r : PortfolioRow)
    (m : Message) (w' : World) :
  row_of user_id d = Some r ->
  update_portfolio_db user_id symbol "buy" shares price company_name (mkWorld d [] log)
  = (Return (Some (true, m)), w') ->
  inject_Z shares * price <= p_cash r /\
  m = BuyOrderExecuted /\
  w' = mkWorld (after_buy r symbol shares price company_name d) [] log.
Proof.
  intros Hrow Hrun. rewrite (buy_run _ _ _ _ _ _ _ _ Hrow) in Hrun.
  destruct (negb (Qle_bool (inject_Z shares * price) (p_cash r))) eqn:Hfunds;
    [discriminate |].
  apply negb_false_iff, Qle_bool_iff in Hfunds.
  destruct (sql_update_cash _ _ d) as [e | [[] d1]] eqn:Hcash; [discriminate |].
  apply sql_update_cash_inr in Hcash.
  match type of Hrun with
  | match ?x with inl _ => _ | inr _ => _ end = _ =>
      destruct x as [e | [[] d2]] eqn:Hhold; [discriminate |]
  end.
  destruct (sql_insert_order _ _ _ _ _ _ _ _ d2) as [e | [[] d3]] eqn:Hord; [discriminate |].
  apply sql_insert_order_inr in Hord.
  injection Hrun as <- <-. split; [exact Hfunds | split; [reflexivity |]].
  f_equal. unfold after_buy. cbv zeta.
  destruct (existsb (holding_matches (p_id r) symbol) (tbl_holdings d)).
  - apply sql_update_holding_buy_inr in Hhold. destruct Hhold as [_ ->].
    subst d3 d1. reflexivity.
  - apply sql_insert_holding_inr in Hhold. subst d3 d2 d1. reflexivity.
Qed.

(** When every value fits its column, the buy succeeds. *)
Lemma buy_succeeds (user_id : Z) (symbol : string) (shares : Z) (price : Q)
    (company_name : string) (d : Database) (log : list Toast) (r : PortfolioRow) :
  row_of user_id d = Some r ->
  inject_Z shares * price <= p_cash r ->
  fits (p_cash r - inject_Z shares * price) ->
  (-2147483648 <= shares <= 2147483647)%Z ->
  fits price -> fits (inject_Z shares * price) ->
  find (buy_fails shares (inject_Z shares * price) (p_id r) symbol) (tbl_holdings d) = None ->
  update_portfolio_db user_id symbol "buy" shares price company_name (mkWorld d [] log)
  = (Return (Some (true, BuyOrderExecuted)),
     mkWorld (after_buy r symbol shares price company_name d) [] log).
Proof.
  intros Hrow Hfunds Hcash Hs Hp Hc Hfind.
  rewrite (buy_run _ _ _ _ _ _ _ _ Hrow).
  apply Qle_bool_iff in Hfunds. rewrite Hfunds. cbn [negb].
  rewrite (sql_update_cash_fits _ _ _ Hcash).
  unfold after_buy. cbv zeta.
  destruct (existsb (holding_matches (p_id r) symbol) (tbl_holdings d)).
  - rewrite sql_update_holding_buy_fits by exact Hfind.
    rewrite sql_insert_order_fits;
      [reflexivity | exact Hs | exact Hp | exact Hc | exact I
      | apply (portfolio_exists_after_cash _ _ _ _ _ Hrow)].
  - rewrite sql_insert_holding_fits;
      [| exact Hs | exact Hp | exact Hc | apply (portfolio_exists_after_cash' _ _ _ _ Hrow)].
    rewrite sql_insert_order_fits;
      [reflexivity | exact Hs | exact Hp | exact Hc | exact I
      | apply (portfolio_exists_after_cash _ _ _ _ _ Hrow)].
Qed.

(** The writes of a sell, one after the other. *)
Lemma sell_run (user_id : Z) (symbol : string) (shares : Z) (price : Q) (company_name : string)
    (d : Database) (log : list Toast) (r : PortfolioRow) :
  row_of user_id d = Some r ->
  update_portfolio_db user_id symbol "sell" shares price company_name (mkWorld d [] log)
  = match dict_get symbol (Portfolio.holdings (read_portfolio r d)) with
    | None => (Return (Some (false, NoSharesToSell)), mkWorld d [] log)
    | Some holding =>
        if (Holding.shares holding <? shares)%Z
        then (Return (Some (false, InsufficientShares)), mkWorld d [] log)
        else
          match sql_update_cash (p_cash r + inject_Z shares * price) (p_id r) d with
          | inl e => (Return (Some (false, TransactionFailed e)), mkWorld d [] log)
          | inr (_, d1) =>
              match (if (Holding.shares holding - shares =? 0)%Z
                     then sql_delete_holding (p_id r) symbol
                     else sql_update_holding_sell (Holding.shares holding - shares)
                            (inject_Z (Holding.shares holding - shares)
                             * Holding.avg_price holding) (p_id r) symbol) d1 with
              | inl e => (Return (Some (false, TransactionFailed e)), mkWorld d1 [] log)
              | inr (_, d2) =>
                  match sql_insert_order (p_id r) symbol company_name "sell" shares price
                          (inject_Z shares * price)
                          (Some ((price - Holding.avg_price holding) * inject_Z shares)) d2 with
                  | inl e => (Return (Some (false, TransactionFailed e)), mkWorld d2 [] log)
                  | inr (_, d3) =>
                      (Return (Some (true, SellOrderExecuted
                                             ((price - Holding.avg_price holding)
                                              * inject_Z shares))),
                       mkWorld d3 [] log)
                  end
              end
          end
    end.
Proof.
  intros Hrow. unfold update_portfolio_db, bind.
  rewrite (get_user_portfolio_existing _ _ _ _ Hrow).
  rewrite get_db_connection_healthy. unfold try_except.
  change (String.eqb "sell" "buy") with false.
  change (String.eqb "sell" "sell") with true. cbv iota.
  destruct (dict_get symbol (Portfolio.holdings (read_portfolio r d))) as [holding |];
    [| reflexivity].
  destruct (Holding.shares holding <? shares)%Z; [reflexivity |].
  cbn [Portfolio.cash Portfolio.portfolio_id read_portfolio].
  unfold bind. rewrite execute_healthy.
  destruct (sql_update_cash _ _ d) as [e | [[] d1]] eqn:Hcash; [reflexivity |].
  destruct (Holding.shares holding - shares =? 0)%Z;
    run_stmt; run_stmt; reflexivity.
Qed.

(** A sell that reports success has made its three writes. *)
Lemma sell_executed (user_id : Z) (symbol : string) (shares : Z) (price : Q)
    (company_name : string) (d : Database) (log : list Toast) (r : PortfolioRow)
    (m : Message) (w' : World) :
  row_of user_id d = Some r ->
  update_portfolio_db user_id symbol "sell" shares price company_name (mkWorld d [] log)
  = (Return (Some (true, m)), w') ->
  exists holding,
    dict_get symbol (Portfolio.holdings (read_portfolio r d)) = Some holding /\
    (shares <= Holding.shares holding)%Z /\
    m = SellOrderExecuted ((price - Holding.avg_price holding) * inject_Z shares) /\
    w' = mkWorld (after_sell r holding symbol shares price company_name d) [] log.
Proof.
  intros Hrow Hrun. rewrite (sell_run _ _ _ _ _ _ _ _ Hrow) in Hrun.
  destruct (dict_get symbol (Portfolio.holdings (read_portfolio r d))) as [holding |];
    [| discriminate].
  destruct (Holding.shares holding <? shares)%Z eqn:Hlt; [discriminate |].
  apply Z.ltb_ge in Hlt.
  destruct (sql_update_cash _ _ d) as [e | [[] d1]] eqn:Hcash; [discriminate |].
  apply sql_update_cash_inr in Hcash.
  match type of Hrun with
  | match ?x with inl _ => _ | inr _ => _ end = _ =>
      destruct x as [e | [[] d2]] eqn:Hhold; [discriminate |]
  end.
  destruct (sql_insert_order _ _ _ _ _ _ _ _ d2) as [e | [[] d3]] eqn:Hord; [discriminate |].
  apply sql_insert_order_inr in Hord.
  injection Hrun as <- <-.
  exists holding. split; [reflexivity | split; [exact Hlt | split; [reflexivity |]]].
  f_equal. unfold after_sell. cbv zeta.
  destruct (Holding.shares holding - shares =? 0)%Z.
  - unfold sql_delete_holding in Hhold. injection Hhold as <-. subst d3 d1. reflexivity.
  - apply sql_update_holding_sell_inr in Hhold. subst d3 d2 d1. reflexivity.
Qed.

(** When every value fits its column, the sell of shares that are held succeeds. *)
Lemma sell_succeeds (user_id : Z) (symbol : string) (shares : Z) (price : Q)
    (company_name : string) (d : Database) (log : list Toast) (r : PortfolioRow)
    (holding : Holding.t) :
  row_of user_id d = Some r ->
  dict_get symbol (Portfolio.holdings (read_portfolio r d)) = Some holding ->
  (shares <= Holding.shares holding)%Z ->
  fits (p_cash r + inject_Z shares * price) ->
  (-2147483648 <= shares <= 2147483647)%Z ->
  (-2147483648 <= Holding.shares holding - shares <= 2147483647)%Z ->
  fits (inject_Z (Holding.shares holding - shares) * Holding.avg_price holding) ->
  fits price -> fits (inject_Z shares * price) ->
  fits ((price - Holding.avg_price holding) * inject_Z shares) ->
  update_portfolio_db user_id symbol "sell" shares price company_name (mkWorld d [] log)
  = (Return (Some (true, SellOrderExecuted
                           ((price - Holding.avg_price holding) * inject_Z shares))),
     mkWorld (after_sell r holding symbol shares price company_name d) [] log).
Proof.
  intros Hrow Hget Hle Hcash Hs Hrem Hti Hp Hc Hpl.
  rewrite (sell_run _ _ _ _ _ _ _ _ Hrow), Hget.
  apply Z.ltb_ge in Hle. rewrite Hle.
  rewrite (sql_update_cash_fits _ _ _ Hcash).
  unfold after_sell. cbv zeta.
  destruct (Holding.shares holding - shares =? 0)%Z.
  - unfold sql_delete_holding at 1.
    rewrite sql_insert_order_fits;
      [reflexivity | exact Hs | exact Hp | exact Hc | exact Hpl
      | apply (portfolio_exists_after_cash _ _ _ _ _ Hrow)].
  - rewrite sql_update_holding_sell_fits by assumption.
    rewrite sql_insert_order_fits;
      [reflexivity | exact Hs | exact Hp | exact Hc | exact Hpl
      | apply (portfolio_exists_after_cash _ _ _ _ _ Hrow)].
Qed.

(** [get_user_portfolio] always hands a dict to its caller. *)
Lemma get_user_portfolio_returns (user_id : Z) (w : World) :
  exists pf, result (get_user_portfolio user_id) w = Return (Some pf).
Proof.
  unfold result, get_user_portfolio, bind, get_db_connection, try_except, st_error, ret.
  destruct (next_outage w) as [[|] w1].
  - eexists; reflexivity.
  - cbn [fst snd]. unfold execute at 1.
    destruct (next_outage w1) as [[|] w2]; [eexists; reflexivity |].
    unfold sql_select_portfolio at 1, query at 1.
    destruct (find _ _) as [r |].
    + unfold execute at 1. destruct (next_outage _) as [[|] w3]; [eexists; reflexivity |].
      unfold sql_select_holdings, query.
      unfold execute at 1. destruct (next_outage _) as [[|] w4]; [eexists; reflexivity |].
      unfold sql_select_recent_orders, query. eexists; reflexivity.
    + unfold execute at 1. destruct (next_outage _) as [[|] w3]; [eexists; reflexivity |].
      unfold sql_insert_portfolio, commit, ret. eexists; reflexivity.
Qed.

Lemma row_of_after_cash (user_id : Z) (c : Q) (d : Database) (r : PortfolioRow)
    (hs : list HoldingRow) (os : list OrderRow) :
  row_of user_id d = Some r ->
  row_of user_id
    (mkDatabase (map (with_cash c (p_id r)) (tbl_portfolios d)) (portfolios_id_seq d) hs os)
  = Some (mkPortfolioRow (p_id r) (p_user_id r) c (p_total_value r)).
Proof. intros Hrow. unfold row_of. cbn [tbl_portfolios]. apply row_of_with_cash, Hrow. Qed.

(** ** Hoare triples over the store, for any schedule of outages *)

Section HoareRules.
Context {A B : Type}.
Implicit Types (P E H : Database -> Prop).

Lemma hoare_ret P (a : A) (Q : A -> Database -> Prop) E :
  (forall d, P d -> Q a d) -> hoare P (ret a) Q E.
Proof. intros HQ w HP. simpl. auto. Qed.

Lemma hoare_bind P (m : Eff A) (k : A -> Eff B) (R : A -> Database -> Prop)
    (Q : B -> Database -> Prop) E :
  hoare P m R E -> (forall a, hoare (R a) (k a) Q E) -> hoare P (bind m k) Q E.
Proof.
  intros Hm Hk w HP. unfold bind. specialize (Hm w HP).
  destruct (m w) as [[a | e] w1]; [apply Hk, Hm | exact Hm].
Qed.

Lemma hoare_try P (body : Eff A) (handler : DbError -> Eff A)
    (Q : A -> Database -> Prop) H E :
  hoare P body Q H -> (forall e, hoare H (handler e) Q E) ->
  hoare P (try_except body handler) Q E.
Proof.
  intros Hb Hh w HP. unfold try_except. specialize (Hb w HP).
  destruct (body w) as [[a | e] w1]; [exact Hb | apply Hh, Hb].
Qed.

Lemma hoare_weaken P P' (m : Eff A) (Q Q' : A -> Database -> Prop) E E' :
  hoare P m Q E ->
  (forall d, P' d -> P d) -> (forall a d, Q a d -> Q' a d) -> (forall d, E d -> E' d) ->
  hoare P' m Q' E'.
Proof.
  intros Hm HP HQ HE w Hw. specialize (Hm w (HP _ Hw)).
  destruct (m w) as [[a | e] w1]; auto.
Qed.

Lemma hoare_assume (phi : Prop) P (m : Eff A) (Q : A -> Database -> Prop) E :
  (forall d, P d -> phi) -> (phi -> hoare P m Q E) -> hoare P m Q E.
Proof. intros Hphi Hm w HP. apply Hm; eauto. Qed.

Lemma hoare_execute P (conn : Connection) (stmt : Stmt A)
    (Q : A -> Database -> Prop) E :
  (forall d, P d ->
     E d /\ match stmt d with inr (a, d') => Q a d' | inl _ => True end) ->
  hoare P (execute conn stmt) Q E.
Proof.
  intros Hs [d o log] HP. simpl in HP. destruct (Hs d HP) as [HE HQ].
  unfold execute, next_outage. simpl.
  destruct o as [| [|] o]; simpl; try exact HE;
    destruct (stmt d) as [e | [a d']]; simpl; auto.
Qed.
End HoareRules.

Lemma hoare_connect (P E : Database -> Prop) :
  hoare P get_db_connection
    (fun c d => P d /\ forall conn, c = Some conn -> autocommit conn = true) E.
Proof.
  intros [d o log] HP. simpl in HP. unfold get_db_connection, next_outage. simpl.
  destruct o as [| [|] o]; simpl; split; auto; intros conn Hc; inversion Hc; reflexivity.
Qed.

Lemma hoare_st_error (P E : Database -> Prop) (t : Toast) :
  hoare P (st_error t) (fun _ => P) E.
Proof. intros w HP. simpl. exact HP. Qed.

Lemma hoare_commit (P E : Database -> Prop) (conn : Connection) :
  hoare P (commit conn) (fun _ => P) E.
Proof. intros w HP. simpl. exact HP. Qed.

(** On an autocommit connection [rollback] has nothing to undo. *)
Lemma hoare_rollback (P E : Database -> Prop) (conn : Connection) :
  autocommit conn = true -> hoare P (rollback conn) (fun _ => P) E.
Proof. intros Hc w HP. unfold rollback. rewrite Hc. simpl. exact HP. Qed.

Lemma hoare_execute_keeps {A : Type} (I : Database -> Prop) (conn : Connection)
    (stmt : Stmt A) :
  stmt_keeps I stmt -> hoare I (execute conn stmt) (fun _ => I) I.
Proof.
  intros Hk. apply hoare_execute. intros d Hd. split; [exact Hd |].
  destruct (stmt d) as [err | [u d']] eqn:Hs; [exact Logic.I | eapply Hk; eauto].
Qed.

(** [get_user_portfolio] never raises, keeps every invariant that
    provisioning a user without a row keeps, and returns a dict: the default one, a fresh one, or
    the one read from the row of the user. *)
Lemma hoare_load (I : Database -> Prop) (V : Portfolio.t -> Prop) (user_id : Z) :
  (forall d, I d -> row_of user_id d = None -> I (provision user_id d)) ->
  (forall d r, I d -> row_of user_id d = Some r -> V (read_portfolio r d)) ->
  V default_portfolio ->
  (forall pid, V (Portfolio.mk 100000 [] [] pid)) ->
  hoare I (get_user_portfolio user_id)
    (fun pf d => I d /\ exists p, pf = Some p /\ V p) (fun _ => False).
Proof.
  intros Hprov Hread Hdef Hnew. unfold get_user_portfolio.
  eapply hoare_bind; [apply hoare_connect |]. intros [conn |].
  2:{ apply hoare_ret. intros d [Hd _]. eauto. }
  apply hoare_try with (H := I).
  - eapply hoare_bind.
    + apply hoare_execute with
        (Q := fun a d => I d /\ a = match row_of user_id d with
                                    | Some r => Some (p_id r, p_cash r) | None => None end).
      intros d [Hd _]. split; [exact Hd |]. simpl. split; [exact Hd | reflexivity].
    + intros [[pid c] |].
      * eapply hoare_bind.
        { apply hoare_execute with
            (Q := fun a d => I d /\ exists r, row_of user_id d = Some r /\ pid = p_id r
                                              /\ c = p_cash r
                                              /\ a = filter (of_portfolio pid) (tbl_holdings d)).
          intros d [Hd Ha]. split; [exact Hd |]. simpl. split; [exact Hd |].
          destruct (row_of user_id d) as [r |]; [| discriminate].
          injection Ha as Hpid Hc. exists r. auto. }
        intros hs. eapply hoare_bind.
        { apply hoare_execute with
            (Q := fun a d => I d /\ exists r, row_of user_id d = Some r /\
                     Portfolio.mk c (holdings_of_rows hs) (map order_of_row a) pid
                     = read_portfolio r d).
          intros d (Hd & r & Hrow & Hpid & Hc & Hhs). split; [exact Hd |]. simpl.
          split; [exact Hd |]. exists r. split; [exact Hrow |].
          rewrite Hhs, Hpid, Hc. reflexivity. }
        intros os. apply hoare_ret. intros d (Hd & r & Hrow & Heq).
        split; [exact Hd |]. eexists. split; [reflexivity |]. rewrite Heq. eauto.
      * eapply hoare_bind.
        { apply hoare_execute with (Q := fun _ d => I d).
          intros d [Hd Ha]. split; [exact Hd |]. simpl. apply Hprov; [exact Hd |].
          destruct (row_of user_id d); [discriminate | reflexivity]. }
        intros pid. eapply hoare_bind; [apply hoare_commit |]. intros ?.
        apply hoare_ret. intros d Hd. eauto.
  - intros e. eapply hoare_bind; [apply hoare_st_error |]. intros ?.
    apply hoare_ret. intros d Hd. eauto.
Qed.

(** ** No negative cash *)

Lemma query_leaves_portfolios {A : Type} (f : Database -> A) : leaves_portfolios (query f).
Proof. intros d a d' H. injection H as _ <-. reflexivity. Qed.

Lemma select_holding_id_leaves_portfolios portfolio_id symbol :
  leaves_portfolios (sql_select_holding_id portfolio_id symbol).
Proof. apply query_leaves_portfolios. Qed.

Lemma update_holding_buy_leaves_portfolios shares total_cost portfolio_id symbol :
  leaves_portfolios (sql_update_holding_buy shares total_cost portfolio_id symbol).
Proof.
  intros d a d' H. apply sql_update_holding_buy_inr in H. destruct H as [_ ->]. reflexivity.
Qed.

Lemma insert_holding_leaves_portfolios portfolio_id symbol company_name shares avg_price ti :
  leaves_portfolios (sql_insert_holding portfolio_id symbol company_name shares avg_price ti).
Proof.
  intros d a d' H. apply sql_insert_holding_inr in H. subst d'. reflexivity.
Qed.

Lemma delete_holding_leaves_portfolios portfolio_id symbol :
  leaves_portfolios (sql_delete_holding portfolio_id symbol).
Proof. intros d a d' H. injection H as _ <-. reflexivity. Qed.

Lemma update_holding_sell_leaves_portfolios remaining nti portfolio_id symbol :
  leaves_portfolios (sql_update_holding_sell remaining nti portfolio_id symbol).
Proof. intros d a d' H. apply sql_update_holding_sell_inr in H. subst d'. reflexivity. Qed.

Lemma insert_order_leaves_portfolios portfolio_id symbol company_name action shares price
    total profit_loss :
  leaves_portfolios
    (sql_insert_order portfolio_id symbol company_name action shares price total profit_loss).
Proof.
  intros d a d' H. apply sql_insert_order_inr in H. subst d'. reflexivity.
Qed.

Create HintDb ledger.
#[local] Hint Resolve query_leaves_portfolios select_holding_id_leaves_portfolios
  update_holding_buy_leaves_portfolios
  insert_holding_leaves_portfolios delete_holding_leaves_portfolios
  update_holding_sell_leaves_portfolios insert_order_leaves_portfolios : ledger.







Lemma positive_proceeds (shares : Z) (price : Q) :
  (0 < shares)%Z -> 0 < price -> 0 <= inject_Z shares * price.
Proof.
  intros Hs Hp. apply Qmult_le_0_compat; [| apply Qlt_le_weak, Hp].
  change 0 with (inject_Z 0). rewrite <- Zle_Qle. lia.
Qed.


(** ** The first trade of a user *)

Lemma find_snoc_none {A : Type} (f : A -> bool) (l : list A) (x : A) :
  find f l = None -> find f (l ++ [x]) = if f x then Some x else None.
Proof.
  induction l as [| y l IH]; simpl; intros H.
  - reflexivity.
  - destruct (f y); [discriminate | apply IH, H].
Qed.

Lemma filter_none {A : Type} (f : A -> bool) (l : list A) :
  (forall x, In x l -> f x = false) -> filter f l = [].
Proof.
  induction l as [| y l IH]; simpl; intros H.
  - reflexivity.
  - rewrite (H y (or_introl eq_refl)). apply IH. intros x Hx. apply H. right. exact Hx.
Qed.

(** In a store with referential integrity, the portfolio that the load
    provisions is the one a second load reads. *)
Lemma load_after_provision (user_id : Z) (d : Database) (log : list Toast) :
  referential_integrity d ->
  row_of user_id d = None ->
  get_user_portfolio user_id (mkWorld (provision user_id d) [] log)
  = (Return (Some (Portfolio.mk 100000 [] [] (portfolios_id_seq d))),
     mkWorld (provision user_id d) [] log).
Proof.
  intros [Hh Ho] Hnone.
  rewrite (get_user_portfolio_existing user_id _ log
             (mkPortfolioRow (portfolios_id_seq d) user_id 100000 100000)).
  - unfold read_portfolio, provision. cbn [p_id p_cash tbl_holdings tbl_orders].
    rewrite (filter_none (of_portfolio (portfolios_id_seq d))).
    + rewrite (filter_none (order_of_portfolio (portfolios_id_seq d))); [reflexivity |].
      intros o Hin. unfold order_of_portfolio. apply Z.eqb_neq. specialize (Ho o Hin). lia.
    + intros h Hin. unfold of_portfolio. apply Z.eqb_neq. specialize (Hh h Hin). lia.
  - unfold row_of, provision. cbn [tbl_portfolios]. unfold row_of in Hnone.
    rewrite (find_snoc_none _ _ _ Hnone). cbn [p_user_id]. rewrite Z.eqb_refl. reflexivity.
Qed.

(** So the first trade of a user behaves as a trade on the provisioned store. *)
Lemma first_trade_provisions (user_id : Z) (symbol action : string) (shares : Z) (price : Q)
    (company_name : string) (d : Database) (log : list Toast) :
  referential_integrity d ->
  row_of user_id d = None ->
  update_portfolio_db user_id symbol action shares price company_name (mkWorld d [] log)
  = update_portfolio_db user_id symbol action shares price company_name
      (mkWorld (provision user_id d) [] log).
Proof.
  intros Hint Hnone. unfold update_portfolio_db, bind.
  rewrite (get_user_portfolio_new _ _ _ Hnone), (load_after_provision _ _ _ Hint Hnone).
  reflexivity.
Qed.

(** ** Amounts that fit their column *)

Lemma fits_between (x y : Q) : 0 <= x -> x <= y -> fits y -> fits x.
Proof.
  unfold fits. intros H0 Hxy Hy. apply Qabs_Qle_condition in Hy. destruct Hy as [_ Hy].
  apply Qabs_Qle_condition. split; lra.
Qed.

Lemma fits_div (x : Q) (n : Z) : (1 <= n)%Z -> fits x -> fits (x / inject_Z n).
Proof.
  unfold fits. intros Hn Hx. apply Qabs_Qle_condition in Hx. destruct Hx as [Hlo Hhi].
  rewrite Zle_Qle in Hn. change (inject_Z 1) with 1 in Hn.
  set (q := inject_Z n) in *.
  apply Qabs_Qle_condition. split.
  - apply Qle_shift_div_l; [lra |]. lra.
  - apply Qle_shift_div_r; [lra |]. lra.
Qed.

Lemma price_below_proceeds (shares : Z) (price : Q) :
  (0 < shares)%Z -> 0 < price -> price <= inject_Z shares * price.
Proof.
  intros Hs Hp.
  assert (H1 : 1 <= inject_Z shares).
  { change 1 with (inject_Z 1). rewrite <- Zle_Qle. lia. }
  assert (H : 0 <= (inject_Z shares - 1) * price).
  { apply Qmult_le_0_compat; lra. }
  lra.
Qed.

Lemma find_none_all {A : Type} (f : A -> bool) (l : list A) :
  (forall x, In x l -> f x = false) -> find f l = None.
Proof.
  induction l as [| y l IH]; simpl; intros H.
  - reflexivity.
  - rewrite (H y (or_introl eq_refl)). apply IH. intros x Hx. apply H. right. exact Hx.
Qed.

Lemma nodup_map_inj {A B : Type} (f : A -> B) (l : list A) :
  NoDup (map f l) -> forall x y, In x l -> In y l -> f x = f y -> x = y.
Proof.
  induction l as [| z l IH]; simpl; intros Hnd x y Hx Hy Hf.
  - contradiction.
  - inversion Hnd as [| k ks Hnin Hnd']; subst.
    destruct Hx as [-> | Hx], Hy as [-> | Hy].
    + reflexivity.
    + exfalso. apply Hnin. rewrite Hf. apply in_map, Hy.
    + exfalso. apply Hnin. rewrite <- Hf. apply in_map, Hx.
    + apply IH; assumption.
Qed.

Lemma held_row (portfolio_id : Z) (symbol : string) (rows : list HoldingRow) (row : HoldingRow) :
  held portfolio_id symbol rows = Some row ->
  In row rows /\ holding_matches portfolio_id symbol row = true.
Proof.
  unfold held. intros H. apply find_some in H. destruct H as [Hin Hsym].
  apply in_rev, filter_In in Hin. destruct Hin as [Hin Hpid].
  split; [exact Hin |]. unfold holding_matches.
  unfold of_portfolio in Hpid. unfold has_symbol in Hsym. rewrite Hpid, Hsym. reflexivity.
Qed.

Lemma holding_matches_key (portfolio_id : Z) (symbol : string) (x : HoldingRow) :
  holding_matches portfolio_id symbol x = true -> holding_key x = (portfolio_id, symbol).
Proof.
  unfold holding_matches, holding_key. intros H. apply andb_true_iff in H.
  destruct H as [Hp Hs]. apply Z.eqb_eq in Hp. apply String.eqb_eq in Hs. congruence.
Qed.

(** What makes the update of a held row go through. *)
Lemma buy_error_fits (shares : Z) (total_cost : Q) (row : HoldingRow) :
  (1 <= h_shares row + shares <= 2147483647)%Z ->
  fits (h_total_invested row + total_cost) ->
  buy_error shares total_cost row = None.
Proof.
  intros Hs Hti. unfold buy_error.
  destruct (h_shares row + shares =? 0)%Z eqn:E; [apply Z.eqb_eq in E; lia |].
  rewrite int4_fits by lia. rewrite (numeric_15_2_fits _ Hti).
  rewrite numeric_15_2_fits; [reflexivity |]. apply fits_div; [lia | exact Hti].
Qed.

Lemma buy_of_held_row_goes_through (shares : Z) (total_cost : Q) (portfolio_id : Z)
    (symbol : string) (d : Database) (row : HoldingRow) :
  unique_holdings d ->
  held portfolio_id symbol (tbl_holdings d) = Some row ->
  (1 <= h_shares row + shares <= 2147483647)%Z ->
  fits (h_total_invested row + total_cost) ->
  find (buy_fails shares total_cost portfolio_id symbol) (tbl_holdings d) = None.
Proof.
  intros Hu Hheld Hs Hti. apply find_none_all. intros x Hx. unfold buy_fails.
  destruct (holding_matches portfolio_id symbol x) eqn:Hm; [| reflexivity].
  apply held_row in Hheld. destruct Hheld as [Hin Hrow].
  assert (Heq : x = row).
  { apply (nodup_map_inj holding_key (tbl_holdings d) Hu); try assumption.
    rewrite (holding_matches_key _ _ _ Hm), (holding_matches_key _ _ _ Hrow). reflexivity. }
  subst x. rewrite (buy_error_fits _ _ _ Hs Hti). reflexivity.
Qed.

Lemma buy_of_new_symbol_goes_through (shares : Z) (total_cost : Q) (portfolio_id : Z)
    (symbol : string) (d : Database) :
  held portfolio_id symbol (tbl_holdings d) = None ->
  find (buy_fails shares total_cost portfolio_id symbol) (tbl_holdings d) = None.
Proof.
  intros Hheld. apply find_none_all. intros x Hx. unfold buy_fails.
  destruct (holding_matches portfolio_id symbol x) eqn:Hm; [| reflexivity].
  exfalso.
  assert (He : existsb (holding_matches portfolio_id symbol) (tbl_holdings d) = true).
  { apply existsb_exists. exists x. split; assumption. }
  rewrite existsb_matches_held, Hheld in He. discriminate.
Qed.

(** ** The scenarios of the specification *)

Example scenario_1_first_buy :
  result (update_portfolio_db 1 "TCS" "buy" 10 100 "Tata") fresh_world
  = Return (Some (true, BuyOrderExecuted)) /\
  result (get_user_portfolio 1) world_after_first_buy
  = Return (Some (Portfolio.mk 99000 [("TCS"%string, Holding.mk 10 100 1000 "Tata")]
                    [Order.mk "TCS" "Tata" "buy" 10 100 1000 None] 1)).
Proof. split; reflexivity. Qed.

Example scenario_2_second_buy :
  match result (get_user_portfolio 1) (run_trades (firstn 2 scenario_trades) fresh_world) with
  | Return (Some pf) =>
      Portfolio.cash pf == 97800 /\
      exists h, dict_get "TCS" (Portfolio.holdings pf) = Some h /\
                Holding.shares h = 20%Z /\ Holding.avg_price h == 110 /\
                Holding.total_invested h == 2200
  | _ => False
  end.
Proof. vm_compute. split; [reflexivity |]. eexists. repeat split; reflexivity. Qed.

Example scenario_3_partial_sell :
  result (execute_trade (mkTrade 1 "TCS" "sell" 5 150 EmptyString))
    (run_trades (firstn 2 scenario_trades) fresh_world)
  = Return (Some (true, SellOrderExecuted ((150 - 110) * 5))) /\
  match result (get_user_portfolio 1) (run_trades (firstn 3 scenario_trades) fresh_world) with
  | Return (Some pf) =>
      Portfolio.cash pf == 98550 /\
      exists h, dict_get "TCS" (Portfolio.holdings pf) = Some h /\
                Holding.shares h = 15%Z /\ Holding.avg_price h == 110 /\
                Holding.total_invested h == 1650
  | _ => False
  end.
Proof.
  split; [reflexivity |]. vm_compute. split; [reflexivity |].
  eexists. repeat split; reflexivity.
Qed.

Example scenario_4_full_sell :
  match result (get_user_portfolio 1) (run_trades scenario_trades fresh_world) with
  | Return (Some pf) => Portfolio.cash pf == 99900 /\ Portfolio.holdings pf = []
  | _ => False
  end.
Proof. vm_compute. split; reflexivity. Qed.

Example scenario_5_insufficient_funds :
  update_portfolio_db 1 "TCS" "buy" 1000 100 "Tata" (run_trades scenario_trades fresh_world)
  = (Return (Some (false, InsufficientFunds)), run_trades scenario_trades fresh_world).
Proof. reflexivity. Qed.

Example scenario_6_no_position :
  update_portfolio_db 1 "INFY" "sell" 1 100 EmptyString fresh_world
  = (Return (Some (false, NoSharesToSell)), fresh_world).
Proof. reflexivity. Qed.


(** * The claims *)

(** C5, as the claim states it, fails: user 1 holds one share of TCS bought
    at 10 and buys two more at 10.01; the holding then has 3 shares and
    [total_invested] 30.02, and its [avg_price] is 10.01, the quotient
    30.02 / 3 as the column stores it, not the quotient itself. *)
Lemma average_price_is_stored_rounded :
  map position (tbl_holdings (db world_after_small_buy)) = [(1%Z, 10, 10)] /\
  result (update_portfolio_db 1 "TCS" "buy" 2 (1001 # 100) "Tata") world_after_small_buy
  = Return (Some (true, BuyOrderExecuted)) /\
  map position
    (tbl_holdings
       (db (exec (update_portfolio_db 1 "TCS" "buy" 2 (1001 # 100) "Tata")
              world_after_small_buy)))
  = [(3%Z, 1001 # 100, 1501 # 50)] /\
  ~ (1001 # 100) == (10 + inject_Z 2 * (1001 # 100)) / inject_Z 3.
Proof.
  split; [reflexivity | split; [reflexivity | split; [reflexivity |]]].
  intros H. vm_compute in H. discriminate H.
Qed.

(** C5, amended.  On a working store, a buy of [shares > 0] at [price > 0]
    whose cost is at least a cent below the cash, with values that fit their
    columns, succeeds.  The amounts are stored rounded to the cent: the cash
    is then within a cent of the old cash less [shares * price]; when the
    symbol was not held there is a holding with these shares, [avg_price]
    within a cent of [price] and [total_invested] within a cent of
    [shares * price]; when it was held, the shares grow by [shares],
    [total_invested] is within a cent of the old one plus [shares * price], and
    [avg_price] is within a cent of that sum divided by the new shares. *)
Theorem buy_updates_cash_and_holding :
  forall (w : World) (user_id : Z) (symbol company_name : string) (shares : Z) (price : Q)
         (pf : Portfolio.t),
    outages w = [] ->
    unique_holdings (db w) ->
    get_user_portfolio user_id w = (Return (Some pf), w) ->
    (0 < shares)%Z -> 0 < price ->
    (String.length symbol <= 20)%nat -> (String.length company_name <= 200)%nat ->
    inject_Z shares * price + (1 # 100) <= Portfolio.cash pf ->
    fits (Portfolio.cash pf) ->
    match dict_get symbol (Portfolio.holdings pf) with
    | None => (shares <= 2147483647)%Z
    | Some old =>
        (0 < Holding.shares old)%Z /\
        (Holding.shares old + shares <= 2147483647)%Z /\
        fits (Holding.total_invested old + inject_Z shares * price)
    end ->
    exists (w' : World) (pf' : Portfolio.t) (h : Holding.t),
      update_portfolio_db user_id symbol "buy" shares price company_name w
      = (Return (Some (true, BuyOrderExecuted)), w') /\
      get_user_portfolio user_id w' = (Return (Some pf'), w') /\
      within_a_cent (Portfolio.cash pf') (Portfolio.cash pf - inject_Z shares * price) /\
      dict_get symbol (Portfolio.holdings pf') = Some h /\
      match dict_get symbol (Portfolio.holdings pf) with
      | None =>
          Holding.shares h = shares /\
          within_a_cent (Holding.avg_price h) price /\
          within_a_cent (Holding.total_invested h) (inject_Z shares * price) /\
          Holding.company_name h = company_name
      | Some old =>
          Holding.shares h = (Holding.shares old + shares)%Z /\
          within_a_cent (Holding.total_invested h)
            (Holding.total_invested old + inject_Z shares * price) /\
          within_a_cent (Holding.avg_price h)
            ((Holding.total_invested old + inject_Z shares * price)
             / inject_Z (Holding.shares old + shares)) /\
          Holding.company_name h = Holding.company_name old
      end.
Proof.
  intros [d o log] user_id symbol company_name shares price pf Ho Hu Hload Hs Hp _ _
    Hfunds Hcash Hheld.
  simpl in Ho, Hu. subst o.
  apply load_is_read in Hload. destruct Hload as (r & Hrow & ->).
  cbn [Portfolio.cash read_portfolio] in *.
  pose proof (positive_proceeds _ _ Hs Hp) as Hc0.
  pose proof (price_below_proceeds _ _ Hs Hp) as Hpc.
  assert (Hfc : fits (inject_Z shares * price))
    by (apply (fits_between _ (p_cash r)); [lra | lra | assumption]).
  assert (Hfp : fits price)
    by (apply (fits_between _ (inject_Z shares * price)); [lra | lra | assumption]).
  assert (Hfn : fits (p_cash r - inject_Z shares * price))
    by (apply (fits_between _ (p_cash r)); [lra | lra | assumption]).
  fold (Portfolio.holdings (read_portfolio r d)) in Hheld |- *.
  rewrite dict_get_read_portfolio in Hheld.
  assert (Hrun :
            update_portfolio_db user_id symbol "buy" shares price company_name
              (mkWorld d [] log)
            = (Return (Some (true, BuyOrderExecuted)),
               mkWorld (after_buy r symbol shares price company_name d) [] log)).
  { apply buy_succeeds; try assumption.
    - lra.
    - destruct (held (p_id r) symbol (tbl_holdings d)) as [old |]; simpl in Hheld; lia.
    - destruct (held (p_id r) symbol (tbl_holdings d)) as [old |] eqn:Hold; simpl in Hheld.
      + apply (buy_of_held_row_goes_through _ _ _ _ _ old Hu Hold); [lia | tauto].
      + apply buy_of_new_symbol_goes_through, Hold. }
  pose proof (row_of_after_cash user_id (cents (p_cash r - inject_Z shares * price)) d r) as Hrow'.
  set (r' := mkPortfolioRow (p_id r) (p_user_id r)
               (cents (p_cash r - inject_Z shares * price)) (p_total_value r)).
  pose proof (dict_get_read_portfolio r d symbol) as Hget.
  pose proof (dict_get_read_portfolio r' (after_buy r symbol shares price company_name d) symbol)
    as Hget'.
  unfold after_buy in Hget' at 2. cbn [p_id r' tbl_holdings] in Hget'.
  rewrite existsb_matches_held in Hget'.
  exists (mkWorld (after_buy r symbol shares price company_name d) [] log).
  exists (read_portfolio r' (after_buy r symbol shares price company_name d)).
  destruct (held (p_id r) symbol (tbl_holdings d)) as [old |] eqn:Hold.
  - rewrite held_update in Hget' by reflexivity. rewrite Hold in Hget'. simpl in Hget'.
    eexists. split; [exact Hrun |].
    split; [apply get_user_portfolio_existing; unfold after_buy; apply Hrow', Hrow |].
    split; [apply within_a_cent_cents |].
    split; [exact Hget' |]. rewrite Hget. simpl.
    repeat split; try reflexivity; apply within_a_cent_cents.
  - rewrite held_snoc in Hget'. unfold holding_matches in Hget'.
    cbn [h_portfolio_id h_symbol] in Hget'.
    rewrite Z.eqb_refl, String.eqb_refl in Hget'. simpl in Hget'.
    eexists. split; [exact Hrun |].
    split; [apply get_user_portfolio_existing; unfold after_buy; apply Hrow', Hrow |].
    split; [apply within_a_cent_cents |].
    split; [exact Hget' |]. rewrite Hget. simpl.
    repeat split; try reflexivity; apply within_a_cent_cents.
Qed.

Ltac fits_by_computation := unfold fits; vm_compute; discriminate.

Lemma buy_updates_cash_and_holding_witness :
  (exists (w' : World) (pf' : Portfolio.t) (h : Holding.t),
      update_portfolio_db 1 "TCS" "buy" 10 100 "Tata" fresh_world
      = (Return (Some (true, BuyOrderExecuted)), w') /\
      get_user_portfolio 1 w' = (Return (Some pf'), w') /\
      within_a_cent (Portfolio.cash pf') (100000 - inject_Z 10 * 100) /\
      dict_get "TCS" (Portfolio.holdings pf') = Some h /\
      Holding.shares h = 10%Z /\
      within_a_cent (Holding.avg_price h) 100 /\
      within_a_cent (Holding.total_invested h) (inject_Z 10 * 100) /\
      Holding.company_name h = "Tata"%string) /\
  (exists (w' : World) (pf' : Portfolio.t) (h : Holding.t),
      update_portfolio_db 1 "TCS" "buy" 2 (1001 # 100) "Tata" world_after_small_buy
      = (Return (Some (true, BuyOrderExecuted)), w') /\
      get_user_portfolio 1 w' = (Return (Some pf'), w') /\
      within_a_cent (Portfolio.cash pf') (99990 - inject_Z 2 * (1001 # 100)) /\
      dict_get "TCS" (Portfolio.holdings pf') = Some h /\
      Holding.shares h = (1 + 2)%Z /\
      within_a_cent (Holding.total_invested h) (10 + inject_Z 2 * (1001 # 100)) /\
      within_a_cent (Holding.avg_price h) ((10 + inject_Z 2 * (1001 # 100)) / inject_Z (1 + 2)) /\
      Holding.company_name h = "Tata"%string).
Proof.
  split.
  - apply (buy_updates_cash_and_holding fresh_world 1 "TCS" "Tata" 10 100
             (Portfolio.mk 100000 [] [] 1)).
    + reflexivity.
    + constructor.
    + reflexivity.
    + reflexivity.
    + reflexivity.
    + vm_compute. lia.
    + vm_compute. lia.
    + vm_compute. discriminate.
    + fits_by_computation.
    + vm_compute. discriminate.
  - apply (buy_updates_cash_and_holding world_after_small_buy 1 "TCS" "Tata" 2 (1001 # 100)
             (Portfolio.mk 99990 [("TCS"%string, Holding.mk 1 10 10 "Tata")]
                [Order.mk "TCS" "Tata" "buy" 1 10 10 None] 1)).
    + reflexivity.
    + vm_compute. constructor; [intros [] | constructor].
    + reflexivity.
    + reflexivity.
    + reflexivity.
    + vm_compute. lia.
    + vm_compute. lia.
    + vm_compute. discriminate.
    + fits_by_computation.
    + split; [reflexivity | split; [vm_compute; discriminate | fits_by_computation]].
Defined.

(** C6, as the claim states it, fails: user 1 holds 10 TCS bought at 100,
    with cash 99000, and sells 4 of them at 150.004.  The proceeds are
    600.016 and the profit is 200.016, but the store keeps two decimals: the
    cash becomes 99600.02, and the order records the price 150.00, the total
    600.02 and the profit 200.02. *)
Lemma sell_amounts_are_stored_rounded :
  match result (update_portfolio_db 1 "TCS" "sell" 4 (150004 # 1000) EmptyString)
          world_after_first_buy with
  | Return (Some (true, SellOrderExecuted _)) => True
  | _ => False
  end /\
  map p_cash (tbl_portfolios (db world_after_first_buy)) = [99000] /\
  map p_cash
    (tbl_portfolios
       (db (exec (update_portfolio_db 1 "TCS" "sell" 4 (150004 # 1000) EmptyString)
              world_after_first_buy)))
  = [4980001 # 50] /\
  ~ (4980001 # 50) == 99000 + inject_Z 4 * (150004 # 1000) /\
  last (tbl_orders
          (db (exec (update_portfolio_db 1 "TCS" "sell" 4 (150004 # 1000) EmptyString)
                 world_after_first_buy)))
       (mkOrderRow 0 EmptyString EmptyString EmptyString 0 0 0 None)
  = mkOrderRow 1 "TCS" EmptyString "sell" 4 150 (30001 # 50) (Some (10001 # 50)) /\
  ~ (10001 # 50) == ((150004 # 1000) - 100) * inject_Z 4.
Proof.
  split; [exact I | split; [reflexivity | split; [reflexivity | split; [| split]]]].
  - intros H. vm_compute in H. discriminate H.
  - reflexivity.
  - intros H. vm_compute in H. discriminate H.
Qed.

Lemma remaining_cost_fits (held_shares shares : Z) (avg_price : Q) :
  (0 < shares <= held_shares)%Z -> 0 <= avg_price ->
  fits (inject_Z held_shares * avg_price) ->
  fits (inject_Z (held_shares - shares) * avg_price).
Proof.
  intros Hs Ha Hf.
  assert (H0 : 0 <= inject_Z (held_shares - shares)).
  { change 0 with (inject_Z 0). rewrite <- Zle_Qle. lia. }
  assert (H1 : inject_Z (held_shares - shares) <= inject_Z held_shares).
  { rewrite <- Zle_Qle. lia. }
  apply (fits_between _ (inject_Z held_shares * avg_price)); [| | exact Hf].
  - apply Qmult_le_0_compat; assumption.
  - apply Qmult_le_compat_r; assumption.
Qed.

Lemma profit_fits (held_shares shares : Z) (price avg_price : Q) :
  (0 < shares <= held_shares)%Z -> 0 < price -> 0 <= avg_price ->
  fits (inject_Z shares * price) ->
  fits (inject_Z held_shares * avg_price) ->
  fits ((price - avg_price) * inject_Z shares).
Proof.
  unfold fits. intros Hs Hp Ha Hc Hf.
  assert (H0 : 0 <= inject_Z shares).
  { change 0 with (inject_Z 0). rewrite <- Zle_Qle. lia. }
  assert (H1 : inject_Z shares <= inject_Z held_shares).
  { rewrite <- Zle_Qle. lia. }
  pose proof (Qmult_le_0_compat _ _ H0 Ha) as H2.
  pose proof (Qmult_le_compat_r _ _ _ H1 Ha) as H3.
  pose proof (Qmult_le_0_compat _ _ H0 (Qlt_le_weak _ _ Hp)) as H4.
  apply Qabs_Qle_condition in Hc, Hf. destruct Hc as [_ Hc], Hf as [_ Hf].
  apply Qabs_Qle_condition. split; lra.
Qed.

(** C6, amended.  On a working store, a sell of [shares > 0] at [price > 0]
    of shares that are held, with values that fit their columns, succeeds.
    The amounts are stored rounded to the cent: the cash is then within a cent
    of the old cash plus [shares * price]; a sell order is appended whose
    price, total and profit_loss are within a cent of [price],
    [shares * price] and [(price - avg_price) * shares]; when shares remain,
    the holding keeps its avg_price and its total_invested is within a cent of
    [remaining_shares * avg_price]; when none remain, the holding is deleted. *)
Theorem sell_updates_cash_and_holding :
  forall (w : World) (user_id : Z) (symbol company_name : string) (shares : Z) (price : Q)
         (pf : Portfolio.t) (holding : Holding.t),
    outages w = [] ->
    get_user_portfolio user_id w = (Return (Some pf), w) ->
    dict_get symbol (Portfolio.holdings pf) = Some holding ->
    (0 < shares <= Holding.shares holding)%Z ->
    (Holding.shares holding <= 2147483647)%Z ->
    0 < price ->
    0 <= Holding.avg_price holding ->
    (String.length symbol <= 20)%nat -> (String.length company_name <= 200)%nat ->
    0 <= Portfolio.cash pf ->
    fits (Portfolio.cash pf + inject_Z shares * price) ->
    fits (inject_Z (Holding.shares holding) * Holding.avg_price holding) ->
    exists (w' : World) (pf' : Portfolio.t) (profit_loss : Q) (order : OrderRow),
      update_portfolio_db user_id symbol "sell" shares price company_name w
      = (Return (Some (true, SellOrderExecuted profit_loss)), w') /\
      within_a_cent profit_loss ((price - Holding.avg_price holding) * inject_Z shares) /\
      get_user_portfolio user_id w' = (Return (Some pf'), w') /\
      within_a_cent (Portfolio.cash pf') (Portfolio.cash pf + inject_Z shares * price) /\
      (if (Holding.shares holding - shares =? 0)%Z
       then dict_get symbol (Portfolio.holdings pf') = None
       else exists h,
           dict_get symbol (Portfolio.holdings pf') = Some h /\
           Holding.shares h = (Holding.shares holding - shares)%Z /\
           Holding.avg_price h = Holding.avg_price holding /\
           within_a_cent (Holding.total_invested h)
             (inject_Z (Holding.shares holding - shares) * Holding.avg_price holding) /\
           Holding.company_name h = Holding.company_name holding) /\
      tbl_orders (db w') = tbl_orders (db w) ++ [order] /\
      o_portfolio_id order = Portfolio.portfolio_id pf /\
      o_symbol order = symbol /\
      o_company_name order = company_name /\
      o_action order = "sell"%string /\
      o_shares order = shares /\
      within_a_cent (o_price order) price /\
      within_a_cent (o_total order) (inject_Z shares * price) /\
      exists recorded_profit,
        o_profit_loss order = Some recorded_profit /\
        within_a_cent recorded_profit ((price - Holding.avg_price holding) * inject_Z shares).
Proof.
  intros [d o log] user_id symbol company_name shares price pf holding Ho Hload Hget Hs Hmax
    Hp Ha _ _ Hcash0 Hcash Hcost.
  simpl in Ho. subst o.
  apply load_is_read in Hload. destruct Hload as (r & Hrow & ->).
  cbn [Portfolio.cash Portfolio.portfolio_id read_portfolio] in Hcash0, Hcash |- *.
  fold (Portfolio.holdings (read_portfolio r d)) in Hget.
  assert (Hs0 : (0 < shares)%Z) by lia.
  pose proof (positive_proceeds _ _ Hs0 Hp) as Hc0.
  pose proof (price_below_proceeds _ _ Hs0 Hp) as Hpc.
  assert (Hfc : fits (inject_Z shares * price))
    by (apply (fits_between _ (p_cash r + inject_Z shares * price)); [lra | lra | assumption]).
  assert (Hfp : fits price)
    by (apply (fits_between _ (inject_Z shares * price)); [lra | lra | assumption]).
  assert (Hrun :
            update_portfolio_db user_id symbol "sell" shares price company_name
              (mkWorld d [] log)
            = (Return (Some (true, SellOrderExecuted
                                     ((price - Holding.avg_price holding) * inject_Z shares))),
               mkWorld (after_sell r holding symbol shares price company_name d) [] log)).
  { apply sell_succeeds; try assumption; try lia.
    - apply remaining_cost_fits; assumption.
    - apply (profit_fits (Holding.shares holding)); assumption. }
  pose proof (row_of_after_cash user_id (cents (p_cash r + inject_Z shares * price)) d r) as Hrow'.
  set (r' := mkPortfolioRow (p_id r) (p_user_id r)
               (cents (p_cash r + inject_Z shares * price)) (p_total_value r)).
  pose proof (dict_get_read_portfolio r' (after_sell r holding symbol shares price company_name d)
                symbol) as Hget'.
  unfold after_sell in Hget' at 2. cbn [p_id r' tbl_holdings] in Hget'.
  rewrite dict_get_read_portfolio in Hget.
  destruct (held (p_id r) symbol (tbl_holdings d)) as [row |] eqn:Hheld; [| discriminate].
  injection Hget as <-.
  exists (mkWorld (after_sell r (holding_of_row row) symbol shares price company_name d) [] log).
  exists (read_portfolio r' (after_sell r (holding_of_row row) symbol shares price company_name d)).
  eexists. eexists.
  split; [exact Hrun |].
  split; [unfold within_a_cent; setoid_replace
            ((price - Holding.avg_price (holding_of_row row)) * inject_Z shares
             - (price - Holding.avg_price (holding_of_row row)) * inject_Z shares) with 0 by ring;
          reflexivity |].
  split; [apply get_user_portfolio_existing; unfold after_sell; apply Hrow', Hrow |].
  split; [apply within_a_cent_cents |].
  split.
  { fold (Portfolio.holdings
            (read_portfolio r'
               (after_sell r (holding_of_row row) symbol shares price company_name d))).
    rewrite Hget'.
    destruct (Holding.shares (holding_of_row row) - shares =? 0)%Z.
    - rewrite held_delete. reflexivity.
    - rewrite held_update by reflexivity. rewrite Hheld. simpl.
      eexists. split; [reflexivity |].
      repeat split; try reflexivity. apply within_a_cent_cents. }
  unfold after_sell. cbn [db tbl_orders].
  split; [reflexivity |]. cbn [o_portfolio_id o_symbol o_company_name o_action o_shares o_price
                                 o_total o_profit_loss].
  repeat split; try reflexivity; try apply within_a_cent_cents.
  eexists. split; [reflexivity | apply within_a_cent_cents].
Qed.

Lemma sell_updates_cash_and_holding_witness :
  (exists (w' : World) (pf' : Portfolio.t) (profit_loss : Q) (order : OrderRow),
      update_portfolio_db 1 "TCS" "sell" 4 (150004 # 1000) EmptyString world_after_first_buy
      = (Return (Some (true, SellOrderExecuted profit_loss)), w') /\
      within_a_cent profit_loss (((150004 # 1000) - 100) * inject_Z 4) /\
      get_user_portfolio 1 w' = (Return (Some pf'), w') /\
      within_a_cent (Portfolio.cash pf') (99000 + inject_Z 4 * (150004 # 1000)) /\
      (exists h,
          dict_get "TCS" (Portfolio.holdings pf') = Some h /\
          Holding.shares h = (10 - 4)%Z /\
          Holding.avg_price h = 100 /\
          within_a_cent (Holding.total_invested h) (inject_Z (10 - 4) * 100) /\
          Holding.company_name h = "Tata"%string) /\
      tbl_orders (db w') = tbl_orders (db world_after_first_buy) ++ [order] /\
      o_portfolio_id order = 1%Z /\
      o_symbol order = "TCS"%string /\
      o_company_name order = EmptyString /\
      o_action order = "sell"%string /\
      o_shares order = 4%Z /\
      within_a_cent (o_price order) (150004 # 1000) /\
      within_a_cent (o_total order) (inject_Z 4 * (150004 # 1000)) /\
      exists recorded_profit,
        o_profit_loss order = Some recorded_profit /\
        within_a_cent recorded_profit (((150004 # 1000) - 100) * inject_Z 4)) /\
  (exists (w' : World) (pf' : Portfolio.t) (profit_loss : Q) (order : OrderRow),
      update_portfolio_db 1 "TCS" "sell" 10 90 EmptyString world_after_first_buy
      = (Return (Some (true, SellOrderExecuted profit_loss)), w') /\
      within_a_cent profit_loss ((90 - 100) * inject_Z 10) /\
      get_user_portfolio 1 w' = (Return (Some pf'), w') /\
      within_a_cent (Portfolio.cash pf') (99000 + inject_Z 10 * 90) /\
      dict_get "TCS" (Portfolio.holdings pf') = None /\
      tbl_orders (db w') = tbl_orders (db world_after_first_buy) ++ [order] /\
      o_portfolio_id order = 1%Z /\
      o_symbol order = "TCS"%string /\
      o_company_name order = EmptyString /\
      o_action order = "sell"%string /\
      o_shares order = 10%Z /\
      within_a_cent (o_price order) 90 /\
      within_a_cent (o_total order) (inject_Z 10 * 90) /\
      exists recorded_profit,
        o_profit_loss order = Some recorded_profit /\
        within_a_cent recorded_profit ((90 - 100) * inject_Z 10)).
Proof.
  split.
  - apply (sell_updates_cash_and_holding world_after_first_buy 1 "TCS" EmptyString 4
             (150004 # 1000)
             (Portfolio.mk 99000 [("TCS"%string, Holding.mk 10 100 1000 "Tata")]
                [Order.mk "TCS" "Tata" "buy" 10 100 1000 None] 1)
             (Holding.mk 10 100 1000 "Tata")).
    + reflexivity.
    + reflexivity.
    + reflexivity.
    + split; [reflexivity | vm_compute; discriminate].
    + vm_compute. discriminate.
    + reflexivity.
    + vm_compute. discriminate.
    + vm_compute. lia.
    + vm_compute. lia.
    + vm_compute. discriminate.
    + fits_by_computation.
    + fits_by_computation.
  - apply (sell_updates_cash_and_holding world_after_first_buy 1 "TCS" EmptyString 10 90
             (Portfolio.mk 99000 [("TCS"%string, Holding.mk 10 100 1000 "Tata")]
                [Order.mk "TCS" "Tata" "buy" 10 100 1000 None] 1)
             (Holding.mk 10 100 1000 "Tata")).
    + reflexivity.
    + reflexivity.
    + reflexivity.
    + split; [reflexivity | vm_compute; discriminate].
    + vm_compute. discriminate.
    + reflexivity.
    + vm_compute. discriminate.
    + vm_compute. lia.
    + vm_compute. lia.
    + vm_compute. discriminate.
    + fits_by_computation.
    + fits_by_computation.
Defined.

(** What a load does while the store works: it reads the row of the user, or
    provisions one when there is none. *)
Lemma load_healthy (user_id : Z) (d : Database) (log : list Toast) :
  match row_of user_id d with
  | Some r =>
      get_user_portfolio user_id (mkWorld d [] log)
      = (Return (Some (read_portfolio r d)), mkWorld d [] log)
  | None =>
      get_user_portfolio user_id (mkWorld d [] log)
      = (Return (Some (Portfolio.mk 100000 [] [] (portfolios_id_seq d))),
         mkWorld (provision user_id d) [] log)
  end.
Proof.
  destruct (row_of user_id d) as [r |] eqn:Hrow.
  - apply get_user_portfolio_existing, Hrow.
  - apply get_user_portfolio_new, Hrow.
Qed.

(** A sell that fails a check stops after the load. *)
Lemma sell_rejected_run (user_id : Z) (symbol : string) (shares : Z) (price : Q)
    (company_name : string) (w w0 : World) (pf : Portfolio.t) :
  outages w = [] ->
  get_user_portfolio user_id w = (Return (Some pf), w0) ->
  (dict_get symbol (Portfolio.holdings pf) = None ->
   update_portfolio_db user_id symbol "sell" shares price company_name w
   = (Return (Some (false, NoSharesToSell)), w0)) /\
  (forall holding,
      dict_get symbol (Portfolio.holdings pf) = Some holding ->
      (Holding.shares holding < shares)%Z ->
      update_portfolio_db user_id symbol "sell" shares price company_name w
      = (Return (Some (false, InsufficientShares)), w0)).
Proof.
  destruct w as [d o log]. simpl. intros -> Hload.
  assert (Hw0 : exists d0, w0 = mkWorld d0 [] log).
  { pose proof (load_healthy user_id d log) as H.
    destruct (row_of user_id d); rewrite H in Hload; injection Hload as _ <-; eauto. }
  destruct Hw0 as [d0 ->].
  unfold update_portfolio_db, bind. rewrite Hload, get_db_connection_healthy.
  unfold try_except.
  change (String.eqb "sell" "buy") with false.
  change (String.eqb "sell" "sell") with true. cbv iota.
  split.
  - intros ->. reflexivity.
  - intros holding -> Hlt. apply Z.ltb_lt in Hlt. rewrite Hlt. reflexivity.
Qed.

Lemma hoare_execute_any {A : Type} (P : Database -> Prop) (conn : Connection) (stmt : Stmt A) :
  hoare P (execute conn stmt) (fun _ _ => True) (fun _ => True).
Proof.
  apply hoare_execute. intros d _. split; [exact I |].
  destruct (stmt d) as [e | [a d']]; exact I.
Qed.

Lemma row_of_provision (user_id : Z) (d : Database) :
  row_of user_id d = None ->
  row_of user_id (provision user_id d)
  = Some (mkPortfolioRow (portfolios_id_seq d) user_id 100000 100000).
Proof.
  intros Hnone. unfold row_of, provision. cbn [tbl_portfolios]. unfold row_of in Hnone.
  rewrite (find_snoc_none _ _ _ Hnone). cbn [p_user_id]. rewrite Z.eqb_refl. reflexivity.
Qed.

Lemma load_frame_provision (user_id : Z) (d0 d : Database) :
  load_frame user_id d0 d -> row_of user_id d = None -> load_frame user_id d0 (provision user_id d).
Proof.
  intros [-> | [Hnone ->]] Hrow.
  - right. split; [exact Hrow | reflexivity].
  - rewrite (row_of_provision _ _ Hnone) in Hrow. discriminate.
Qed.

(** Whatever the outages, a sell that ends with one of the two rejections
    has done nothing but its load. *)
Lemma sell_rejected_frame (user_id : Z) (symbol : string) (shares : Z) (price : Q)
    (company_name : string) (d0 : Database) :
  hoare (load_frame user_id d0)
    (update_portfolio_db user_id symbol "sell" shares price company_name)
    (fun a d => a = Some (false, NoSharesToSell) \/ a = Some (false, InsufficientShares) ->
                load_frame user_id d0 d)
    (fun _ => False).
Proof.
  unfold update_portfolio_db.
  eapply hoare_bind.
  { apply (hoare_load (load_frame user_id d0) (fun _ => True)); auto.
    intros d Hd Hnone. apply load_frame_provision; assumption. }
  intros [pf |]; [| apply hoare_ret; intros d _ [H | H]; discriminate].
  apply hoare_weaken
    with (P := load_frame user_id d0)
         (Q := fun a d => a = Some (false, NoSharesToSell) \/ a = Some (false, InsufficientShares) ->
                          load_frame user_id d0 d)
         (E := fun _ => False); [| tauto | auto | auto].
  eapply hoare_bind; [apply hoare_connect |].
  intros [conn |]; [| apply hoare_ret; intros d _ [H | H]; discriminate].
  apply hoare_weaken
    with (P := load_frame user_id d0)
         (Q := fun a d => a = Some (false, NoSharesToSell) \/ a = Some (false, InsufficientShares) ->
                          load_frame user_id d0 d)
         (E := fun _ => False); [| tauto | auto | auto].
  apply hoare_try with (H := fun _ => True).
  - change (String.eqb "sell" "buy") with false.
    change (String.eqb "sell" "sell") with true. cbv iota.
    destruct (dict_get symbol (Portfolio.holdings pf)) as [holding |];
      [| apply hoare_ret; auto].
    destruct (Holding.shares holding <? shares)%Z; [apply hoare_ret; auto |].
    apply hoare_weaken
      with (P := fun _ : Database => True)
           (Q := fun (a : option (bool * Message)) (_ : Database) =>
                   exists pl, a = Some (true, SellOrderExecuted pl))
           (E := fun _ : Database => True);
      [| auto | intros a d [pl ->] [H | H]; discriminate | auto].
    eapply hoare_bind; [apply hoare_execute_any |]. intros ?.
    eapply hoare_bind;
      [destruct (Holding.shares holding - shares =? 0)%Z; apply hoare_execute_any |].
    intros ?.
    eapply hoare_bind; [apply hoare_execute_any |]. intros ?.
    eapply hoare_bind; [apply hoare_commit with (P := fun _ : Database => True) |]. intros ?.
    apply hoare_ret. eauto.
  - intros e w _. unfold bind, rollback, ret.
    destruct (autocommit conn); simpl; intros [H | H]; discriminate.
Qed.

(** C7, as the claim states it, fails: user 1 has an account and no
    portfolio row; the sell is turned down with "No shares to sell", and the
    load that opens the call has inserted a portfolio row for the user. *)
Lemma rejected_sell_provisions_portfolio :
  user_exists 1 account_without_portfolio = true /\
  tbl_portfolios (db (world account_without_portfolio)) = [] /\
  site_result (lift (update_portfolio_db 1 "TCS" "sell" 1 100 EmptyString))
    account_without_portfolio
  = Returns (Some (false, NoSharesToSell)) /\
  tbl_portfolios
    (db (world (site_exec (lift (update_portfolio_db 1 "TCS" "sell" 1 100 EmptyString))
                  account_without_portfolio)))
  = [mkPortfolioRow 1 1 100000 100000].
Proof. repeat split; reflexivity. Qed.

(** C7, amended.  On a working store, a sell of a symbol that is not among
    the loaded holdings fails with "No shares to sell", and a sell of more
    shares than held fails with "Insufficient shares".  Whatever outages
    occur, a sell that fails with one of these two messages leaves every
    holding and every order as it was, and the portfolios too, except that
    for a user without a portfolio row the load that opens the call may have
    provisioned one (cash 100000). *)
Theorem sell_rejected_leaves_ledger :
  forall (w : World) (user_id : Z) (symbol company_name : string) (shares : Z) (price : Q),
    (outages w = [] ->
     forall (pf : Portfolio.t) (w0 : World),
       get_user_portfolio user_id w = (Return (Some pf), w0) ->
       (dict_get symbol (Portfolio.holdings pf) = None ->
        update_portfolio_db user_id symbol "sell" shares price company_name w
        = (Return (Some (false, NoSharesToSell)), w0)) /\
       (forall holding,
           dict_get symbol (Portfolio.holdings pf) = Some holding ->
           (Holding.shares holding < shares)%Z ->
           update_portfolio_db user_id symbol "sell" shares price company_name w
           = (Return (Some (false, InsufficientShares)), w0))) /\
    (result (update_portfolio_db user_id symbol "sell" shares price company_name) w
     = Return (Some (false, NoSharesToSell)) \/
     result (update_portfolio_db user_id symbol "sell" shares price company_name) w
     = Return (Some (false, InsufficientShares)) ->
     tbl_holdings (db (exec (update_portfolio_db user_id symbol "sell" shares price company_name) w))
     = tbl_holdings (db w) /\
     tbl_orders (db (exec (update_portfolio_db user_id symbol "sell" shares price company_name) w))
     = tbl_orders (db w) /\
     (db (exec (update_portfolio_db user_id symbol "sell" shares price company_name) w) = db w \/
      (row_of user_id (db w) = None /\
       db (exec (update_portfolio_db user_id symbol "sell" shares price company_name) w)
       = provision user_id (db w)))).
Proof.
  intros w user_id symbol company_name shares price. split.
  - intros Ho pf w0 Hload.
    exact (sell_rejected_run user_id symbol shares price company_name w w0 pf Ho Hload).
  - intros Hres.
    pose proof (sell_rejected_frame user_id symbol shares price company_name (db w) w
                  (or_introl eq_refl)) as H.
    unfold result in Hres. unfold exec.
    destruct (update_portfolio_db user_id symbol "sell" shares price company_name w)
      as [[a | e] w1]; [| contradiction].
    simpl in Hres |- *.
    assert (Ha : a = Some (false, NoSharesToSell) \/ a = Some (false, InsufficientShares)).
    { destruct Hres as [Hres | Hres]; injection Hres as ->; auto. }
    destruct (H Ha) as [-> | [Hnone ->]].
    + repeat split; auto.
    + repeat split; auto.
Qed.

Lemma sell_rejected_leaves_ledger_witness :
  update_portfolio_db 1 "INFY" "sell" 1 100 EmptyString world_after_first_buy
  = (Return (Some (false, NoSharesToSell)), world_after_first_buy) /\
  update_portfolio_db 1 "TCS" "sell" 11 150 EmptyString world_after_first_buy
  = (Return (Some (false, InsufficientShares)), world_after_first_buy) /\
  tbl_holdings
    (db (exec (update_portfolio_db 1 "TCS" "sell" 1 100 EmptyString) world_without_connection))
  = tbl_holdings (db world_without_connection) /\
  tbl_orders
    (db (exec (update_portfolio_db 1 "TCS" "sell" 1 100 EmptyString) world_without_connection))
  = tbl_orders (db world_without_connection) /\
  (db (exec (update_portfolio_db 1 "TCS" "sell" 1 100 EmptyString) world_without_connection)
   = db world_without_connection \/
   (row_of 1 (db world_without_connection) = None /\
    db (exec (update_portfolio_db 1 "TCS" "sell" 1 100 EmptyString) world_without_connection)
    = provision 1 (db world_without_connection))).
Proof.
  split; [| split].
  - apply (proj1 (sell_rejected_leaves_ledger world_after_first_buy 1 "INFY" EmptyString 1 100)
             eq_refl
             (Portfolio.mk 99000 [("TCS"%string, Holding.mk 10 100 1000 "Tata")]
                [Order.mk "TCS" "Tata" "buy" 10 100 1000 None] 1)
             world_after_first_buy eq_refl).
    reflexivity.
  - apply (proj2 (proj1 (sell_rejected_leaves_ledger world_after_first_buy 1 "TCS" EmptyString
                           11 150)
                    eq_refl
                    (Portfolio.mk 99000 [("TCS"%string, Holding.mk 10 100 1000 "Tata")]
                       [Order.mk "TCS" "Tata" "buy" 10 100 1000 None] 1)
                    world_after_first_buy eq_refl)
             (Holding.mk 10 100 1000 "Tata")); reflexivity.
  - apply (proj2 (sell_rejected_leaves_ledger world_without_connection 1 "TCS" EmptyString
                    1 100)).
    left. reflexivity.
Defined.

(** An action that is neither 'buy' nor 'sell' falls through both branches. *)
Lemma other_action_run (user_id : Z) (symbol action : string) (shares : Z) (price : Q)
    (company_name : string) (w : World) :
  action <> "buy"%string -> action <> "sell"%string ->
  hd false (outages (exec (get_user_portfolio user_id) w)) = false ->
  exists w', update_portfolio_db user_id symbol action shares price company_name w
             = (Return None, w').
Proof.
  intros Hbuy Hsell Hconn.
  destruct (get_user_portfolio_returns user_id w) as [pf Hpf].
  unfold result in Hpf. unfold exec in Hconn.
  unfold update_portfolio_db, bind.
  destruct (get_user_portfolio user_id w) as [r [d1 o1 log1]]. simpl in Hpf, Hconn. subst r.
  apply String.eqb_neq in Hbuy, Hsell.
  unfold get_db_connection, next_outage, try_except. simpl.
  destruct o1 as [| [|] o1]; simpl in Hconn; try discriminate;
    rewrite Hbuy, Hsell; eexists; reflexivity.
Qed.

(** C10. When the action is neither 'buy' nor 'sell', the connection of
    [update_portfolio_db] is established and nothing raises, the function
    returns [None], not a [(success, message)] pair. *)
Theorem other_action_returns_none :
  forall (w : World) (user_id : Z) (symbol action company_name : string) (shares : Z)
         (price : Q),
    action <> "buy"%string -> action <> "sell"%string ->
    hd false (outages (exec (get_user_portfolio user_id) w)) = false ->
    result (update_portfolio_db user_id symbol action shares price company_name) w
    = Return None.
Proof.
  intros w user_id symbol action company_name shares price Hbuy Hsell Hconn.
  destruct (other_action_run user_id symbol action shares price company_name w
              Hbuy Hsell Hconn) as [w' H].
  unfold result. rewrite H. reflexivity.
Qed.

Lemma other_action_returns_none_witness :
  result (update_portfolio_db 1 "TCS" "hold" 10 100 "Tata") fresh_world = Return None.
Proof.
  apply (other_action_returns_none fresh_world 1 "TCS" "hold" "Tata" 10 100);
    [discriminate | discriminate | reflexivity].
Defined.










(** ** Atomicity *)

(** The handler's [conn.rollback()] undoes nothing: every connection that
    [get_db_connection] returns is in autocommit mode. *)
Lemma rollback_is_noop (w w1 w2 : World) (conn : Connection) :
  get_db_connection w = (Return (Some conn), w1) ->
  rollback conn w2 = (Return tt, w2).
Proof.
  unfold get_db_connection, rollback.
  destruct (next_outage w) as [[|] w0]; simpl; intros H; [discriminate |].
  injection H as <- _. reflexivity.
Qed.

(** C1 (the code breaks the claim).  When the store fails at the insert of the
    order, the buy reports "Transaction failed", yet the cash update and the
    new holding stay committed and no order is recorded. *)
Theorem failed_buy_leaves_partial_write :
  result (update_portfolio_db 1 "TCS" "buy" 10 100 "Tata") order_insert_fails
  = Return (Some (false, TransactionFailed OperationalError)) /\
  db (exec (update_portfolio_db 1 "TCS" "buy" 10 100 "Tata") order_insert_fails)
  = mkDatabase [mkPortfolioRow 1 1 99000 100000] 2
      [mkHoldingRow 1 "TCS" "Tata" 10 100 1000] [] /\
  db order_insert_fails = mkDatabase [mkPortfolioRow 1 1 100000 100000] 2 [] [].
Proof. repeat split; reflexivity. Qed.

(** ** Loading while the store fails *)

(** C9, as the claim states it, fails: user 1 holds 10 TCS and 99000 in cash,
    the connection cannot be established, and the caller still receives a
    portfolio: the default one, with cash 100000 and no holdings. *)
Lemma load_without_connection_returns_portfolio :
  storage_fails_during_load 1 world_without_connection = true /\
  get_user_portfolio 1 world_without_connection
  = (Return (Some (Portfolio.mk 100000 [] [] 0)),
     mkWorld (db world_after_first_buy) [] [DatabaseConnectionError]) /\
  get_user_portfolio 1 world_after_first_buy
  = (Return (Some (Portfolio.mk 99000 [("TCS"%string, Holding.mk 10 100 1000 "Tata")]
                     [Order.mk "TCS" "Tata" "buy" 10 100 1000 None] 1)),
     world_after_first_buy).
Proof. repeat split; reflexivity. Qed.

(** C9, amended.  When the connection cannot be established or a statement of
    the load raises, [get_user_portfolio] does not report a failure to its
    caller: it shows an error message with [st.error], leaves the store as it
    is and returns the default portfolio (cash 100000, no holdings, no orders,
    portfolio_id 0). *)
Theorem load_failure_returns_default_portfolio :
  forall (w : World) (user_id : Z),
    storage_fails_during_load user_id w = true ->
    exists (t : Toast) (rest : list bool),
      get_user_portfolio user_id w
      = (Return (Some default_portfolio), mkWorld (db w) rest (st_errors w ++ [t])).
Proof.
  intros [d o log] user_id. unfold storage_fails_during_load, load_statements.
  cbn [db st_errors outages].
  unfold get_user_portfolio, bind, get_db_connection, try_except, st_error, ret.
  destruct o as [| [|] o]; [discriminate | intros _; eexists; eexists; reflexivity |].
  unfold next_outage at 1. cbn [outages fst snd db st_errors].
  unfold execute at 1, next_outage at 1. cbn [outages db st_errors].
  destruct o as [| [|] o].
  { destruct (row_of user_id d); discriminate. }
  { intros _. eexists; eexists; reflexivity. }
  unfold sql_select_portfolio at 1, query at 1. cbn [db tbl_portfolios].
  fold (row_of user_id d). unfold set_db. cbn [outages st_errors db].
  destruct (row_of user_id d) as [r |].
  - unfold execute at 1, next_outage at 1. cbn [outages db st_errors].
    destruct o as [| [|] o]; [discriminate | intros _; eexists; eexists; reflexivity |].
    unfold sql_select_holdings at 1, query at 1, set_db. cbn [outages st_errors db].
    unfold execute at 1, next_outage at 1. cbn [outages db st_errors].
    destruct o as [| [|] o]; [discriminate | intros _; eexists; eexists; reflexivity |].
    discriminate.
  - unfold execute at 1, next_outage at 1. cbn [outages db st_errors].
    destruct o as [| [|] o]; [discriminate | intros _; eexists; eexists; reflexivity |].
    discriminate.
Qed.

Lemma load_failure_returns_default_portfolio_witness :
  exists (t : Toast) (rest : list bool),
    get_user_portfolio 1 (mkWorld (db world_after_first_buy) [false; false; true] [])
    = (Return (Some default_portfolio),
       mkWorld (db (mkWorld (db world_after_first_buy) [false; false; true] [])) rest
         (st_errors (mkWorld (db world_after_first_buy) [false; false; true] []) ++ [t])).
Proof.
  apply (load_failure_returns_default_portfolio
           (mkWorld (db world_after_first_buy) [false; false; true] []) 1).
  reflexivity.
Defined.

(** ** What the valuation writes *)

Lemma find_none_ledger (user_id : Z) (rows : list PortfolioRow) :
  find (fun r => (p_user_id r =? user_id)%Z) rows = None <->
  existsb (fun t => (snd (fst t) =? user_id)%Z) (map ledger_part rows) = false.
Proof.
  induction rows as [| r rows IH]; simpl.
  - tauto.
  - destruct (p_user_id r =? user_id)%Z; simpl; [split; discriminate | exact IH].
Qed.

Lemma valuation_frame_provision (user_id : Z) (d0 d : Database) :
  valuation_frame user_id d0 d -> row_of user_id d = None ->
  valuation_frame user_id d0 (provision user_id d).
Proof.
  intros (Hh & Ho & Hp) Hnone. unfold valuation_frame, provision. cbn [tbl_holdings tbl_orders].
  split; [exact Hh | split; [exact Ho |]].
  unfold row_of in Hnone. apply find_none_ledger in Hnone. fold (ledger_rows d) in Hnone.
  destruct Hp as [[Hrows Hseq] | [_ Hrows]].
  - right. split.
    + apply find_none_ledger. fold (ledger_rows d0). rewrite <- Hrows. exact Hnone.
    + unfold ledger_rows at 1. cbn [tbl_portfolios]. rewrite map_app.
      fold (ledger_rows d). rewrite Hrows, Hseq. reflexivity.
  - rewrite Hrows, existsb_app in Hnone. simpl in Hnone.
    rewrite Z.eqb_refl, orb_true_r in Hnone. discriminate.
Qed.

Lemma update_total_value_keeps_frame (user_id user_id' : Z) (d0 : Database) (total_value : Q) :
  stmt_keeps (valuation_frame user_id d0) (sql_update_total_value total_value user_id').
Proof.
  intros d a d' (Hh & Ho & Hp) Hs. apply sql_update_total_value_inr in Hs. subst d'.
  unfold valuation_frame. cbn [tbl_holdings tbl_orders set_portfolios portfolios_id_seq].
  split; [exact Hh | split; [exact Ho |]].
  assert (Hrows : ledger_rows (set_portfolios
                                 (map (with_total_value (cents total_value) user_id')
                                    (tbl_portfolios d)) d)
                  = ledger_rows d).
  { unfold ledger_rows. cbn [tbl_portfolios set_portfolios]. rewrite map_map.
    apply map_ext. intros r. unfold with_total_value.
    destruct (p_user_id r =? user_id')%Z; reflexivity. }
  rewrite Hrows. exact Hp.
Qed.

Lemma calculate_portfolio_value_frame (feed : string -> Quote) (user_id : Z) (d0 : Database) :
  hoare (valuation_frame user_id d0) (calculate_portfolio_value feed user_id)
    (fun _ => valuation_frame user_id d0) (fun _ => False).
Proof.
  unfold calculate_portfolio_value.
  eapply hoare_bind.
  { apply (hoare_load (valuation_frame user_id d0) (fun _ => True)); auto.
    intros d Hd Hnone. apply valuation_frame_provision; assumption. }
  intros [pf |]; [| apply hoare_ret; tauto].
  apply hoare_weaken with (P := valuation_frame user_id d0)
                          (Q := fun _ => valuation_frame user_id d0) (E := fun _ => False);
    [| tauto | auto | auto].
  eapply hoare_bind; [apply hoare_connect |].
  intros conn.
  apply hoare_weaken with (P := valuation_frame user_id d0)
                          (Q := fun _ => valuation_frame user_id d0) (E := fun _ => False);
    [| tauto | auto | auto].
  eapply hoare_bind; [| intros ?; apply hoare_ret; intros d Hd; exact Hd].
  destruct conn as [conn |]; [| apply hoare_ret; tauto].
  apply hoare_try with (H := valuation_frame user_id d0).
  - eapply hoare_bind.
    + apply hoare_execute_keeps, update_total_value_keeps_frame.
    + intros ?. apply hoare_commit.
  - intros e. apply hoare_ret. auto.
Qed.

(** C8, as the claim states it, fails: after the first buy user 1 has cash
    99000 and 10 TCS; a valuation at the quote 120 rewrites the portfolio row,
    whose [total_value] goes from 100000 to 100200. *)
Lemma valuation_writes_total_value :
  tbl_portfolios (db world_after_first_buy) = [mkPortfolioRow 1 1 99000 100000] /\
  tbl_portfolios (db world_after_valuation) = [mkPortfolioRow 1 1 99000 100200] /\
  tbl_portfolios (db world_after_valuation) <> tbl_portfolios (db world_after_first_buy).
Proof.
  split; [reflexivity | split; [reflexivity |]].
  intros H. vm_compute in H. discriminate H.
Qed.

(** C8, amended.  Whatever the price feed answers and whatever outages occur,
    [calculate_portfolio_value] leaves every holding, every order and the id,
    user and cash of every portfolio row as they were; what it may write is the
    cached [total_value] of the rows of the user and, for a user without a
    portfolio row, a freshly provisioned row with cash 100000. *)
Theorem valuation_keeps_cash_holdings_orders :
  forall (feed : string -> Quote) (user_id : Z) (w : World),
    let w' := exec (calculate_portfolio_value feed user_id) w in
    tbl_holdings (db w') = tbl_holdings (db w) /\
    tbl_orders (db w') = tbl_orders (db w) /\
    (ledger_rows (db w') = ledger_rows (db w) \/
     (row_of user_id (db w) = None /\
      ledger_rows (db w')
      = ledger_rows (db w) ++ [(portfolios_id_seq (db w), user_id, 100000)])).
Proof.
  intros feed user_id w w'.
  assert (H0 : valuation_frame user_id (db w) (db w)).
  { unfold valuation_frame. auto. }
  pose proof (calculate_portfolio_value_frame feed user_id (db w) w H0) as H.
  unfold w', exec. destruct (calculate_portfolio_value feed user_id w) as [[a | e] w1];
    [| contradiction].
  destruct H as (Hh & Ho & [[Hrows _] | Hnew]); simpl; auto.
Qed.

(** ** Conservation *)

Lemma sum_totals_snoc (action : string) (portfolio_id : Z) (os : list OrderRow) (o : OrderRow) :
  sum_totals action portfolio_id (os ++ [o])
  == sum_totals action portfolio_id os
     + (if counts_as action portfolio_id o then o_total o else 0).
Proof.
  unfold sum_totals. induction os as [| x os IH]; simpl.
  - destruct (counts_as action portfolio_id o); simpl; ring.
  - destruct (counts_as action portfolio_id x); simpl; [rewrite IH; ring | exact IH].
Qed.

Lemma order_totals_snoc (portfolio_id : Z) (os : list OrderRow) (o : OrderRow) (action : string) :
  o_portfolio_id o = portfolio_id ->
  sum_totals action portfolio_id (os ++ [o])
  == sum_totals action portfolio_id os
     + (if String.eqb (o_action o) action then o_total o else 0).
Proof.
  intros Hp. rewrite sum_totals_snoc. unfold counts_as, order_of_portfolio.
  rewrite Hp, Z.eqb_refl. reflexivity.
Qed.

(** A successful trade moves the cash and the order totals by the same
    amount, up to the rounding of the two stored values. *)
Lemma successful_trade_keeps_flow (user_id : Z) (t : Trade) (w w' : World)
    (r : PortfolioRow) (m : Message) :
  outages w = [] ->
  row_of user_id (db w) = Some r ->
  t_user_id t = user_id ->
  execute_trade t w = (Return (Some (true, m)), w') ->
  outages w' = [] /\
  exists r', row_of user_id (db w') = Some r' /\ p_id r' = p_id r /\
             Qabs (cash_less_flow r' (db w') - cash_less_flow r (db w)) <= 1 # 100.
Proof.
  destruct w as [d o log]. cbn [outages db]. intros -> Hrow Huser Hrun.
  unfold execute_trade in Hrun. rewrite Huser in Hrun.
  destruct (String.eqb (t_action t) "buy") eqn:Hbuy.
  - apply String.eqb_eq in Hbuy. rewrite Hbuy in Hrun.
    apply (buy_executed _ _ _ _ _ _ _ _ _ _ Hrow) in Hrun. destruct Hrun as (_ & _ & ->).
    split; [reflexivity |].
    eexists. split; [apply row_of_after_cash, Hrow | split; [reflexivity |]].
    apply Qabs_Qle_condition.
    unfold cash_less_flow, order_totals, after_buy. cbn [db p_id p_cash tbl_orders].
    set (o := mkOrderRow _ _ _ _ _ _ _ _).
    pose proof (order_totals_snoc (p_id r) (tbl_orders d) o "buy" eq_refl) as Hb.
    pose proof (order_totals_snoc (p_id r) (tbl_orders d) o "sell" eq_refl) as Hs.
    cbn [o o_action o_total] in Hb, Hs.
    change (String.eqb "buy" "buy") with true in Hb.
    change (String.eqb "buy" "sell") with false in Hs. cbv iota in Hb, Hs.
    pose proof (cents_close (p_cash r - inject_Z (t_shares t) * t_price t)) as [H1 H2].
    pose proof (cents_close (inject_Z (t_shares t) * t_price t)) as [H3 H4].
    split; lra.
  - destruct (String.eqb (t_action t) "sell") eqn:Hsell.
    + apply String.eqb_eq in Hsell. rewrite Hsell in Hrun.
      apply (sell_executed _ _ _ _ _ _ _ _ _ _ Hrow) in Hrun.
      destruct Hrun as (holding & _ & _ & _ & ->).
      split; [reflexivity |].
      eexists. split; [apply row_of_after_cash, Hrow | split; [reflexivity |]].
      apply Qabs_Qle_condition.
      unfold cash_less_flow, order_totals, after_sell. cbn [db p_id p_cash tbl_orders].
      set (o := mkOrderRow _ _ _ _ _ _ _ _).
      pose proof (order_totals_snoc (p_id r) (tbl_orders d) o "buy" eq_refl) as Hb.
      pose proof (order_totals_snoc (p_id r) (tbl_orders d) o "sell" eq_refl) as Hs.
      cbn [o o_action o_total] in Hb, Hs.
      change (String.eqb "sell" "buy") with false in Hb.
      change (String.eqb "sell" "sell") with true in Hs. cbv iota in Hb, Hs.
      pose proof (cents_close (p_cash r + inject_Z (t_shares t) * t_price t)) as [H1 H2].
      pose proof (cents_close (inject_Z (t_shares t) * t_price t)) as [H3 H4].
      split; lra.
    + apply String.eqb_neq in Hbuy, Hsell. exfalso.
      destruct (other_action_run user_id (t_symbol t) (t_action t) (t_shares t) (t_price t)
                  (t_company_name t) (mkWorld d [] log) Hbuy Hsell) as [w0 H0].
      * unfold exec. pose proof (load_healthy user_id d log) as Hl. rewrite Hrow in Hl.
        rewrite Hl. reflexivity.
      * rewrite H0 in Hrun. discriminate.
Qed.

Lemma successful_run_keeps_flow (user_id : Z) (ts : list Trade) :
  forall (w w' : World) (r : PortfolioRow),
    outages w = [] ->
    row_of user_id (db w) = Some r ->
    Forall (fun t => t_user_id t = user_id) ts ->
    successful_run ts w = Some w' ->
    exists r', row_of user_id (db w') = Some r' /\ p_id r' = p_id r /\
               Qabs (cash_less_flow r' (db w') - cash_less_flow r (db w))
               <= (1 # 100) * inject_Z (Z.of_nat (List.length ts)).
Proof.
  induction ts as [| t ts IH]; intros w w' r Ho Hrow Hts Hrun; simpl in Hrun.
  - injection Hrun as <-. exists r. split; [exact Hrow | split; [reflexivity |]].
    apply Qabs_Qle_condition. change (inject_Z (Z.of_nat (List.length (@nil Trade)))) with 0.
    split; lra.
  - inversion Hts as [| t0 ts0 Ht Hrest]; subst.
    destruct (execute_trade t w) as [[[[[|] m] |] | e] w1] eqn:Hstep; try discriminate.
    destruct (successful_trade_keeps_flow _ t w w1 r m Ho Hrow eq_refl Hstep)
      as (Ho1 & r1 & Hrow1 & Hid1 & Hflow1).
    destruct (IH w1 w' r1 Ho1 Hrow1 Hrest Hrun) as (r' & Hrow' & Hid' & Hflow').
    exists r'. split; [exact Hrow' | split; [congruence |]].
    change (List.length (t :: ts)) with (S (List.length ts)).
    rewrite Nat2Z.inj_succ. unfold Z.succ. rewrite inject_Z_plus.
    change (inject_Z 1) with 1.
    apply Qabs_Qle_condition in Hflow1, Hflow'. destruct Hflow1 as [A1 A2], Hflow' as [B1 B2].
    apply Qabs_Qle_condition. split; lra.
Qed.

Lemma sum_totals_no_orders (action : string) (portfolio_id : Z) (os : list OrderRow) :
  filter (order_of_portfolio portfolio_id) os = [] ->
  sum_totals action portfolio_id os = 0.
Proof.
  unfold sum_totals. induction os as [| o os IH]; simpl; intros H.
  - reflexivity.
  - unfold counts_as at 1. destruct (order_of_portfolio portfolio_id o); [discriminate |].
    simpl. apply IH, H.
Qed.

(** C4, as the claim states it, fails after a single successful buy of 10
    shares at 100 from the initial cash 100000: cash plus total_invested is
    99000 + 1000 = 100000, while the initial cash less the buy totals plus
    the sell totals is 100000 - 1000 + 0 = 99000; they differ by 1000.  And
    one cent does not bound the rounding of a sequence of trades, even with
    the [total_invested] left out: two buys of one share at 0.125 leave the
    cash 99999.76 and buy totals of 0.26, two cents more than 100000. *)
Lemma conservation_with_invested_fails :
  successful_run [mkTrade 1 "TCS" "buy" 10 100 "Tata"] fresh_world = Some world_after_first_buy /\
  row_of 1 (db fresh_world) = Some (mkPortfolioRow 1 1 100000 100000) /\
  row_of 1 (db world_after_first_buy) = Some (mkPortfolioRow 1 1 99000 100000) /\
  ~ Qabs ((99000 + invested 1 (db world_after_first_buy))
          - (100000 - order_totals "buy" 1 (db world_after_first_buy)
             + order_totals "sell" 1 (db world_after_first_buy))) <= 1 # 100 /\
  successful_run tie_trades fresh_world = Some (run_trades tie_trades fresh_world) /\
  map p_cash (tbl_portfolios (db (run_trades tie_trades fresh_world))) = [2499994 # 25] /\
  order_totals "buy" 1 (db (run_trades tie_trades fresh_world)) == 26 # 100 /\
  ~ Qabs ((2499994 # 25)
          - (100000 - order_totals "buy" 1 (db (run_trades tie_trades fresh_world))
             + order_totals "sell" 1 (db (run_trades tie_trades fresh_world)))) <= 1 # 100.
Proof.
  split; [reflexivity | split; [reflexivity | split; [reflexivity | split]]].
  { intros H. vm_compute in H. apply H. reflexivity. }
  split; [reflexivity | split; [reflexivity | split; [reflexivity |]]].
  intros H. vm_compute in H. apply H. reflexivity.
Qed.

(** C4, amended.  For every sequence of successful buys and sells of a user,
    run on a working store from a portfolio with cash C0 and no orders, the
    final cash is C0 less the totals of the buy orders plus the totals of the
    sell orders, within one cent for each trade of the sequence: the cash and
    the total of the order are each stored rounded to the cent.  The
    [total_invested] of the holdings is not part of the identity. *)
Theorem cash_conservation :
  forall (user_id : Z) (ts : list Trade) (w w' : World) (r : PortfolioRow),
    outages w = [] ->
    row_of user_id (db w) = Some r ->
    filter (order_of_portfolio (p_id r)) (tbl_orders (db w)) = [] ->
    Forall (fun t => t_user_id t = user_id) ts ->
    successful_run ts w = Some w' ->
    exists r',
      row_of user_id (db w') = Some r' /\
      Qabs (p_cash r' - (p_cash r - order_totals "buy" (p_id r') (db w')
                         + order_totals "sell" (p_id r') (db w')))
      <= (1 # 100) * inject_Z (Z.of_nat (List.length ts)).
Proof.
  intros user_id ts w w' r Ho Hrow Hnone Hts Hrun.
  destruct (successful_run_keeps_flow user_id ts w w' r Ho Hrow Hts Hrun)
    as (r' & Hrow' & Hid & Hflow).
  exists r'. split; [exact Hrow' |].
  unfold cash_less_flow in Hflow. rewrite Hid in *.
  unfold order_totals at 3 4 in Hflow.
  rewrite !(sum_totals_no_orders _ _ _ Hnone) in Hflow.
  apply Qabs_Qle_condition in Hflow. destruct Hflow as [H1 H2].
  apply Qabs_Qle_condition. split; lra.
Qed.

Lemma cash_conservation_witness :
  exists r',
    row_of 1 (db (run_trades tie_trades fresh_world)) = Some r' /\
    Qabs (p_cash r'
          - (p_cash (mkPortfolioRow 1 1 100000 100000)
             - order_totals "buy" (p_id r') (db (run_trades tie_trades fresh_world))
             + order_totals "sell" (p_id r') (db (run_trades tie_trades fresh_world))))
    <= (1 # 100) * inject_Z (Z.of_nat (List.length tie_trades)).
Proof.
  apply (cash_conservation 1 tie_trades fresh_world (run_trades tie_trades fresh_world)
           (mkPortfolioRow 1 1 100000 100000)).
  - reflexivity.
  - reflexivity.
  - reflexivity.
  - repeat constructor.
  - reflexivity.
Defined.

(** * Further properties of the ledger *)

Lemma hoare_load_rel (I : Database -> Prop) (V : Portfolio.t -> Database -> Prop)
    (user_id : Z) :
  (forall d, I d -> row_of user_id d = None ->
             I (provision user_id d) /\
             V (Portfolio.mk 100000 [] [] (portfolios_id_seq d)) (provision user_id d)) ->
  (forall d r, I d -> row_of user_id d = Some r -> V (read_portfolio r d) d) ->
  (forall d, I d -> V default_portfolio d) ->
  hoare I (get_user_portfolio user_id)
    (fun pf d => I d /\ exists p, pf = Some p /\ V p d) (fun _ => False).
Proof.
  intros Hprov Hread Hdef. unfold get_user_portfolio.
  eapply hoare_bind; [apply hoare_connect |]. intros [conn |].
  2:{ apply hoare_ret. intros d [Hd _]. eauto. }
  apply hoare_try with (H := I).
  - eapply hoare_bind.
    + apply hoare_execute with
        (Q := fun a d => I d /\ a = match row_of user_id d with
                                    | Some r => Some (p_id r, p_cash r) | None => None end).
      intros d [Hd _]. split; [exact Hd |]. simpl. split; [exact Hd | reflexivity].
    + intros [[pid c] |].
      * eapply hoare_bind.
        { apply hoare_execute with
            (Q := fun a d => I d /\ exists r, row_of user_id d = Some r /\ pid = p_id r
                                              /\ c = p_cash r
                                              /\ a = filter (of_portfolio pid) (tbl_holdings d)).
          intros d [Hd Ha]. split; [exact Hd |]. simpl. split; [exact Hd |].
          destruct (row_of user_id d) as [r |]; [| discriminate].
          injection Ha as Hpid Hc. exists r. auto. }
        intros hs. eapply hoare_bind.
        { apply hoare_execute with
            (Q := fun a d => I d /\ exists r, row_of user_id d = Some r /\
                     Portfolio.mk c (holdings_of_rows hs) (map order_of_row a) pid
                     = read_portfolio r d).
          intros d (Hd & r & Hrow & Hpid & Hc & Hhs). split; [exact Hd |]. simpl.
          split; [exact Hd |]. exists r. split; [exact Hrow |].
          rewrite Hhs, Hpid, Hc. reflexivity. }
        intros os. apply hoare_ret. intros d (Hd & r & Hrow & Heq).
        split; [exact Hd |]. eexists. split; [reflexivity |]. rewrite Heq. eauto.
      * eapply hoare_bind.
        { apply hoare_execute with
            (Q := fun a d => I d /\ a = (portfolios_id_seq d - 1)%Z /\
                             V (Portfolio.mk 100000 [] [] (portfolios_id_seq d - 1)%Z) d).
          intros d [Hd Ha]. split; [exact Hd |]. simpl.
          assert (Hnone : row_of user_id d = None).
          { destruct (row_of user_id d); [discriminate | reflexivity]. }
          destruct (Hprov d Hd Hnone) as [HI HV].
          split; [exact HI | split; [lia |]].
          replace (portfolios_id_seq d + 1 - 1)%Z with (portfolios_id_seq d) by lia.
          exact HV. }
        intros pid. eapply hoare_bind; [apply hoare_commit |]. intros ?.
        apply hoare_ret. intros d (Hd & Hpid & HV). split; [exact Hd |].
        eexists. split; [reflexivity |]. rewrite Hpid. exact HV.
  - intros e. eapply hoare_bind; [apply hoare_st_error |]. intros ?.
    apply hoare_ret. intros d Hd. eauto.
Qed.

Lemma dict_from_rows_read (symbol : string) (r : PortfolioRow) (d : Database) :
  dict_from_rows symbol (read_portfolio r d) (tbl_holdings d).
Proof.
  intros h Hget. rewrite dict_get_read_portfolio in Hget.
  cbn [Portfolio.portfolio_id read_portfolio].
  destruct (held (p_id r) symbol (tbl_holdings d)) as [row |]; [| discriminate].
  injection Hget as <-. exists row. split; reflexivity.
Qed.

Lemma dict_from_rows_empty (symbol : string) (c : Q) (os : list Order.t) (pid : Z)
    (hs : list HoldingRow) :
  dict_from_rows symbol (Portfolio.mk c [] os pid) hs.
Proof. intros h Hget. discriminate. Qed.

Section HoldingsInvariant.
Variable J : list HoldingRow -> Prop.
Variables (user_id : Z) (symbol action : string) (shares : Z) (price : Q)
  (company_name : string).

Hypothesis J_buy : forall hs pid,
  J hs ->
  existsb (holding_matches pid symbol) hs = true ->
  find (buy_fails shares (inject_Z shares * price) pid symbol) hs = None ->
  J (map (fun r => if holding_matches pid symbol r
                   then bought shares (inject_Z shares * price) r else r) hs).

Hypothesis J_insert : forall hs pid,
  J hs ->
  existsb (holding_matches pid symbol) hs = false ->
  J (hs ++ [mkHoldingRow pid symbol company_name shares (cents price)
              (cents (inject_Z shares * price))]).

Hypothesis J_delete : forall hs pid row,
  J hs ->
  held pid symbol hs = Some row ->
  (h_shares row - shares = 0)%Z ->
  J (filter (fun r => negb (holding_matches pid symbol r)) hs).

Hypothesis J_sell : forall hs pid row,
  J hs ->
  held pid symbol hs = Some row ->
  (shares <= h_shares row)%Z ->
  (h_shares row - shares <> 0)%Z ->
  J (map (fun r => if holding_matches pid symbol r
                   then sold (h_shares row - shares)
                          (cents (inject_Z (h_shares row - shares) * h_avg_price row)) r
                   else r) hs).

(** Whatever the outages, [update_portfolio_db] keeps an invariant of the
    holdings table that its four writes to that table keep. *)
Lemma update_portfolio_db_keeps_holdings :
  hoare (fun d => J (tbl_holdings d))
    (update_portfolio_db user_id symbol action shares price company_name)
    (fun _ d => J (tbl_holdings d)) (fun _ => False).
Proof.
  unfold update_portfolio_db.
  eapply hoare_bind.
  { apply (hoare_load_rel (fun d => J (tbl_holdings d))
             (fun p d => dict_from_rows symbol p (tbl_holdings d))).
    - intros d Hd _. split; [exact Hd | apply dict_from_rows_empty].
    - intros d r _ _. apply dict_from_rows_read.
    - intros d _. apply dict_from_rows_empty. }
  intros [pf |]; [| apply hoare_ret; tauto].
  set (A := fun d => J (tbl_holdings d) /\ dict_from_rows symbol pf (tbl_holdings d)).
  set (JJ := fun d => J (tbl_holdings d)).
  apply hoare_weaken with (P := A) (Q := fun _ => JJ) (E := fun _ => False); [| | auto | auto].
  2:{ intros d (Hd & p & Hp & HV). injection Hp as <-. split; assumption. }
  eapply hoare_bind; [apply hoare_connect |].
  intros [conn |]; [| apply hoare_ret; unfold A, JJ; tauto].
  apply hoare_assume with (phi := autocommit conn = true).
  { intros d [_ Hc]. auto. }
  intros Hauto.
  apply hoare_weaken with (P := A) (Q := fun _ => JJ) (E := fun _ => False);
    [| tauto | auto | auto].
  apply hoare_try with (H := JJ).
  - destruct (String.eqb action "buy").
    + destruct (negb (Qle_bool (inject_Z shares * price) (Portfolio.cash pf)));
        [apply hoare_ret; unfold A, JJ; tauto |].
      eapply hoare_bind.
      { apply hoare_execute with (Q := fun _ => JJ).
        intros d [Hd _]. split; [exact Hd |].
        destruct (sql_update_cash _ _ d) as [err | [u d']] eqn:Hs; [exact Logic.I |].
        apply sql_update_cash_inr in Hs. subst d'. exact Hd. }
      intros ?. eapply hoare_bind.
      { apply hoare_execute with
          (Q := fun a d => JJ d /\
                  a = existsb (holding_matches (Portfolio.portfolio_id pf) symbol)
                        (tbl_holdings d)).
        intros d Hd. split; [exact Hd |]. simpl. split; [exact Hd | reflexivity]. }
      intros ex. eapply hoare_bind with (R := fun _ => JJ).
      { destruct ex.
        - apply hoare_execute. intros d [Hd Hex]. split; [exact Hd |].
          destruct (sql_update_holding_buy _ _ _ _ d) as [err | [u d']] eqn:Hs;
            [exact Logic.I |].
          apply sql_update_holding_buy_inr in Hs. destruct Hs as [Hfind ->].
          unfold JJ. cbn [tbl_holdings set_holdings]. apply J_buy; auto.
        - apply hoare_execute. intros d [Hd Hex]. split; [exact Hd |].
          destruct (sql_insert_holding _ _ _ _ _ _ d) as [err | [u d']] eqn:Hs;
            [exact Logic.I |].
          apply sql_insert_holding_inr in Hs. subst d'.
          unfold JJ. cbn [tbl_holdings set_holdings]. apply J_insert; auto. }
      intros ?. eapply hoare_bind with (R := fun _ => JJ).
      { apply hoare_execute. intros d Hd. split; [exact Hd |].
        destruct (sql_insert_order _ _ _ _ _ _ _ _ d) as [err | [u d']] eqn:Hs;
          [exact Logic.I |].
        apply sql_insert_order_inr in Hs. subst d'. exact Hd. }
      intros ?. eapply hoare_bind; [apply hoare_commit |]. intros ?.
      apply hoare_ret. auto.
    + destruct (String.eqb action "sell"); [| apply hoare_ret; unfold A, JJ; tauto].
      destruct (dict_get symbol (Portfolio.holdings pf)) as [holding |] eqn:Hget;
        [| apply hoare_ret; unfold A, JJ; tauto].
      destruct (Holding.shares holding <? shares)%Z eqn:Hlt;
        [apply hoare_ret; unfold A, JJ; tauto |].
      apply Z.ltb_ge in Hlt.
      eapply hoare_bind with (R := fun _ => A).
      { apply hoare_execute. intros d [Hd HV]. split; [exact Hd |].
        destruct (sql_update_cash _ _ d) as [err | [u d']] eqn:Hs; [exact Logic.I |].
        apply sql_update_cash_inr in Hs. subst d'. split; assumption. }
      intros ?. eapply hoare_bind with (R := fun _ => JJ).
      { destruct (Holding.shares holding - shares =? 0)%Z eqn:Hrem.
        - apply hoare_execute. intros d [Hd HV]. split; [exact Hd |].
          destruct (HV holding Hget) as (row & Hheld & ->).
          unfold JJ. cbn [sql_delete_holding tbl_holdings set_holdings].
          apply Z.eqb_eq in Hrem. eapply J_delete; eauto.
        - apply hoare_execute. intros d [Hd HV]. split; [exact Hd |].
          destruct (HV holding Hget) as (row & Hheld & ->).
          destruct (sql_update_holding_sell _ _ _ _ d) as [err | [u d']] eqn:Hs;
            [exact Logic.I |].
          apply sql_update_holding_sell_inr in Hs. subst d'.
          unfold JJ. cbn [tbl_holdings set_holdings].
          apply Z.eqb_neq in Hrem. cbn [holding_of_row Holding.shares Holding.avg_price] in *.
          apply J_sell; auto. }
      intros ?. eapply hoare_bind with (R := fun _ => JJ).
      { apply hoare_execute. intros d Hd. split; [exact Hd |].
        destruct (sql_insert_order _ _ _ _ _ _ _ _ d) as [err | [u d']] eqn:Hs;
          [exact Logic.I |].
        apply sql_insert_order_inr in Hs. subst d'. exact Hd. }
      intros ?. eapply hoare_bind; [apply hoare_commit |]. intros ?.
      apply hoare_ret. auto.
  - intros e. eapply hoare_bind; [apply hoare_rollback, Hauto |].
    intros ?. apply hoare_ret. auto.
Qed.
End HoldingsInvariant.

Lemma hoare_exec {A : Type} (I : Database -> Prop) (m : Eff A) (w : World) :
  hoare I m (fun _ => I) (fun _ => False) -> I (db w) -> I (db (exec m w)).
Proof.
  intros H Hw. specialize (H w Hw). unfold exec.
  destruct (m w) as [[a | e] w1]; [exact H | contradiction].
Qed.

Lemma run_trades_keeps (I : Database -> Prop) (ts : list Trade) :
  (forall t, In t ts -> hoare I (execute_trade t) (fun _ => I) (fun _ => False)) ->
  forall w, I (db w) -> I (db (run_trades ts w)).
Proof.
  induction ts as [| t ts IH]; intros Hts w Hw; simpl.
  - exact Hw.
  - apply IH.
    + intros t' Ht'. apply Hts. right. exact Ht'.
    + apply hoare_exec; [apply Hts; left; reflexivity | exact Hw].
Qed.

(** *** Keys of holdings *)

Lemma map_key_update (pid : Z) (symbol : string) (f : HoldingRow -> HoldingRow)
    (hs : list HoldingRow) :
  (forall r, holding_key (f r) = holding_key r) ->
  map holding_key (map (fun r => if holding_matches pid symbol r then f r else r) hs)
  = map holding_key hs.
Proof.
  intros Hf. rewrite map_map. apply map_ext. intros r.
  destruct (holding_matches pid symbol r); [apply Hf | reflexivity].
Qed.

Lemma matches_key (pid : Z) (symbol : string) (r : HoldingRow) :
  holding_matches pid symbol r = true <-> holding_key r = (pid, symbol).
Proof.
  unfold holding_matches, holding_key. rewrite andb_true_iff, Z.eqb_eq, String.eqb_eq.
  split; [intros [-> ->]; reflexivity | intros H; injection H; auto].
Qed.

Lemma no_match_no_key (pid : Z) (symbol : string) (hs : list HoldingRow) :
  existsb (holding_matches pid symbol) hs = false ->
  ~ In (pid, symbol) (map holding_key hs).
Proof.
  intros Hex Hin. apply in_map_iff in Hin. destruct Hin as (r & Hkey & Hr).
  assert (H : existsb (holding_matches pid symbol) hs = true).
  { apply existsb_exists. exists r. split; [exact Hr | apply matches_key, Hkey]. }
  congruence.
Qed.

Lemma NoDup_map_filter {A B : Type} (k : A -> B) (f : A -> bool) (l : list A) :
  NoDup (map k l) -> NoDup (map k (filter f l)).
Proof.
  induction l as [| x l IH]; simpl; intros H.
  - constructor.
  - inversion H as [| y ys Hnotin Hnd]; subst.
    destruct (f x); simpl; [| apply IH, Hnd].
    constructor; [| apply IH, Hnd].
    intros Hin. apply Hnotin. apply in_map_iff in Hin. destruct Hin as (z & Hz & Hzin).
    apply filter_In in Hzin. apply in_map_iff. exists z. tauto.
Qed.

Lemma NoDup_snoc {A : Type} (l : list A) (x : A) :
  NoDup l -> ~ In x l -> NoDup (l ++ [x]).
Proof.
  intros Hnd Hx. rewrite <- (rev_involutive (l ++ [x])).
  apply NoDup_rev. rewrite rev_app_distr. simpl. constructor.
  - rewrite <- in_rev. exact Hx.
  - apply NoDup_rev, Hnd.
Qed.

Lemma update_portfolio_db_keeps_unique (user_id : Z) (symbol action : string) (shares : Z)
    (price : Q) (company_name : string) :
  hoare unique_holdings
    (update_portfolio_db user_id symbol action shares price company_name)
    (fun _ => unique_holdings) (fun _ => False).
Proof.
  apply (update_portfolio_db_keeps_holdings (fun hs => NoDup (map holding_key hs))).
  - intros hs pid H _ _. rewrite map_key_update; [exact H | reflexivity].
  - intros hs pid H Hex. rewrite map_app. apply NoDup_snoc; [exact H |].
    apply no_match_no_key, Hex.
  - intros hs pid row H _ _. apply NoDup_map_filter, H.
  - intros hs pid row H _ _ _. rewrite map_key_update; [exact H | reflexivity].
Qed.

Lemma update_portfolio_db_keeps_positive (user_id : Z) (symbol action : string) (shares : Z)
    (price : Q) (company_name : string) :
  (0 < shares)%Z ->
  hoare positive_holdings
    (update_portfolio_db user_id symbol action shares price company_name)
    (fun _ => positive_holdings) (fun _ => False).
Proof.
  intros Hpos.
  apply (update_portfolio_db_keeps_holdings (fun hs => Forall (fun h => (0 < h_shares h)%Z) hs)).
  - intros hs pid H _ _. apply Forall_map. eapply Forall_impl; [| exact H].
    intros r Hr. cbv beta in Hr. destruct (holding_matches pid symbol r);
      [unfold bought; simpl; lia | exact Hr].
  - intros hs pid H _. apply Forall_app. split; [exact H |].
    constructor; [exact Hpos | constructor].
  - intros hs pid row H _ _. apply Forall_forall. intros r Hr.
    apply filter_In in Hr. rewrite Forall_forall in H. apply H, Hr.
  - intros hs pid row H _ Hle Hne. apply Forall_map. eapply Forall_impl; [| exact H].
    intros r Hr. cbv beta in Hr. destruct (holding_matches pid symbol r);
      [unfold sold; simpl; lia | exact Hr].
Qed.

(** *** The order log *)

Lemma insert_order_records (os0 : list OrderRow) (portfolio_id : Z)
    (symbol company_name action : string) (shares : Z) (price : Q) (profit_loss : option Q)
    (d : Database) :
  tbl_orders d = os0 ->
  match sql_insert_order portfolio_id symbol company_name action shares price
          (inject_Z shares * price) profit_loss d with
  | inr (_, d') =>
      exists row, tbl_orders d' = os0 ++ [row] /\
                  records_trade symbol action company_name shares price row
  | inl _ => True
  end.
Proof.
  intros Hd.
  destruct (sql_insert_order _ _ _ _ _ _ _ _ d) as [err | [u d']] eqn:Hs; [exact I |].
  apply sql_insert_order_inr in Hs. subst d'. cbn [tbl_orders set_orders]. rewrite Hd.
  eexists. split; [reflexivity |].
  unfold records_trade. cbn [o_symbol o_company_name o_action o_shares o_price o_total].
  repeat split; apply within_a_cent_cents.
Qed.

Lemma update_portfolio_db_order (os0 : list OrderRow) (user_id : Z) (symbol action : string)
    (shares : Z) (price : Q) (company_name : string) :
  hoare (fun d => tbl_orders d = os0)
    (update_portfolio_db user_id symbol action shares price company_name)
    (fun a d =>
       match a with
       | Some (true, _) =>
           exists row, tbl_orders d = os0 ++ [row] /\
                       records_trade symbol action company_name shares price row
       | _ => tbl_orders d = os0
       end)
    (fun _ => False).
Proof.
  set (P := fun d => tbl_orders d = os0).
  match goal with |- hoare _ _ ?Q0 _ => set (Qr := Q0) end.
  assert (Hkeep : forall (A : Type) (conn : Connection) (stmt : Stmt A),
             (forall d u d', stmt d = inr (u, d') -> tbl_orders d' = tbl_orders d) ->
             hoare P (execute conn stmt) (fun _ => P) P).
  { intros A conn stmt Hstmt. apply hoare_execute. intros d Hd. split; [exact Hd |].
    destruct (stmt d) as [err | [u d']] eqn:Hs; [exact I |].
    unfold P. rewrite (Hstmt d u d' Hs). exact Hd. }
  unfold update_portfolio_db.
  eapply hoare_bind.
  { apply (hoare_load P (fun _ => True)); auto. }
  intros [pf |]; [| apply hoare_ret; intros d [Hd _]; exact Hd].
  apply hoare_weaken with (P := P) (Q := Qr) (E := fun _ => False);
    [| intros d [Hd _]; exact Hd | auto | auto].
  eapply hoare_bind; [apply hoare_connect |].
  intros [conn |]; [| apply hoare_ret; intros d [Hd _]; exact Hd].
  apply hoare_assume with (phi := autocommit conn = true).
  { intros d [_ Hc]. auto. }
  intros Hauto.
  apply hoare_weaken with (P := P) (Q := Qr) (E := fun _ => False);
    [| intros d [Hd _]; exact Hd | auto | auto].
  apply hoare_try with (H := P).
  - destruct (String.eqb action "buy") eqn:Hbuy.
    + apply String.eqb_eq in Hbuy. subst action.
      destruct (negb (Qle_bool (inject_Z shares * price) (Portfolio.cash pf)));
        [apply hoare_ret; auto |].
      eapply hoare_bind with (R := fun _ => P).
      { apply Hkeep. intros d u d' Hs. apply sql_update_cash_inr in Hs. subst d'. reflexivity. }
      intros ?. eapply hoare_bind with (R := fun _ => P).
      { apply Hkeep. intros d u d' Hs. injection Hs as _ <-. reflexivity. }
      intros ex. eapply hoare_bind with (R := fun _ => P).
      { destruct ex; apply Hkeep; intros d u d' Hs.
        - apply sql_update_holding_buy_inr in Hs. destruct Hs as [_ ->]. reflexivity.
        - apply sql_insert_holding_inr in Hs. subst d'. reflexivity. }
      intros ?. eapply hoare_bind.
      { apply hoare_execute with
          (Q := fun _ d => exists row, tbl_orders d = os0 ++ [row] /\
                                       records_trade symbol "buy" company_name shares price row).
        intros d Hd. split; [exact Hd |]. apply insert_order_records, Hd. }
      intros ?. eapply hoare_bind; [apply hoare_commit |]. intros ?.
      apply hoare_ret. auto.
    + destruct (String.eqb action "sell") eqn:Hsell; [| apply hoare_ret; auto].
      apply String.eqb_eq in Hsell. subst action.
      destruct (dict_get symbol (Portfolio.holdings pf)) as [holding |];
        [| apply hoare_ret; auto].
      destruct (Holding.shares holding <? shares)%Z; [apply hoare_ret; auto |].
      eapply hoare_bind with (R := fun _ => P).
      { apply Hkeep. intros d u d' Hs. apply sql_update_cash_inr in Hs. subst d'. reflexivity. }
      intros ?. eapply hoare_bind with (R := fun _ => P).
      { destruct (Holding.shares holding - shares =? 0)%Z; apply Hkeep; intros d u d' Hs.
        - injection Hs as _ <-. reflexivity.
        - apply sql_update_holding_sell_inr in Hs. subst d'. reflexivity. }
      intros ?. eapply hoare_bind.
      { apply hoare_execute with
          (Q := fun _ d => exists row, tbl_orders d = os0 ++ [row] /\
                                       records_trade symbol "sell" company_name shares price row).
        intros d Hd. split; [exact Hd |]. apply insert_order_records, Hd. }
      intros ?. eapply hoare_bind; [apply hoare_commit |]. intros ?.
      apply hoare_ret. auto.
  - intros e. eapply hoare_bind; [apply hoare_rollback, Hauto |].
    intros ?. apply hoare_ret. auto.
Qed.

(** X1. An order is recorded exactly when the call reports success: whatever
    outages occur, [update_portfolio_db] appends one order row describing the
    trade (its symbol, company name, action and shares, and its price and
    total as the store rounds them) when it returns [(True, _)], and
    otherwise leaves the orders table as it was; it never changes or removes
    an order. *)
Theorem order_recorded_iff_success :
  forall (w : World) (user_id : Z) (symbol action company_name : string) (shares : Z)
         (price : Q),
    match update_portfolio_db user_id symbol action shares price company_name w with
    | (Return (Some (true, _)), w') =>
        exists row,
          tbl_orders (db w') = tbl_orders (db w) ++ [row] /\
          o_symbol row = symbol /\ o_company_name row = company_name /\
          o_action row = action /\ o_shares row = shares /\
          within_a_cent (o_price row) price /\
          within_a_cent (o_total row) (inject_Z shares * price)
    | (_, w') => tbl_orders (db w') = tbl_orders (db w)
    end.
Proof.
  intros w user_id symbol action company_name shares price.
  pose proof (update_portfolio_db_order (tbl_orders (db w)) user_id symbol action shares price
                company_name w eq_refl) as H.
  destruct (update_portfolio_db user_id symbol action shares price company_name w)
    as [[[[[|] m] |] | e] w']; try exact H. contradiction.
Qed.

(** On a working store with referential integrity, a second load returns
    what the first one returned. *)
Lemma load_twice (w w1 : World) (user_id : Z) (pf : Portfolio.t) :
  outages w = [] ->
  referential_integrity (db w) ->
  get_user_portfolio user_id w = (Return (Some pf), w1) ->
  get_user_portfolio user_id w1 = (Return (Some pf), w1).
Proof.
  destruct w as [d o log]. intros Ho Hint Hload. simpl in Ho, Hint. subst o.
  pose proof (load_healthy user_id d log) as H.
  destruct (row_of user_id d) as [r |] eqn:Hrow; rewrite H in Hload;
    injection Hload as <- <-.
  - exact H.
  - apply load_after_provision; assumption.
Qed.

(** X7. Loading is idempotent: for a user with an account, on a working
    store with referential integrity, a second [get_user_portfolio] returns
    the portfolio the first one returned (read or freshly provisioned) and
    leaves the site as the first one left it. *)
Theorem load_is_idempotent :
  forall (s s1 : Site) (user_id : Z) (pf : Portfolio.t),
    working s ->
    user_exists user_id s = true ->
    referential_integrity (db (world s)) ->
    lift (get_user_portfolio user_id) s = (Returns (Some pf), s1) ->
    lift (get_user_portfolio user_id) s1 = (Returns (Some pf), s1).
Proof.
  intros s s1 user_id pf Hw _ Hint Hload. unfold lift in *.
  destruct (get_user_portfolio user_id (world s)) as [[a | e] w1] eqn:Hfirst;
    [| discriminate].
  injection Hload as -> <-. cbn [world set_world].
  rewrite (load_twice (world s) w1 user_id pf Hw Hint Hfirst).
  destruct s; reflexivity.
Qed.

Lemma load_is_idempotent_witness :
  lift (get_user_portfolio 1)
    (mkSite fresh_world [mkUserRow 1 "asha" "asha@example.com" "5e88" false] 2 [] [] [] None)
  = (Returns (Some (Portfolio.mk 100000 [] [] 1)),
     mkSite fresh_world [mkUserRow 1 "asha" "asha@example.com" "5e88" false] 2 [] [] [] None).
Proof.
  apply (load_is_idempotent account_without_portfolio
           (mkSite fresh_world [mkUserRow 1 "asha" "asha@example.com" "5e88" false] 2
              [] [] [] None)
           1 (Portfolio.mk 100000 [] [] 1)).
  - reflexivity.
  - reflexivity.
  - split; intros x Hx; destruct Hx.
  - reflexivity.
Defined.

Lemma NoDup_snoc_inv {A : Type} (l : list A) (x : A) :
  NoDup (l ++ [x]) -> NoDup l /\ ~ In x l.
Proof.
  intros H. apply NoDup_remove in H. rewrite app_nil_r in H. exact H.
Qed.

(** X3. No duplicate holdings: whatever trades are requested and whatever
    outages occur, a store in which no portfolio has two holdings rows for one
    symbol stays so (the schema has no such constraint; the lookup before the
    insert keeps it). *)
Theorem holdings_stay_unique :
  forall (ts : list Trade) (w : World),
    unique_holdings (db w) -> unique_holdings (db (run_trades ts w)).
Proof.
  intros ts. apply run_trades_keeps. intros t _. apply update_portfolio_db_keeps_unique.
Qed.

Lemma holdings_stay_unique_witness :
  unique_holdings
    (db (run_trades scenario_trades
           (mkWorld (provision 1 empty_database)
              [false; false; false; false; false; false; false; true] []))).
Proof. apply holdings_stay_unique. constructor. Defined.

(** X4. Positive positions: whatever outages occur, trades that ask for a
    positive number of shares keep every holdings row at [shares > 0]; a sell
    of the whole position deletes the row instead of leaving it at zero. *)
Theorem holdings_stay_positive :
  forall (ts : list Trade) (w : World),
    Forall (fun t => (0 < t_shares t)%Z) ts ->
    positive_holdings (db w) -> positive_holdings (db (run_trades ts w)).
Proof.
  intros ts w Hts. apply run_trades_keeps. intros t Ht.
  apply update_portfolio_db_keeps_positive.
  rewrite Forall_forall in Hts. apply Hts, Ht.
Qed.

Lemma holdings_stay_positive_witness :
  positive_holdings (db (run_trades scenario_trades fresh_world)).
Proof.
  apply holdings_stay_positive.
  - repeat constructor.
  - constructor.
Defined.

(** *** Other portfolios *)

Section DbInvariant.
Variable I : Database -> Prop.
Variable Vp : Z -> Prop.
Variables (user_id : Z) (symbol action : string) (shares : Z) (price : Q)
  (company_name : string).

Hypothesis I_provision : forall d,
  I d -> row_of user_id d = None -> I (provision user_id d) /\ Vp (portfolios_id_seq d).
Hypothesis I_read : forall d r, I d -> row_of user_id d = Some r -> Vp (p_id r).
Hypothesis Vp_default : Vp 0%Z.
Hypothesis I_cash : forall d c pid,
  I d -> Vp pid -> I (set_portfolios (map (with_cash c pid) (tbl_portfolios d)) d).
Hypothesis I_holdings_update : forall d pid f,
  I d -> Vp pid -> (forall r, h_portfolio_id (f r) = h_portfolio_id r) ->
  I (set_holdings (map (fun r => if holding_matches pid symbol r then f r else r)
                     (tbl_holdings d)) d).
Hypothesis I_holdings_insert : forall d pid row,
  I d -> Vp pid -> h_portfolio_id row = pid -> I (set_holdings (tbl_holdings d ++ [row]) d).
Hypothesis I_holdings_delete : forall d pid,
  I d -> Vp pid ->
  I (set_holdings (filter (fun r => negb (holding_matches pid symbol r)) (tbl_holdings d)) d).
Hypothesis I_orders_insert : forall d pid o,
  I d -> Vp pid -> o_portfolio_id o = pid -> I (set_orders (tbl_orders d ++ [o]) d).

(** Whatever the outages, [update_portfolio_db] keeps an invariant of the
    store that each of its writes keeps. *)
Lemma update_portfolio_db_keeps :
  hoare I (update_portfolio_db user_id symbol action shares price company_name)
    (fun _ => I) (fun _ => False).
Proof.
  unfold update_portfolio_db.
  eapply hoare_bind.
  { apply (hoare_load_rel I (fun p _ => Vp (Portfolio.portfolio_id p))).
    - intros d Hd Hnone. destruct (I_provision d Hd Hnone). split; assumption.
    - intros d r Hd Hrow. apply (I_read d r Hd Hrow).
    - intros d _. exact Vp_default. }
  intros [pf |]; [| apply hoare_ret; tauto].
  apply hoare_assume with (phi := Vp (Portfolio.portfolio_id pf)).
  { intros d (_ & p & Hp & HV). injection Hp as <-. exact HV. }
  intros Hpid.
  apply hoare_weaken with (P := I) (Q := fun _ => I) (E := fun _ => False);
    [| tauto | auto | auto].
  eapply hoare_bind; [apply hoare_connect |].
  intros [conn |]; [| apply hoare_ret; tauto].
  apply hoare_assume with (phi := autocommit conn = true).
  { intros d [_ Hc]. auto. }
  intros Hauto.
  apply hoare_weaken with (P := I) (Q := fun _ => I) (E := fun _ => False);
    [| tauto | auto | auto].
  assert (Horder : forall act pl,
             hoare I (execute conn (sql_insert_order (Portfolio.portfolio_id pf) symbol
                                      company_name act shares price
                                      (inject_Z shares * price) pl))
               (fun _ => I) I).
  { intros act pl. apply hoare_execute. intros d Hd. split; [exact Hd |].
    destruct (sql_insert_order _ _ _ _ _ _ _ _ d) as [err | [u d']] eqn:Hs; [exact Logic.I |].
    apply sql_insert_order_inr in Hs. subst d'.
    apply I_orders_insert with (pid := Portfolio.portfolio_id pf); auto. }
  apply hoare_try with (H := I).
  - destruct (String.eqb action "buy").
    + destruct (negb (Qle_bool (inject_Z shares * price) (Portfolio.cash pf)));
        [apply hoare_ret; auto |].
      eapply hoare_bind with (R := fun _ => I).
      { apply hoare_execute. intros d Hd. split; [exact Hd |].
        destruct (sql_update_cash _ _ d) as [err | [u d']] eqn:Hs; [exact Logic.I |].
        apply sql_update_cash_inr in Hs. subst d'. apply I_cash; auto. }
      intros ?. eapply hoare_bind with (R := fun _ => I).
      { apply hoare_execute. intros d Hd. split; exact Hd. }
      intros ex. eapply hoare_bind with (R := fun _ => I).
      { destruct ex; apply hoare_execute; intros d Hd; (split; [exact Hd |]).
        - destruct (sql_update_holding_buy _ _ _ _ d) as [err | [u d']] eqn:Hs;
            [exact Logic.I |].
          apply sql_update_holding_buy_inr in Hs. destruct Hs as [_ ->].
          apply I_holdings_update; auto.
        - destruct (sql_insert_holding _ _ _ _ _ _ d) as [err | [u d']] eqn:Hs;
            [exact Logic.I |].
          apply sql_insert_holding_inr in Hs. subst d'.
          apply I_holdings_insert with (pid := Portfolio.portfolio_id pf); auto. }
      intros ?. eapply hoare_bind; [apply Horder |].
      intros ?. eapply hoare_bind; [apply hoare_commit |]. intros ?.
      apply hoare_ret. auto.
    + destruct (String.eqb action "sell"); [| apply hoare_ret; auto].
      destruct (dict_get symbol (Portfolio.holdings pf)) as [holding |];
        [| apply hoare_ret; auto].
      destruct (Holding.shares holding <? shares)%Z; [apply hoare_ret; auto |].
      eapply hoare_bind with (R := fun _ => I).
      { apply hoare_execute. intros d Hd. split; [exact Hd |].
        destruct (sql_update_cash _ _ d) as [err | [u d']] eqn:Hs; [exact Logic.I |].
        apply sql_update_cash_inr in Hs. subst d'. apply I_cash; auto. }
      intros ?. eapply hoare_bind with (R := fun _ => I).
      { destruct (Holding.shares holding - shares =? 0)%Z;
          apply hoare_execute; intros d Hd; (split; [exact Hd |]).
        - apply I_holdings_delete; auto.
        - destruct (sql_update_holding_sell _ _ _ _ d) as [err | [u d']] eqn:Hs;
            [exact Logic.I |].
          apply sql_update_holding_sell_inr in Hs. subst d'.
          apply I_holdings_update; auto. }
      intros ?. eapply hoare_bind; [apply Horder |].
      intros ?. eapply hoare_bind; [apply hoare_commit |]. intros ?.
      apply hoare_ret. auto.
  - intros e. eapply hoare_bind; [apply hoare_rollback, Hauto |].
    intros ?. apply hoare_ret. auto.
Qed.
End DbInvariant.

Lemma filter_id_with_cash (q pid : Z) (c : Q) (rows : list PortfolioRow) :
  q <> pid ->
  filter (fun r => (p_id r =? q)%Z) (map (with_cash c pid) rows)
  = filter (fun r => (p_id r =? q)%Z) rows.
Proof.
  intros Hq. induction rows as [| x rows IH]; simpl; [reflexivity |].
  rewrite with_cash_id, IH. destruct (p_id x =? q)%Z eqn:Hx; [| reflexivity].
  apply Z.eqb_eq in Hx. unfold with_cash.
  destruct (p_id x =? pid)%Z eqn:Hp; [| reflexivity].
  apply Z.eqb_eq in Hp. congruence.
Qed.

Lemma own_portfolio_id_with_cash (user_id pid : Z) (c : Q) (d : Database) :
  own_portfolio_id user_id (set_portfolios (map (with_cash c pid) (tbl_portfolios d)) d)
  = own_portfolio_id user_id d.
Proof.
  unfold own_portfolio_id, row_of. cbn [tbl_portfolios set_portfolios portfolios_id_seq].
  rewrite find_map_same by (intros x; rewrite with_cash_user; reflexivity).
  destruct (find _ (tbl_portfolios d)); simpl; [apply with_cash_id | reflexivity].
Qed.

Lemma filter_other_update (q pid : Z) (symbol : string) (f : HoldingRow -> HoldingRow)
    (hs : list HoldingRow) :
  q <> pid ->
  (forall r, h_portfolio_id (f r) = h_portfolio_id r) ->
  filter (of_portfolio q) (map (fun r => if holding_matches pid symbol r then f r else r) hs)
  = filter (of_portfolio q) hs.
Proof.
  intros Hq Hf. induction hs as [| x hs IH]; simpl; [reflexivity |].
  rewrite IH. destruct (holding_matches pid symbol x) eqn:Hm; [| reflexivity].
  unfold of_portfolio. rewrite Hf.
  unfold holding_matches in Hm. apply andb_true_iff in Hm. destruct Hm as [Hp _].
  apply Z.eqb_eq in Hp. rewrite Hp.
  destruct (pid =? q)%Z eqn:Hpq; [apply Z.eqb_eq in Hpq; congruence | reflexivity].
Qed.

Lemma filter_other_delete (q pid : Z) (symbol : string) (hs : list HoldingRow) :
  q <> pid ->
  filter (of_portfolio q) (filter (fun r => negb (holding_matches pid symbol r)) hs)
  = filter (of_portfolio q) hs.
Proof.
  intros Hq. induction hs as [| x hs IH]; simpl; [reflexivity |].
  destruct (holding_matches pid symbol x) eqn:Hm; simpl; rewrite IH; [| reflexivity].
  unfold holding_matches in Hm. apply andb_true_iff in Hm. destruct Hm as [Hp _].
  apply Z.eqb_eq in Hp. unfold of_portfolio. rewrite Hp.
  destruct (pid =? q)%Z eqn:Hpq; [apply Z.eqb_eq in Hpq; congruence | reflexivity].
Qed.

Lemma update_portfolio_db_keeps_slice (q own : Z)
    (ps : list PortfolioRow) (hs : list HoldingRow) (os : list OrderRow)
    (user_id : Z) (symbol action : string) (shares : Z) (price : Q) (company_name : string) :
  q <> 0%Z -> q <> own ->
  hoare (fun d => slice q d = (ps, hs, os) /\ own_portfolio_id user_id d = own)
    (update_portfolio_db user_id symbol action shares price company_name)
    (fun _ d => slice q d = (ps, hs, os) /\ own_portfolio_id user_id d = own)
    (fun _ => False).
Proof.
  intros Hq0 Hqown.
  assert (Hne : forall pid, pid = 0%Z \/ pid = own -> q <> pid).
  { intros pid [-> | ->]; assumption. }
  apply (update_portfolio_db_keeps
           (fun d => slice q d = (ps, hs, os) /\ own_portfolio_id user_id d = own)
           (fun pid => pid = 0%Z \/ pid = own)).
  - intros d [Hs Hown] Hnone.
    assert (Hseq : portfolios_id_seq d = own).
    { unfold own_portfolio_id in Hown. rewrite Hnone in Hown. exact Hown. }
    split; [split | right; exact Hseq].
    + rewrite <- Hs. unfold slice, provision. cbn [tbl_portfolios tbl_holdings tbl_orders].
      rewrite filter_app. simpl. rewrite Hseq.
      destruct (own =? q)%Z eqn:E; [apply Z.eqb_eq in E; congruence |].
      rewrite app_nil_r. reflexivity.
    + unfold own_portfolio_id, row_of, provision. cbn [tbl_portfolios].
      unfold row_of in Hnone. rewrite (find_snoc_none _ _ _ Hnone).
      cbn [p_user_id]. rewrite Z.eqb_refl. exact Hseq.
  - intros d r [_ Hown] Hrow. right. unfold own_portfolio_id in Hown.
    rewrite Hrow in Hown. exact Hown.
  - left. reflexivity.
  - intros d c pid [Hs Hown] Hpid. split.
    + rewrite <- Hs. unfold slice. cbn [tbl_portfolios tbl_holdings tbl_orders set_portfolios].
      rewrite (filter_id_with_cash q pid c _ (Hne pid Hpid)). reflexivity.
    + rewrite own_portfolio_id_with_cash. exact Hown.
  - intros d pid f [Hs Hown] Hpid Hf. split; [| exact Hown].
    rewrite <- Hs. unfold slice. cbn [tbl_portfolios tbl_holdings tbl_orders set_holdings].
    rewrite (filter_other_update q pid symbol f _ (Hne pid Hpid) Hf). reflexivity.
  - intros d pid row [Hs Hown] Hpid Hrow. split; [| exact Hown].
    rewrite <- Hs. unfold slice. cbn [tbl_portfolios tbl_holdings tbl_orders set_holdings].
    rewrite filter_app. simpl. unfold of_portfolio at 2. rewrite Hrow.
    destruct (pid =? q)%Z eqn:E; [apply Z.eqb_eq in E; specialize (Hne pid Hpid); congruence |].
    rewrite app_nil_r. reflexivity.
  - intros d pid [Hs Hown] Hpid. split; [| exact Hown].
    rewrite <- Hs. unfold slice. cbn [tbl_portfolios tbl_holdings tbl_orders set_holdings].
    rewrite (filter_other_delete q pid symbol _ (Hne pid Hpid)). reflexivity.
  - intros d pid o [Hs Hown] Hpid Ho. split; [| exact Hown].
    rewrite <- Hs. unfold slice. cbn [tbl_portfolios tbl_holdings tbl_orders set_orders].
    rewrite filter_app. simpl. unfold order_of_portfolio at 2. rewrite Ho.
    destruct (pid =? q)%Z eqn:E; [apply Z.eqb_eq in E; specialize (Hne pid Hpid); congruence |].
    rewrite app_nil_r. reflexivity.
Qed.

(** X2. A trade touches its own portfolio only: whatever outages occur, a
    call of [update_portfolio_db] for a user leaves the portfolio row, the
    holdings and the orders of every other portfolio [q] as they were ([q] other
    than the user's portfolio id, and other than 0, the id the default portfolio
    carries when the load failed). *)
Theorem trade_leaves_other_portfolios :
  forall (w : World) (user_id : Z) (symbol action company_name : string) (shares : Z)
         (price : Q) (q : Z),
    q <> 0%Z ->
    q <> own_portfolio_id user_id (db w) ->
    slice q (db (exec (update_portfolio_db user_id symbol action shares price company_name) w))
    = slice q (db w).
Proof.
  intros w user_id symbol action company_name shares price q Hq0 Hqown.
  destruct (slice q (db w)) as [[ps hs] os] eqn:Hs.
  pose proof (update_portfolio_db_keeps_slice q (own_portfolio_id user_id (db w)) ps hs os
                user_id symbol action shares price company_name Hq0 Hqown w
                (conj Hs eq_refl)) as H.
  unfold exec.
  destruct (update_portfolio_db user_id symbol action shares price company_name w)
    as [[a | e] w']; [apply H | contradiction].
Qed.

(** *** Valuation *)

Lemma calculate_portfolio_value_run (feed : string -> Quote) (user_id : Z) (d : Database)
    (log : list Toast) (r : PortfolioRow) :
  row_of user_id d = Some r ->
  calculate_portfolio_value feed user_id (mkWorld d [] log)
  = (Return (fold_left (holding_value feed) (Portfolio.holdings (read_portfolio r d)) (p_cash r)),
     mkWorld
       (match sql_update_total_value
                (fold_left (holding_value feed) (Portfolio.holdings (read_portfolio r d))
                   (p_cash r)) user_id d with
        | inr (_, d') => d'
        | inl _ => d
        end) [] log).
Proof.
  intros Hrow. unfold calculate_portfolio_value, bind.
  rewrite (get_user_portfolio_existing _ _ _ _ Hrow), get_db_connection_healthy.
  unfold try_except. rewrite execute_healthy.
  cbn [Portfolio.cash Portfolio.holdings read_portfolio].
  destruct (sql_update_total_value _ user_id d) as [err | [u d']]; reflexivity.
Qed.

(** X9. The valuation stores what it returns: on a working store, for a user
    with a portfolio, [calculate_portfolio_value] returns a total and, when
    the total fits the column, leaves it, rounded to the cent, in the
    [total_value] of the user's row, whose cash it does not change. *)
Theorem valuation_stores_its_result :
  forall (w : World) (feed : string -> Quote) (user_id : Z) (pf : Portfolio.t),
    outages w = [] ->
    get_user_portfolio user_id w = (Return (Some pf), w) ->
    exists (total : Q) (w' : World),
      calculate_portfolio_value feed user_id w = (Return total, w') /\
      (fits total ->
       exists r' : PortfolioRow,
         row_of user_id (db w') = Some r' /\
         within_a_cent (p_total_value r') total /\
         p_cash r' = Portfolio.cash pf).
Proof.
  intros [d o log] feed user_id pf Ho Hload. simpl in Ho. subst o.
  apply load_is_read in Hload. destruct Hload as (r & Hrow & ->).
  rewrite (calculate_portfolio_value_run feed user_id d log r Hrow).
  eexists. eexists. split; [reflexivity |]. intros Hfits.
  unfold sql_update_total_value. rewrite (numeric_15_2_fits _ Hfits). cbn [and_then db].
  unfold row_of. cbn [tbl_portfolios set_portfolios].
  rewrite find_map_same.
  - unfold row_of in Hrow. rewrite Hrow. cbn [option_map]. unfold with_total_value.
    assert (Hu : (p_user_id r =? user_id)%Z = true).
    { apply find_some in Hrow. apply Hrow. }
    rewrite Hu. eexists. split; [reflexivity |]. cbn [p_total_value p_cash].
    split; [apply within_a_cent_cents | reflexivity].
  - intros x. unfold with_total_value. destruct (p_user_id x =? user_id)%Z eqn:E; [| exact E].
    exact E.
Qed.

Lemma valuation_stores_its_result_witness :
  exists (total : Q) (w' : World),
    calculate_portfolio_value (fun _ => LastPrice (1200049 # 10000)) 1 world_after_first_buy
    = (Return total, w') /\
    (fits total ->
     exists r' : PortfolioRow,
       row_of 1 (db w') = Some r' /\
       within_a_cent (p_total_value r') total /\
       p_cash r' = 99000).
Proof.
  apply (valuation_stores_its_result world_after_first_buy
           (fun _ => LastPrice (1200049 # 10000)) 1
           (Portfolio.mk 99000 [("TCS"%string, Holding.mk 10 100 1000 "Tata")]
              [Order.mk "TCS" "Tata" "buy" 10 100 1000 None] 1)); reflexivity.
Defined.

(** X8. The valuation never fails: whatever the price feed answers and
    whatever outages occur, [calculate_portfolio_value] returns a total; no
    exception escapes it. *)
Theorem valuation_never_raises :
  forall (w : World) (feed : string -> Quote) (user_id : Z),
    exists total, result (calculate_portfolio_value feed user_id) w = Return total.
Proof.
  intros w feed user_id.
  assert (H0 : valuation_frame user_id (db w) (db w)).
  { unfold valuation_frame. auto. }
  pose proof (calculate_portfolio_value_frame feed user_id (db w) w H0) as H.
  unfold result. destruct (calculate_portfolio_value feed user_id w) as [[a | e] w1].
  - exists a. reflexivity.
  - contradiction.
Qed.

Lemma dict_set_fresh (k : string) (v : Holding.t) (d : Dict) :
  ~ In k (map fst d) -> dict_set k v d = d ++ [(k, v)].
Proof.
  induction d as [| [k0 v0] d IH]; simpl; intros Hk; [reflexivity |].
  destruct (String.eqb k0 k) eqn:E.
  - apply String.eqb_eq in E. exfalso. apply Hk. left. exact E.
  - rewrite IH; [reflexivity |]. intros Hin. apply Hk. right. exact Hin.
Qed.

(** Rows with distinct symbols give a dict with one entry per row, in order. *)
Lemma holdings_of_rows_unique (rows : list HoldingRow) :
  NoDup (map h_symbol rows) ->
  holdings_of_rows rows = map (fun r => (h_symbol r, holding_of_row r)) rows.
Proof.
  unfold holdings_of_rows. induction rows as [| x rows IH] using rev_ind; intros Hnd.
  - reflexivity.
  - rewrite map_app in Hnd. apply NoDup_snoc_inv in Hnd. destruct Hnd as [Hnd Hx].
    rewrite fold_left_app, map_app. simpl. rewrite (IH Hnd).
    apply dict_set_fresh. rewrite map_map. simpl. exact Hx.
Qed.

Lemma symbols_unique_in_portfolio (pid : Z) (hs : list HoldingRow) :
  NoDup (map holding_key hs) -> NoDup (map h_symbol (filter (of_portfolio pid) hs)).
Proof.
  induction hs as [| x hs IH]; simpl; intros Hnd; [constructor |].
  inversion Hnd as [| k ks Hnotin Hnd']; subst.
  destruct (of_portfolio pid x) eqn:Hp; [| apply IH, Hnd'].
  simpl. constructor; [| apply IH, Hnd'].
  intros Hin. apply in_map_iff in Hin. destruct Hin as (y & Hsym & Hy).
  apply filter_In in Hy. destruct Hy as [Hy Hpy].
  apply Hnotin. apply in_map_iff. exists y. split; [| exact Hy].
  unfold holding_key. unfold of_portfolio in Hp, Hpy.
  apply Z.eqb_eq in Hp, Hpy. congruence.
Qed.

Lemma valuation_feed_down (feed : string -> Quote) (rows : list HoldingRow) (acc : Q) :
  feed_down feed ->
  Forall (fun h => h_total_invested h == inject_Z (h_shares h) * h_avg_price h) rows ->
  fold_left (holding_value feed) (map (fun r => (h_symbol r, holding_of_row r)) rows) acc
  == acc + fold_right Qplus 0 (map h_total_invested rows).
Proof.
  intros Hdown. revert acc. induction rows as [| x rows IH]; intros acc Hc; simpl.
  - ring.
  - inversion Hc as [| y ys Hx Hrest]; subst.
    rewrite (IH _ Hrest). unfold holding_value.
    cbn [holding_of_row Holding.shares Holding.avg_price].
    destruct (Hdown (h_symbol x)) as [-> | ->]; rewrite Hx; ring.
Qed.

(** X10. Without quotes the valuation is the book value: on a working store
    whose holdings are unique per symbol and have
    [total_invested = shares * avg_price], when the price feed has no price for
    any symbol, [calculate_portfolio_value] returns the cash plus the
    [total_invested] of the user's holdings. *)
Theorem valuation_without_quotes_is_book_value :
  forall (w : World) (feed : string -> Quote) (user_id : Z) (pf : Portfolio.t),
    outages w = [] ->
    get_user_portfolio user_id w = (Return (Some pf), w) ->
    unique_holdings (db w) ->
    consistent_holdings (db w) ->
    feed_down feed ->
    exists total,
      result (calculate_portfolio_value feed user_id) w = Return total /\
      total == Portfolio.cash pf + invested (Portfolio.portfolio_id pf) (db w).
Proof.
  intros [d o log] feed user_id pf Ho Hload Hu Hc Hdown. simpl in Ho, Hu, Hc. subst o.
  apply load_is_read in Hload. destruct Hload as (r & Hrow & ->).
  unfold result. rewrite (calculate_portfolio_value_run feed user_id d log r Hrow).
  eexists. split; [reflexivity |].
  cbn [read_portfolio Portfolio.holdings Portfolio.cash Portfolio.portfolio_id db].
  rewrite holdings_of_rows_unique by (apply symbols_unique_in_portfolio, Hu).
  rewrite valuation_feed_down; [reflexivity | exact Hdown |].
  apply Forall_forall. intros h Hh. apply filter_In in Hh.
  unfold consistent_holdings in Hc. rewrite Forall_forall in Hc. apply Hc, Hh.
Qed.

Lemma valuation_without_quotes_is_book_value_witness :
  exists total,
    result (calculate_portfolio_value (fun _ => FeedException) 1) world_after_first_buy
    = Return total /\
    total == 99000 + invested 1 (db world_after_first_buy).
Proof.
  apply (valuation_without_quotes_is_book_value world_after_first_buy
           (fun _ => FeedException) 1
           (Portfolio.mk 99000 [("TCS"%string, Holding.mk 10 100 1000 "Tata")]
              [Order.mk "TCS" "Tata" "buy" 10 100 1000 None] 1)).
  - reflexivity.
  - reflexivity.
  - repeat constructor. simpl. tauto.
  - repeat constructor.
  - intros symbol. right. reflexivity.
Defined.

Lemma trade_leaves_other_portfolios_witness :
  slice 2
    (db (exec (update_portfolio_db 1 "TCS" "buy" 10 100 "Tata")
           (mkWorld (provision 2 (provision 1 empty_database)) [false; false; true] [])))
  = slice 2 (db (mkWorld (provision 2 (provision 1 empty_database)) [false; false; true] [])).
Proof.
  apply (trade_leaves_other_portfolios
           (mkWorld (provision 2 (provision 1 empty_database)) [false; false; true] [])
           1 "TCS" "buy" "Tata" 10 100 2); discriminate.
Defined.

(** * The [Portfolio] class *)

Lemma stock_value_is_holding_value (feed : string -> Quote) (history : string -> History) :
  history_adds_nothing feed history ->
  forall total_value item,
    stock_value feed history total_value item = holding_value feed total_value item.
Proof.
  intros Hh total_value [symbol holding]. unfold stock_value, holding_value, get_current_price.
  destruct (feed symbol) eqn:Hf; try reflexivity.
  destruct (Hh symbol Hf) as [-> | ->]; reflexivity.
Qed.

Lemma fold_left_ext_fun {X Y : Type} (f g : X -> Y -> X) (l : list Y) :
  (forall x y, f x y = g x y) -> forall x, fold_left f l x = fold_left g l x.
Proof.
  intros H. induction l as [|y l IH]; intros x; [reflexivity|].
  cbn [fold_left]. now rewrite H, IH.
Qed.

(** Whatever happens to the update of [total_value], the valuation returns
    the total it computed from the loaded portfolio. *)
Lemma calculate_portfolio_value_result (feed : string -> Quote) (user_id : Z) (w : World) :
  exists portfolio,
    result (get_user_portfolio user_id) w = Return (Some portfolio) /\
    result (calculate_portfolio_value feed user_id) w
    = Return (fold_left (holding_value feed) (Portfolio.holdings portfolio)
                (Portfolio.cash portfolio)).
Proof.
  destruct (get_user_portfolio_returns user_id w) as [portfolio Hload].
  exists portfolio. split; [exact Hload|].
  unfold result in *. unfold calculate_portfolio_value, bind at 1.
  destruct (get_user_portfolio user_id w) as [[o | e] w1]; cbn [fst] in Hload; [|discriminate].
  inversion Hload; subst o.
  unfold bind, get_db_connection, try_except, execute, commit, st_error, ret.
  destruct (next_outage w1) as [[|] w2]; [reflexivity|].
  destruct (next_outage w2) as [[|] w3]; [reflexivity|].
  destruct (sql_update_total_value _ user_id (db w3)) as [err | [u d']]; reflexivity.
Qed.

(** X11. A fresh [Portfolio] object values the portfolio as
    [calculate_portfolio_value] does: when the price history has nothing to
    add to the feed, [get_total_value] of an object that has not loaded its
    portfolio returns the total that [calculate_portfolio_value] returns in
    the same world, whatever outages are scheduled, and keeps the portfolio it
    loaded. *)
Theorem fresh_portfolio_object_agrees_with_valuation :
  forall (feed : string -> Quote) (history : string -> History) (user : User.t) (w : World),
    history_adds_nothing feed history ->
    exists total portfolio,
      result (get_total_value feed history (PortfolioObject.mk user None)) w
      = Return (total, PortfolioObject.mk user (Some portfolio)) /\
      result (calculate_portfolio_value feed (User.user_id user)) w = Return total /\
      result (get_user_portfolio (User.user_id user)) w = Return (Some portfolio).
Proof.
  intros feed history user w Hh.
  destruct (calculate_portfolio_value_result feed (User.user_id user) w)
    as (portfolio & Hload & Hval).
  exists (fold_left (holding_value feed) (Portfolio.holdings portfolio)
            (Portfolio.cash portfolio)), portfolio.
  split; [|split; assumption].
  unfold result in *. unfold get_total_value, load_portfolio, bind, ret.
  cbn [PortfolioObject.portfolio_data PortfolioObject.user].
  destruct (get_user_portfolio (User.user_id user) w) as [[o | e] w1]; cbn [fst] in Hload;
    [|discriminate].
  inversion Hload; subst o. cbn [snd fst PortfolioObject.portfolio_data].
  now rewrite (fold_left_ext_fun _ _ _ (stock_value_is_holding_value feed history Hh)).
Qed.

Lemma fresh_portfolio_object_agrees_with_valuation_witness :
  exists total portfolio,
    result (get_total_value (fun _ => NoLastPrice) (fun _ => Closes [])
              (PortfolioObject.mk (User.mk 1 "asha") None)) world_after_first_buy
    = Return (total, PortfolioObject.mk (User.mk 1 "asha") (Some portfolio)) /\
    result (calculate_portfolio_value (fun _ => NoLastPrice)
              (User.user_id (User.mk 1 "asha"))) world_after_first_buy
    = Return total /\
    result (get_user_portfolio (User.user_id (User.mk 1 "asha"))) world_after_first_buy
    = Return (Some portfolio).
Proof.
  apply (fresh_portfolio_object_agrees_with_valuation (fun _ => NoLastPrice)
           (fun _ => Closes []) (User.mk 1 "asha") world_after_first_buy).
  intros symbol _. left. reflexivity.
Defined.

(** * Market hours *)

Open Scope Z_scope.

Lemma timestamp_minus (dt : datetime) (delta : Z) :
  timestamp (minus_timedelta dt delta) = timestamp dt - delta.
Proof.
  unfold minus_timedelta, timestamp at 1. cbn [ordinal micros].
  pose proof (Z.div_mod (timestamp dt - delta) day_micros) as H.
  unfold day_micros in *. lia.
Qed.

Lemma valid_minus (dt : datetime) (delta : Z) : valid_datetime (minus_timedelta dt delta).
Proof.
  unfold valid_datetime, minus_timedelta. cbn [micros].
  apply Z.mod_pos_bound. reflexivity.
Qed.

Lemma yesterday_ordinal (now : datetime) :
  valid_datetime now -> ordinal (minus_timedelta now (days 1)) = ordinal now - 1.
Proof.
  unfold valid_datetime, minus_timedelta, timestamp, days. cbn [ordinal]. intros H.
  replace (ordinal now * day_micros + micros now - 1 * day_micros)
    with (micros now + (ordinal now - 1) * day_micros) by lia.
  rewrite Z.div_add by (unfold day_micros; lia).
  rewrite Z.div_small by exact H. lia.
Qed.

(** X12. The live-data window is always half an hour that has passed: for
    every valid [now], [get_live_data_period] returns valid datetimes with
    [end_time - start_time] exactly 30 minutes and [end_time <= now]; from 9:15
    on the window ends now, and before 9:15 it is 15:00 to 15:30 of the day
    before, whatever weekday that was. *)
Theorem live_data_period_is_last_half_hour :
  forall now : datetime,
    valid_datetime now ->
    let (start_time, end_time) := get_live_data_period now in
    valid_datetime start_time /\ valid_datetime end_time /\
    timestamp end_time - timestamp start_time = minutes 30 /\
    timestamp end_time <= timestamp now /\
    (time 9 15 <= micros now -> end_time = now) /\
    (micros now < time 9 15 ->
     start_time = mkDatetime (ordinal now - 1) (time 15 0) /\
     end_time = mkDatetime (ordinal now - 1) (time 15 30)).
Proof.
  intros now Hnow. unfold get_live_data_period.
  destruct (micros now <? time 9 15) eqn:Hearly.
  - apply Z.ltb_lt in Hearly.
    unfold combine_date. rewrite (yesterday_ordinal now Hnow).
    assert (Hstart : minus_timedelta (mkDatetime (ordinal now - 1) (time 15 30)) (minutes 30)
                     = mkDatetime (ordinal now - 1) (time 15 0)).
    { unfold minus_timedelta, timestamp. cbn [ordinal micros].
      replace ((ordinal now - 1) * day_micros + time 15 30 - minutes 30)
        with (time 15 0 + (ordinal now - 1) * day_micros)
        by (unfold time, minutes, day_micros; lia).
      rewrite Z.div_add, Z_mod_plus_full by (unfold day_micros; lia).
      rewrite Z.div_small, Z.mod_small by (unfold time, day_micros; lia).
      reflexivity. }
    rewrite Hstart.
    unfold valid_datetime in *. unfold timestamp. cbn [ordinal micros].
    unfold time, minutes, day_micros in *.
    repeat split; try lia.
  - apply Z.ltb_ge in Hearly.
    repeat split.
    + apply valid_minus.
    + apply valid_minus.
    + apply Hnow.
    + apply Hnow.
    + rewrite timestamp_minus. lia.
    + lia.
    + unfold time in *. lia.
    + unfold time in *. lia.
Qed.

Lemma live_data_period_is_last_half_hour_witness :
  let (start_time, end_time) := get_live_data_period (mkDatetime 739000 (time 8 0)) in
  valid_datetime start_time /\ valid_datetime end_time /\
  timestamp end_time - timestamp start_time = minutes 30 /\
  timestamp end_time <= timestamp (mkDatetime 739000 (time 8 0)) /\
  (time 9 15 <= micros (mkDatetime 739000 (time 8 0)) ->
   end_time = mkDatetime 739000 (time 8 0)) /\
  (micros (mkDatetime 739000 (time 8 0)) < time 9 15 ->
   start_time = mkDatetime (ordinal (mkDatetime 739000 (time 8 0)) - 1) (time 15 0) /\
   end_time = mkDatetime (ordinal (mkDatetime 739000 (time 8 0)) - 1) (time 15 30)).
Proof.
  apply (live_data_period_is_last_half_hour (mkDatetime 739000 (time 8 0))).
  split; [discriminate | reflexivity].
Defined.

(** X13. Before 9:15 the live-data window ends at a moment the market was
    open exactly when yesterday was a trading weekday: on a Sunday or Monday
    morning [get_live_data_period] returns a window of a weekend day, for which
    [is_market_open_now] is false. *)
Theorem early_window_ends_in_market_hours_iff_yesterday_weekday :
  forall now : datetime,
    valid_datetime now ->
    micros now < time 9 15 ->
    is_market_open_now (snd (get_live_data_period now))
    = (1 <=? weekday now) && (weekday now <=? 5).
Proof.
  intros now Hnow Hearly. unfold get_live_data_period.
  apply Z.ltb_lt in Hearly. rewrite Hearly. cbn [snd].
  unfold combine_date, is_market_open_now, weekday. cbn [ordinal micros].
  rewrite (yesterday_ordinal now Hnow).
  replace (time 9 15 <=? time 15 30) with true by reflexivity.
  rewrite Z.leb_refl, !andb_true_r.
  apply eq_true_iff_eq. rewrite andb_true_iff, Z.ltb_lt, !Z.leb_le.
  Z.div_mod_to_equations. lia.
Qed.

Lemma early_window_ends_in_market_hours_iff_yesterday_weekday_witness :
  is_market_open_now (snd (get_live_data_period (mkDatetime 739000 (time 8 0))))
  = (1 <=? weekday (mkDatetime 739000 (time 8 0)))
    && (weekday (mkDatetime 739000 (time 8 0)) <=? 5).
Proof.
  apply (early_window_ends_in_market_hours_iff_yesterday_weekday
           (mkDatetime 739000 (time 8 0))).
  - split; [discriminate | reflexivity].
  - reflexivity.
Defined.

Close Scope Z_scope.

(** * Accounts, watchlists and learning progress *)

Open Scope site_scope.

(** ** Running the site functions *)

Lemma set_world_same (s : Site) : set_world (world s) s = s.
Proof. destruct s; reflexivity. Qed.

Lemma next_outage_working (w : World) : outages w = [] -> next_outage w = (false, w).
Proof. unfold next_outage. intros ->. reflexivity. Qed.

Lemma connect_working (s : Site) :
  working s ->
  lift get_db_connection s = (Returns (Some (mkConnection true (db (world s)))), s).
Proof.
  unfold working, lift, get_db_connection. intros H.
  rewrite (next_outage_working _ H). now rewrite set_world_same.
Qed.

Lemma site_execute_working {A : Type} (conn : Connection) (stmt : SiteStmt A) (s : Site) :
  working s ->
  site_execute conn stmt s
  = match stmt s with
    | (inl e, s2) => (Raises e, s2)
    | (inr a, s2) => (Returns a, s2)
    end.
Proof.
  unfold working, site_execute. intros H.
  rewrite (next_outage_working _ H). now rewrite set_world_same.
Qed.

Lemma get_watchlist_working (user_id : Z) (s : Site) :
  working s -> get_watchlist user_id s = (Returns (watchlist_of user_id s), s).
Proof.
  intros H. unfold get_watchlist, site_bind, site_try.
  rewrite (connect_working s H), (site_execute_working _ _ s H). reflexivity.
Qed.

Lemma filter_watched_other (user_id other : Z) (symbol : string) (ws : list WatchlistRow) :
  other <> user_id ->
  filter (watched_by other) (filter (fun r => negb (watch_matches user_id symbol r)) ws)
  = filter (watched_by other) ws.
Proof.
  intros Hne. induction ws as [|r ws IH]; [reflexivity|].
  cbn [filter]. unfold watch_matches at 1, watched_by at 2 3.
  destruct (wl_user_id r =? other)%Z eqn:Eo.
  - apply Z.eqb_eq in Eo.
    destruct (wl_user_id r =? user_id)%Z eqn:Eu; [apply Z.eqb_eq in Eu; congruence|].
    cbn [andb negb filter]. unfold watched_by at 1. rewrite (proj2 (Z.eqb_eq _ _) Eo).
    now rewrite IH.
  - destruct (negb _); [|exact IH].
    cbn [filter]. unfold watched_by at 1. rewrite Eo. exact IH.
Qed.

Lemma filter_watched_same (user_id : Z) (symbol : string) (ws : list WatchlistRow) :
  filter (watched_by user_id) (filter (fun r => negb (watch_matches user_id symbol r)) ws)
  = filter (fun r => negb (String.eqb (wl_symbol r) symbol)) (filter (watched_by user_id) ws).
Proof.
  induction ws as [|r ws IH]; [reflexivity|].
  cbn [filter]. unfold watch_matches at 1, watched_by at 2 3.
  destruct (wl_user_id r =? user_id)%Z eqn:Eu; cbn [andb negb].
  - cbn [filter]. destruct (String.eqb (wl_symbol r) symbol); cbn [negb filter].
    + exact IH.
    + unfold watched_by at 1. rewrite Eu. now rewrite IH.
  - cbn [filter]. unfold watched_by at 1. rewrite Eu. exact IH.
Qed.

Lemma filter_rev {A : Type} (f : A -> bool) (l : list A) :
  filter f (rev l) = rev (filter f l).
Proof.
  induction l as [|a l IH]; [reflexivity|].
  cbn [rev filter]. rewrite filter_app, IH. cbn [filter].
  destruct (f a); [reflexivity|]. now rewrite app_nil_r.
Qed.

Lemma filter_map_item (symbol : string) (rows : list WatchlistRow) :
  filter (fun i => negb (String.eqb (WatchlistItem.symbol i) symbol))
    (map watchlist_item_of_row rows)
  = map watchlist_item_of_row (filter (fun r => negb (String.eqb (wl_symbol r) symbol)) rows).
Proof.
  induction rows as [|r rows IH]; [reflexivity|].
  cbn [map filter watchlist_item_of_row WatchlistItem.symbol].
  destruct (negb _); [cbn [map watchlist_item_of_row]; now rewrite IH | exact IH].
Qed.

Lemma filter_no_match (user_id : Z) (symbol : string) (ws : list WatchlistRow) :
  existsb (watch_matches user_id symbol) ws = false ->
  filter (fun r => negb (watch_matches user_id symbol r)) ws = ws.
Proof.
  induction ws as [|r ws IH]; [reflexivity|].
  cbn [existsb filter]. intros H. apply orb_false_iff in H as [H1 H2].
  rewrite H1. cbn [negb]. now rewrite IH.
Qed.

Lemma add_to_watchlist_new (s : Site) (user_id : Z) (symbol company_name notes : string) :
  working s ->
  user_exists user_id s = true ->
  existsb (watch_matches user_id symbol) (tbl_watchlists s) = false ->
  add_to_watchlist user_id symbol company_name notes s
  = (Returns (true, AddedToWatchlist),
     set_watchlists
       (tbl_watchlists s ++ [mkWatchlistRow user_id symbol company_name notes]) s).
Proof.
  intros Hw Hu Hn. unfold add_to_watchlist, site_bind, site_try.
  rewrite (connect_working s Hw), (site_execute_working _ _ s Hw).
  unfold sql_select_watchlist_id, site_query. rewrite Hn.
  rewrite (site_execute_working _ _ s Hw). unfold sql_insert_watchlist.
  rewrite Hn, Hu. unfold lift, commit, ret. cbn [world]. now rewrite set_world_same.
Qed.

Lemma remove_from_watchlist_working (s : Site) (user_id : Z) (symbol : string) :
  working s ->
  remove_from_watchlist user_id symbol s
  = (Returns (true, RemovedFromWatchlist),
     set_watchlists
       (filter (fun r => negb (watch_matches user_id symbol r)) (tbl_watchlists s)) s).
Proof.
  intros Hw. unfold remove_from_watchlist, site_bind, site_try.
  rewrite (connect_working s Hw), (site_execute_working _ _ s Hw).
  unfold sql_delete_watchlist, lift, commit, ret. cbn [world]. now rewrite set_world_same.
Qed.

(** X14. On a working store, adding a symbol that a registered user does not
    watch yet succeeds, and [get_watchlist] then lists it first, before what
    it listed until then; the watchlists of the other users read the same. *)
Theorem added_symbol_is_listed_first :
  forall (s : Site) (user_id : Z) (symbol company_name notes : string),
    working s ->
    user_exists user_id s = true ->
    existsb (watch_matches user_id symbol) (tbl_watchlists s) = false ->
    let s' := site_exec (add_to_watchlist user_id symbol company_name notes) s in
    site_result (add_to_watchlist user_id symbol company_name notes) s
    = Returns (true, AddedToWatchlist) /\
    (exists before,
        site_result (get_watchlist user_id) s = Returns before /\
        site_result (get_watchlist user_id) s'
        = Returns (WatchlistItem.mk symbol company_name notes :: before)) /\
    (forall other, other <> user_id ->
        site_result (get_watchlist other) s' = site_result (get_watchlist other) s).
Proof.
  intros s user_id symbol company_name notes Hw Hu Hn.
  pose proof (add_to_watchlist_new s user_id symbol company_name notes Hw Hu Hn) as Hrun.
  unfold site_exec, site_result. rewrite Hrun. cbn [fst snd].
  set (s' := set_watchlists _ s).
  assert (Hw' : working s') by exact Hw.
  split; [reflexivity|]. split.
  - exists (watchlist_of user_id s).
    rewrite (get_watchlist_working _ s Hw), (get_watchlist_working _ s' Hw'). cbn [fst].
    split; [reflexivity|]. f_equal.
    unfold watchlist_of, s'. cbn [tbl_watchlists set_watchlists].
    rewrite filter_app. cbn [filter]. unfold watched_by at 2. cbn [wl_user_id].
    rewrite Z.eqb_refl, rev_app_distr. reflexivity.
  - intros other Hne.
    rewrite (get_watchlist_working _ s Hw), (get_watchlist_working _ s' Hw'). cbn [fst].
    f_equal. unfold watchlist_of, s'. cbn [tbl_watchlists set_watchlists].
    rewrite filter_app. cbn [filter]. unfold watched_by at 2. cbn [wl_user_id].
    destruct (user_id =? other)%Z eqn:E; [apply Z.eqb_eq in E; congruence|].
    now rewrite app_nil_r.
Qed.

Lemma added_symbol_is_listed_first_witness :
  let s := site_with [mkUserRow 1 "asha" "asha@example.com" "h" false] 2
             [mkWatchlistRow 1 "INFY" "Infosys" EmptyString] in
  let s' := site_exec (add_to_watchlist 1 "TCS" "Tata" "note") s in
  site_result (add_to_watchlist 1 "TCS" "Tata" "note") s = Returns (true, AddedToWatchlist) /\
  (exists before,
      site_result (get_watchlist 1) s = Returns before /\
      site_result (get_watchlist 1) s'
      = Returns (WatchlistItem.mk "TCS" "Tata" "note" :: before)) /\
  (forall other, other <> 1%Z ->
      site_result (get_watchlist other) s' = site_result (get_watchlist other) s).
Proof.
  apply (added_symbol_is_listed_first
           (site_with [mkUserRow 1 "asha" "asha@example.com" "h" false] 2
              [mkWatchlistRow 1 "INFY" "Infosys" EmptyString])
           1 "TCS" "Tata" "note"); reflexivity.
Defined.

Lemma add_to_watchlist_watched (s : Site) (user_id : Z) (symbol company_name notes : string) :
  existsb (watch_matches user_id symbol) (tbl_watchlists s) = true ->
  exists message s',
    add_to_watchlist user_id symbol company_name notes s = (Returns (false, message), s') /\
    tbl_watchlists s' = tbl_watchlists s /\
    (working s -> message = StockAlreadyInWatchlist).
Proof.
  intros Hl. unfold add_to_watchlist, site_bind, site_try, site_execute, lift,
    get_db_connection, next_outage, st_error, bind, ret, working,
    sql_select_watchlist_id, site_query.
  destruct (outages (world s)) as [|[|] [|[|] rest]] eqn:Ho;
    cbn; rewrite ?Ho; cbn; rewrite ?Hl; cbn;
    do 2 eexists; (repeat split; eauto); intros Hw; congruence.
Qed.

(** X15. A symbol is never put on a watchlist twice: when the user already
    watches the symbol, [add_to_watchlist] reports failure and leaves the table
    as it is, whatever outages are scheduled; on a working store the message
    is "Stock already in watchlist". *)
Theorem watched_symbol_is_not_added_again :
  forall (s : Site) (user_id : Z) (symbol company_name notes : string),
    existsb (watch_matches user_id symbol) (tbl_watchlists s) = true ->
    tbl_watchlists (site_exec (add_to_watchlist user_id symbol company_name notes) s)
    = tbl_watchlists s /\
    (exists message,
        site_result (add_to_watchlist user_id symbol company_name notes) s
        = Returns (false, message)) /\
    (working s ->
     site_result (add_to_watchlist user_id symbol company_name notes) s
     = Returns (false, StockAlreadyInWatchlist)).
Proof.
  intros s user_id symbol company_name notes Hl.
  destruct (add_to_watchlist_watched s user_id symbol company_name notes Hl)
    as (message & s' & Hrun & Htbl & Hmsg).
  unfold site_exec, site_result. rewrite Hrun. cbn [fst snd].
  split; [exact Htbl|]. split; [eauto|].
  intros Hw. now rewrite (Hmsg Hw).
Qed.

Lemma watched_symbol_is_not_added_again_witness :
  let s := site_with [mkUserRow 1 "asha" "asha@example.com" "h" false] 2
             [mkWatchlistRow 1 "INFY" "Infosys" EmptyString] in
  tbl_watchlists (site_exec (add_to_watchlist 1 "INFY" "Infosys Ltd" "again") s)
  = tbl_watchlists s /\
  (exists message,
      site_result (add_to_watchlist 1 "INFY" "Infosys Ltd" "again") s
      = Returns (false, message)) /\
  (working s ->
   site_result (add_to_watchlist 1 "INFY" "Infosys Ltd" "again") s
   = Returns (false, StockAlreadyInWatchlist)).
Proof.
  apply (watched_symbol_is_not_added_again
           (site_with [mkUserRow 1 "asha" "asha@example.com" "h" false] 2
              [mkWatchlistRow 1 "INFY" "Infosys" EmptyString])
           1 "INFY" "Infosys Ltd" "again"); reflexivity.
Defined.

(** X16. On a working store [remove_from_watchlist] always reports "Removed
    from watchlist", also for a symbol the user does not watch; afterwards
    [get_watchlist] lists what it listed before without that symbol, in the
    same order, and the watchlists of the other users read the same. *)
Theorem removed_symbol_is_not_listed :
  forall (s : Site) (user_id : Z) (symbol : string),
    working s ->
    let s' := site_exec (remove_from_watchlist user_id symbol) s in
    site_result (remove_from_watchlist user_id symbol) s = Returns (true, RemovedFromWatchlist) /\
    (exists before,
        site_result (get_watchlist user_id) s = Returns before /\
        site_result (get_watchlist user_id) s'
        = Returns (filter (fun i => negb (String.eqb (WatchlistItem.symbol i) symbol)) before)) /\
    (forall other, other <> user_id ->
        site_result (get_watchlist other) s' = site_result (get_watchlist other) s).
Proof.
  intros s user_id symbol Hw.
  pose proof (remove_from_watchlist_working s user_id symbol Hw) as Hrun.
  unfold site_exec, site_result. rewrite Hrun. cbn [fst snd].
  set (s' := set_watchlists _ s).
  assert (Hw' : working s') by exact Hw.
  split; [reflexivity|]. split.
  - exists (watchlist_of user_id s).
    rewrite (get_watchlist_working _ s Hw), (get_watchlist_working _ s' Hw'). cbn [fst].
    split; [reflexivity|]. f_equal.
    unfold watchlist_of, s'. cbn [tbl_watchlists set_watchlists].
    now rewrite filter_watched_same, filter_map_item, filter_rev.
  - intros other Hne.
    rewrite (get_watchlist_working _ s Hw), (get_watchlist_working _ s' Hw'). cbn [fst].
    f_equal. unfold watchlist_of, s'. cbn [tbl_watchlists set_watchlists].
    now rewrite filter_watched_other.
Qed.

Lemma removed_symbol_is_not_listed_witness :
  let s := site_with [mkUserRow 1 "asha" "asha@example.com" "h" false] 2
             [mkWatchlistRow 1 "INFY" "Infosys" EmptyString] in
  let s' := site_exec (remove_from_watchlist 1 "TCS") s in
  site_result (remove_from_watchlist 1 "TCS") s = Returns (true, RemovedFromWatchlist) /\
  (exists before,
      site_result (get_watchlist 1) s = Returns before /\
      site_result (get_watchlist 1) s'
      = Returns (filter (fun i => negb (String.eqb (WatchlistItem.symbol i) "TCS")) before)) /\
  (forall other, other <> 1%Z ->
      site_result (get_watchlist other) s' = site_result (get_watchlist other) s).
Proof.
  apply (removed_symbol_is_not_listed
           (site_with [mkUserRow 1 "asha" "asha@example.com" "h" false] 2
              [mkWatchlistRow 1 "INFY" "Infosys" EmptyString])
           1 "TCS"); reflexivity.
Defined.

(** X17. Adding a symbol and removing it again restores the table: on a
    working store, for a registered user who did not watch the symbol, the
    table [watchlists] after [add_to_watchlist] followed by
    [remove_from_watchlist] is the table before. *)
Theorem add_then_remove_restores_watchlists :
  forall (s : Site) (user_id : Z) (symbol company_name notes : string),
    working s ->
    user_exists user_id s = true ->
    existsb (watch_matches user_id symbol) (tbl_watchlists s) = false ->
    tbl_watchlists
      (site_exec (remove_from_watchlist user_id symbol)
         (site_exec (add_to_watchlist user_id symbol company_name notes) s))
    = tbl_watchlists s.
Proof.
  intros s user_id symbol company_name notes Hw Hu Hn.
  unfold site_exec at 2.
  rewrite (add_to_watchlist_new s user_id symbol company_name notes Hw Hu Hn). cbn [snd].
  set (s' := set_watchlists _ s).
  assert (Hw' : working s') by exact Hw.
  unfold site_exec. rewrite (remove_from_watchlist_working s' user_id symbol Hw').
  unfold s'. cbn [snd tbl_watchlists set_watchlists].
  rewrite filter_app, (filter_no_match _ _ _ Hn). cbn [filter].
  unfold watch_matches at 1. cbn [wl_user_id wl_symbol].
  rewrite Z.eqb_refl, String.eqb_refl. cbn [andb negb]. now rewrite app_nil_r.
Qed.

Lemma add_then_remove_restores_watchlists_witness :
  let s := site_with [mkUserRow 1 "asha" "asha@example.com" "h" false] 2
             [mkWatchlistRow 1 "INFY" "Infosys" EmptyString] in
  tbl_watchlists
    (site_exec (remove_from_watchlist 1 "TCS")
       (site_exec (add_to_watchlist 1 "TCS" "Tata" "note") s))
  = tbl_watchlists s.
Proof.
  apply (add_then_remove_restores_watchlists
           (site_with [mkUserRow 1 "asha" "asha@example.com" "h" false] 2
              [mkWatchlistRow 1 "INFY" "Infosys" EmptyString])
           1 "TCS" "Tata" "note"); reflexivity.
Defined.

Lemma get_watchlist_run (s : Site) (user_id : Z) :
  exists items s',
    get_watchlist user_id s = (Returns items, s') /\
    (items = watchlist_of user_id s \/ items = []) /\
    (working s -> items = watchlist_of user_id s) /\
    (hd false (outages (world s)) = true \/ hd false (tl (outages (world s))) = true ->
     items = []) /\
    tbl_watchlists s' = tbl_watchlists s /\
    tbl_users s' = tbl_users s /\
    tbl_learning_progress s' = tbl_learning_progress s /\
    db (world s') = db (world s).
Proof.
  unfold get_watchlist, site_bind, site_try, site_execute, lift, st_notice,
    get_db_connection, next_outage, st_error, bind, ret, working,
    sql_select_watchlist, site_query, watchlist_of.
  destruct (outages (world s)) as [|[|] [|[|] rest]] eqn:Ho;
    cbn; rewrite ?Ho; cbn;
    do 2 eexists; (repeat split; eauto); try (intros Hw; congruence);
    intros [H|H]; discriminate.
Qed.

(** X18. [get_watchlist] never raises and never writes: whatever outages are
    scheduled it returns either the user's watchlist as the table has it or
    the empty list, the latter whenever the connection or the query fails, so
    a caller cannot tell a failed read from an empty watchlist; the tables are
    as before. *)
Theorem get_watchlist_returns_list_or_nothing :
  forall (s : Site) (user_id : Z),
    (site_result (get_watchlist user_id) s = Returns (watchlist_of user_id s) \/
     site_result (get_watchlist user_id) s = Returns []) /\
    (working s -> site_result (get_watchlist user_id) s = Returns (watchlist_of user_id s)) /\
    (hd false (outages (world s)) = true \/ hd false (tl (outages (world s))) = true ->
     site_result (get_watchlist user_id) s = Returns []) /\
    tbl_watchlists (site_exec (get_watchlist user_id) s) = tbl_watchlists s /\
    tbl_users (site_exec (get_watchlist user_id) s) = tbl_users s /\
    tbl_learning_progress (site_exec (get_watchlist user_id) s) = tbl_learning_progress s /\
    db (world (site_exec (get_watchlist user_id) s)) = db (world s).
Proof.
  intros s user_id.
  destruct (get_watchlist_run s user_id)
    as (items & s' & Hrun & Hor & Hw & Hdown & H1 & H2 & H3 & H4).
  unfold site_exec, site_result. rewrite Hrun. cbn [fst snd].
  repeat split; auto.
  - destruct Hor as [-> | ->]; auto.
  - intros H. now rewrite (Hw H).
  - intros H. now rewrite (Hdown H).
Qed.

(** ** Accounts *)

Lemma initialize_database_working (s : Site) :
  working s ->
  initialize_database s
  = (Returns true,
     mkSite (world s) (tbl_users s) (users_id_seq s) (tbl_watchlists s)
       (tbl_learning_progress s) (notices s ++ [TablesAlreadyExist]) (manager_connection s)).
Proof.
  intros Hw. unfold initialize_database, site_bind, site_try.
  rewrite (connect_working s Hw), (site_execute_working _ _ s Hw). reflexivity.
Qed.

Lemma not_taken_find (username email : string) (us : list UserRow) :
  existsb (username_or_email username email) us = false ->
  find (fun r => String.eqb (u_username r) username) us = None.
Proof.
  induction us as [|r us IH]; [reflexivity|].
  cbn [existsb find]. intros H. apply orb_false_iff in H as [H1 H2].
  unfold username_or_email in H1. apply orb_false_iff in H1 as [H1 _].
  rewrite H1. now apply IH.
Qed.

Lemma user_exists_snoc (user_id : Z) (r : UserRow) (s : Site) (us : list UserRow) :
  u_id r = user_id ->
  existsb (fun x => (u_id x =? user_id)%Z) (us ++ [r]) = true.
Proof.
  intros H. rewrite existsb_app. cbn [existsb]. rewrite H, Z.eqb_refl.
  now rewrite orb_true_r.
Qed.

(** The site after a registration that ran to its end. *)
Lemma register_user_new (sha256_hexdigest : string -> string) (s : Site)
    (username email password : string) :
  working s ->
  existsb (username_or_email username email) (tbl_users s) = false ->
  register_user sha256_hexdigest username email password s
  = (Returns (true, RegistrationSuccessful, Some (users_id_seq s)),
     mkSite (set_db (provision (users_id_seq s) (db (world s))) (world s))
       (tbl_users s ++
          [mkUserRow (users_id_seq s) username email (sha256_hexdigest password) false])
       (users_id_seq s + 1)%Z (tbl_watchlists s) (tbl_learning_progress s)
       (notices s ++ [TablesAlreadyExist]) (manager_connection s)).
Proof.
  intros Hw Hn. unfold register_user, site_bind, site_try.
  rewrite (connect_working s Hw), (site_execute_working _ _ s Hw).
  unfold sql_select_user_id, site_query. rewrite Hn.
  rewrite (site_execute_working _ _ s Hw). unfold sql_insert_user. rewrite Hn.
  set (s1 := set_users_id_seq _ _).
  assert (Hw1 : working s1) by exact Hw.
  rewrite (site_execute_working _ _ s1 Hw1).
  unfold sql_insert_user_portfolio, sql_insert_portfolio, user_exists.
  unfold s1 at 1. cbn [tbl_users set_users_id_seq set_users].
  rewrite (user_exists_snoc (users_id_seq s) _ s) by reflexivity.
  unfold lift, commit, ret. cbn [world set_world].
  match goal with
  | |- context [initialize_database ?x] =>
      rewrite (initialize_database_working x) by exact Hw
  end.
  reflexivity.
Qed.

Lemma login_user_working (sha256_hexdigest : string -> string) (s : Site)
    (username password : string) (r : UserRow) :
  working s ->
  find (fun x => String.eqb (u_username x) username) (tbl_users s) = Some r ->
  login_user sha256_hexdigest username password s
  = if String.eqb (u_password_hash r) (sha256_hexdigest password)
    then (Returns (true, LoginSuccessful, Some (u_id r)),
          set_users (map (logged_in (u_id r)) (tbl_users s)) s)
    else (Returns (false, InvalidUsernameOrPassword, None), s).
Proof.
  intros Hw Hf. unfold login_user, site_bind, site_try.
  rewrite (connect_working s Hw), (site_execute_working _ _ s Hw).
  unfold sql_select_user, site_query. rewrite Hf.
  unfold verify_password, hash_password.
  destruct (String.eqb (u_password_hash r) (sha256_hexdigest password)); cbn [negb].
  - rewrite (site_execute_working _ _ s Hw). unfold sql_update_last_login.
    unfold lift, commit, ret. cbn [world]. now rewrite set_world_same.
  - reflexivity.
Qed.

Lemma login_user_unknown (sha256_hexdigest : string -> string) (s : Site)
    (username password : string) :
  working s ->
  find (fun x => String.eqb (u_username x) username) (tbl_users s) = None ->
  login_user sha256_hexdigest username password s
  = (Returns (false, InvalidUsernameOrPassword, None), s).
Proof.
  intros Hw Hf. unfold login_user, site_bind, site_try.
  rewrite (connect_working s Hw), (site_execute_working _ _ s Hw).
  unfold sql_select_user, site_query. rewrite Hf. reflexivity.
Qed.

(** X19. Registration and login round trip: on a working store, registering
    a username and an email that no account uses and that fit their columns
    (50 and 100 characters, 256 for the hash) succeeds with a fresh user id,
    and a login with the same username and password then succeeds with that
    id, while a login with a password of another hash is turned down with
    "Invalid username or password". *)
Theorem registered_user_can_log_in :
  forall (sha256_hexdigest : string -> string) (s : Site) (username email password : string),
    working s ->
    existsb (username_or_email username email) (tbl_users s) = false ->
    (String.length username <= 50)%nat ->
    (String.length email <= 100)%nat ->
    (String.length (sha256_hexdigest password) <= 256)%nat ->
    let s' := site_exec (register_user sha256_hexdigest username email password) s in
    site_result (register_user sha256_hexdigest username email password) s
    = Returns (true, RegistrationSuccessful, Some (users_id_seq s)) /\
    user_exists (users_id_seq s) s' = true /\
    site_result (login_user sha256_hexdigest username password) s'
    = Returns (true, LoginSuccessful, Some (users_id_seq s)) /\
    (forall other_password,
        sha256_hexdigest other_password <> sha256_hexdigest password ->
        site_result (login_user sha256_hexdigest username other_password) s'
        = Returns (false, InvalidUsernameOrPassword, None)).
Proof.
  intros sha s username email password Hw Hn _ _ _.
  unfold site_exec, site_result.
  rewrite (register_user_new sha s username email password Hw Hn). cbn [fst snd].
  set (s' := mkSite _ _ _ _ _ _ _).
  assert (Hw' : working s') by exact Hw.
  assert (Hf : find (fun x => String.eqb (u_username x) username) (tbl_users s')
               = Some (mkUserRow (users_id_seq s) username email (sha password) false)).
  { unfold s'. cbn [tbl_users].
    rewrite (find_snoc_none _ _ _ (not_taken_find _ _ _ Hn)).
    cbn [u_username]. now rewrite String.eqb_refl. }
  split; [reflexivity|]. split.
  - unfold user_exists, s'. cbn [tbl_users]. now apply (user_exists_snoc _ _ s).
  - split.
    + rewrite (login_user_working sha s' username password _ Hw' Hf).
      cbn [u_password_hash u_id]. now rewrite String.eqb_refl.
    + intros other Hne.
      rewrite (login_user_working sha s' username other _ Hw' Hf).
      cbn [u_password_hash u_id].
      destruct (String.eqb (sha password) (sha other)) eqn:E; [|reflexivity].
      apply String.eqb_eq in E. congruence.
Qed.

Lemma registered_user_can_log_in_witness :
  let sha := fun p : string => String.append "sha:" p in
  let s := site_with [mkUserRow 1 "asha" "asha@example.com" "sha:pw" false] 2 [] in
  let s' := site_exec (register_user sha "ravi" "ravi@example.com" "secret") s in
  site_result (register_user sha "ravi" "ravi@example.com" "secret") s
  = Returns (true, RegistrationSuccessful, Some (users_id_seq s)) /\
  user_exists (users_id_seq s) s' = true /\
  site_result (login_user sha "ravi" "secret") s'
  = Returns (true, LoginSuccessful, Some (users_id_seq s)) /\
  (forall other_password,
      sha other_password <> sha "secret"%string ->
      site_result (login_user sha "ravi" other_password) s'
      = Returns (false, InvalidUsernameOrPassword, None)).
Proof.
  apply (registered_user_can_log_in (fun p : string => String.append "sha:" p)
           (site_with [mkUserRow 1 "asha" "asha@example.com" "sha:pw" false] 2 [])
           "ravi" "ravi@example.com" "secret");
    [reflexivity | reflexivity | vm_compute; lia | vm_compute; lia | vm_compute; lia].
Defined.

Lemma register_user_taken (sha256_hexdigest : string -> string) (s : Site)
    (username email password : string) :
  existsb (username_or_email username email) (tbl_users s) = true ->
  exists message s',
    register_user sha256_hexdigest username email password s
    = (Returns (false, message, None), s') /\
    tbl_users s' = tbl_users s /\
    users_id_seq s' = users_id_seq s /\
    db (world s') = db (world s) /\
    (working s -> message = UsernameOrEmailExists).
Proof.
  intros Ht. unfold register_user, site_bind, site_try, site_execute, lift,
    get_db_connection, next_outage, st_error, bind, ret, working,
    sql_select_user_id, site_query.
  destruct (outages (world s)) as [|[|] [|[|] rest]] eqn:Ho;
    cbn; rewrite ?Ho; cbn; rewrite ?Ht; cbn;
    do 2 eexists; (repeat split; eauto); intros Hw; congruence.
Qed.

(** X20. Usernames and emails are not registered twice: when an account
    already has the username or the email, [register_user] reports failure
    without a user id and leaves the accounts and the ledger as they are,
    whatever outages are scheduled; on a working store the message is
    "Username or email already exists". *)
Theorem taken_name_is_not_registered_again :
  forall (sha256_hexdigest : string -> string) (s : Site) (username email password : string),
    username_taken username s = true \/ email_taken email s = true ->
    let s' := site_exec (register_user sha256_hexdigest username email password) s in
    (exists message,
        site_result (register_user sha256_hexdigest username email password) s
        = Returns (false, message, None)) /\
    (working s ->
     site_result (register_user sha256_hexdigest username email password) s
     = Returns (false, UsernameOrEmailExists, None)) /\
    tbl_users s' = tbl_users s /\
    users_id_seq s' = users_id_seq s /\
    db (world s') = db (world s).
Proof.
  intros sha s username email password Ht.
  assert (Ht' : existsb (username_or_email username email) (tbl_users s) = true).
  { apply existsb_exists. unfold username_taken, email_taken in Ht.
    destruct Ht as [Ht | Ht]; apply existsb_exists in Ht as (r & Hin & Hr);
      exists r; (split; [exact Hin|]); unfold username_or_email; rewrite Hr;
      auto using orb_true_r. }
  destruct (register_user_taken sha s username email password Ht')
    as (message & s' & Hrun & H1 & H2 & H3 & Hmsg).
  unfold site_exec, site_result. rewrite Hrun. cbn [fst snd].
  repeat split; eauto. intros Hw. now rewrite (Hmsg Hw).
Qed.

Lemma taken_name_is_not_registered_again_witness :
  let sha := fun p : string => String.append "sha:" p in
  let s := site_with [mkUserRow 1 "asha" "asha@example.com" "sha:pw" false] 2 [] in
  let s' := site_exec (register_user sha "asha" "other@example.com" "secret") s in
  (exists message,
      site_result (register_user sha "asha" "other@example.com" "secret") s
      = Returns (false, message, None)) /\
  (working s ->
   site_result (register_user sha "asha" "other@example.com" "secret") s
   = Returns (false, UsernameOrEmailExists, None)) /\
  tbl_users s' = tbl_users s /\
  users_id_seq s' = users_id_seq s /\
  db (world s') = db (world s).
Proof.
  apply (taken_name_is_not_registered_again (fun p : string => String.append "sha:" p)
           (site_with [mkUserRow 1 "asha" "asha@example.com" "sha:pw" false] 2 [])
           "asha" "other@example.com" "secret").
  left. reflexivity.
Defined.

Lemma login_user_rejected (sha256_hexdigest : string -> string) (s : Site)
    (username password : string) :
  (forall r, In r (tbl_users s) -> u_username r = username ->
             u_password_hash r <> sha256_hexdigest password) ->
  exists message s',
    login_user sha256_hexdigest username password s = (Returns (false, message, None), s') /\
    tbl_users s' = tbl_users s /\
    (working s -> message = InvalidUsernameOrPassword).
Proof.
  intros Hno.
  assert (Hv : match find (fun x => String.eqb (u_username x) username) (tbl_users s) with
               | Some r => String.eqb (u_password_hash r) (sha256_hexdigest password) = false
               | None => True
               end).
  { destruct (find _ (tbl_users s)) as [r|] eqn:Hf; [|exact I].
    apply find_some in Hf as [Hin Hname]. apply String.eqb_eq in Hname.
    apply String.eqb_neq. now apply Hno. }
  unfold login_user, site_bind, site_try, site_execute, lift,
    get_db_connection, next_outage, st_error, bind, ret, working,
    sql_select_user, site_query, verify_password, hash_password.
  destruct (outages (world s)) as [|[|] [|[|] rest]] eqn:Ho;
    cbn; rewrite ?Ho; cbn;
    try (destruct (find _ (tbl_users s)) as [r|]; [rewrite Hv|]; cbn);
    do 2 eexists; (repeat split; eauto); intros Hw; congruence.
Qed.

(** X21. Without the right password nobody is logged in: when no account
    has both the username and the hash of the password, [login_user] reports
    failure without a user id and leaves the accounts as they are, whatever
    outages are scheduled; on a working store the message is "Invalid username
    or password", the same for an unknown username and for a wrong password. *)
Theorem wrong_credentials_are_turned_down :
  forall (sha256_hexdigest : string -> string) (s : Site) (username password : string),
    (forall r, In r (tbl_users s) -> u_username r = username ->
               u_password_hash r <> sha256_hexdigest password) ->
    (exists message,
        site_result (login_user sha256_hexdigest username password) s
        = Returns (false, message, None)) /\
    (working s ->
     site_result (login_user sha256_hexdigest username password) s
     = Returns (false, InvalidUsernameOrPassword, None)) /\
    tbl_users (site_exec (login_user sha256_hexdigest username password) s) = tbl_users s.
Proof.
  intros sha s username password Hno.
  destruct (login_user_rejected sha s username password Hno)
    as (message & s' & Hrun & H1 & Hmsg).
  unfold site_exec, site_result. rewrite Hrun. cbn [fst snd].
  repeat split; eauto. intros Hw. now rewrite (Hmsg Hw).
Qed.

Lemma wrong_credentials_are_turned_down_witness :
  let sha := fun p : string => String.append "sha:" p in
  let s := site_with [mkUserRow 1 "asha" "asha@example.com" "sha:pw" false] 2 [] in
  (exists message,
      site_result (login_user sha "asha" "guess") s = Returns (false, message, None)) /\
  (working s ->
   site_result (login_user sha "asha" "guess") s
   = Returns (false, InvalidUsernameOrPassword, None)) /\
  tbl_users (site_exec (login_user sha "asha" "guess") s) = tbl_users s.
Proof.
  apply (wrong_credentials_are_turned_down (fun p : string => String.append "sha:" p)
           (site_with [mkUserRow 1 "asha" "asha@example.com" "sha:pw" false] 2 [])
           "asha" "guess").
  intros r [<- | []] _. discriminate.
Defined.

(** X22. Registration creates the starting portfolio: on a working store
    whose portfolios all belong to accounts, the account that [register_user]
    creates has a portfolio with 100000 in cash, no holdings and no orders,
    which [get_user_portfolio] reads without writing anything. *)
Theorem registration_provisions_portfolio :
  forall (sha256_hexdigest : string -> string) (s : Site) (username email password : string),
    working s ->
    existsb (username_or_email username email) (tbl_users s) = false ->
    portfolios_of_accounts s ->
    referential_integrity (db (world s)) ->
    let s' := site_exec (register_user sha256_hexdigest username email password) s in
    let user_id := users_id_seq s in
    result (get_user_portfolio user_id) (world s')
    = Return (Some (Portfolio.mk 100000 [] [] (portfolios_id_seq (db (world s))))) /\
    exec (get_user_portfolio user_id) (world s') = world s'.
Proof.
  intros sha s username email password Hw Hn Hp Hri.
  unfold site_exec. rewrite (register_user_new sha s username email password Hw Hn).
  cbn [snd world].
  assert (Hrow : row_of (users_id_seq s) (db (world s)) = None).
  { unfold row_of. destruct (find _ _) as [p|] eqn:Hf; [|reflexivity].
    apply find_some in Hf as [Hin Hu]. apply Z.eqb_eq in Hu.
    specialize (Hp p Hin). lia. }
  unfold working in Hw. destruct (world s) as [d o log]. cbn [outages db] in *. subst o.
  unfold set_db. cbn [db outages st_errors].
  unfold result, exec. rewrite (load_after_provision _ d log Hri Hrow).
  split; reflexivity.
Qed.

Lemma registration_provisions_portfolio_witness :
  let sha := fun p : string => String.append "sha:" p in
  let s := site_with [] 1 [] in
  let s' := site_exec (register_user sha "ravi" "ravi@example.com" "secret") s in
  let user_id := users_id_seq s in
  result (get_user_portfolio user_id) (world s')
  = Return (Some (Portfolio.mk 100000 [] [] (portfolios_id_seq (db (world s))))) /\
  exec (get_user_portfolio user_id) (world s') = world s'.
Proof.
  apply (registration_provisions_portfolio (fun p : string => String.append "sha:" p)
           (site_with [] 1 []) "ravi" "ravi@example.com" "secret").
  - reflexivity.
  - reflexivity.
  - intros p [].
  - split; intros x [].
Defined.

(** X23. Registration is not atomic: when the store fails at the insert of
    the portfolio, [register_user] reports "Registration failed" and returns
    no user id, yet the account has been created: registering the same name
    again is turned down with "Username or email already exists", and a login
    with the username and password succeeds. *)
Theorem failed_registration_leaves_account :
  forall (sha256_hexdigest : string -> string) (s : Site) (username email password : string),
    outages (world s) = [false; false; false; true] ->
    existsb (username_or_email username email) (tbl_users s) = false ->
    let s' := site_exec (register_user sha256_hexdigest username email password) s in
    site_result (register_user sha256_hexdigest username email password) s
    = Returns (false, RegistrationFailed (StoreError OperationalError), None) /\
    db (world s') = db (world s) /\
    site_result (register_user sha256_hexdigest username email password) s'
    = Returns (false, UsernameOrEmailExists, None) /\
    site_result (login_user sha256_hexdigest username password) s'
    = Returns (true, LoginSuccessful, Some (users_id_seq s)).
Proof.
  intros sha s username email password Ho Hn.
  assert (Hrun : register_user sha username email password s
                 = (Returns (false, RegistrationFailed (StoreError OperationalError), None),
                    mkSite (mkWorld (db (world s)) [] (st_errors (world s)))
                      (tbl_users s ++
                         [mkUserRow (users_id_seq s) username email (sha password) false])
                      (users_id_seq s + 1)%Z (tbl_watchlists s) (tbl_learning_progress s)
                      (notices s) (manager_connection s))).
  { unfold register_user, site_bind, site_try, site_execute, lift,
      get_db_connection, next_outage, st_error, bind, ret,
      sql_select_user_id, sql_insert_user, site_query.
    rewrite Ho. cbn. rewrite Hn. cbn. rewrite Hn. cbn. reflexivity. }
  unfold site_exec, site_result. rewrite Hrun. cbn [fst snd].
  set (s' := mkSite _ _ _ _ _ _ _).
  assert (Hw' : working s') by reflexivity.
  assert (Hf : find (fun x => String.eqb (u_username x) username) (tbl_users s')
               = Some (mkUserRow (users_id_seq s) username email (sha password) false)).
  { unfold s'. cbn [tbl_users].
    rewrite (find_snoc_none _ _ _ (not_taken_find _ _ _ Hn)).
    cbn [u_username]. now rewrite String.eqb_refl. }
  split; [reflexivity|]. split; [reflexivity|]. split.
  - assert (Ht : existsb (username_or_email username email) (tbl_users s') = true).
    { unfold s'. cbn [tbl_users]. rewrite existsb_app. cbn [existsb].
      unfold username_or_email at 2. cbn [u_username]. rewrite String.eqb_refl.
      cbn [orb]. now rewrite orb_true_r. }
    destruct (register_user_taken sha s' username email password Ht)
      as (message & s'' & Hrun' & _ & _ & _ & Hmsg).
    rewrite Hrun'. cbn [fst]. now rewrite (Hmsg Hw').
  - rewrite (login_user_working sha s' username password _ Hw' Hf).
    cbn [u_password_hash u_id]. now rewrite String.eqb_refl.
Qed.

Lemma failed_registration_leaves_account_witness :
  let sha := fun p : string => String.append "sha:" p in
  let s := mkSite (mkWorld empty_database [false; false; false; true] []) [] 1 [] [] [] None in
  let s' := site_exec (register_user sha "ravi" "ravi@example.com" "secret") s in
  site_result (register_user sha "ravi" "ravi@example.com" "secret") s
  = Returns (false, RegistrationFailed (StoreError OperationalError), None) /\
  db (world s') = db (world s) /\
  site_result (register_user sha "ravi" "ravi@example.com" "secret") s'
  = Returns (false, UsernameOrEmailExists, None) /\
  site_result (login_user sha "ravi" "secret") s'
  = Returns (true, LoginSuccessful, Some (users_id_seq s)).
Proof.
  apply (failed_registration_leaves_account (fun p : string => String.append "sha:" p)
           (mkSite (mkWorld empty_database [false; false; false; true] []) [] 1 [] [] [] None)
           "ravi" "ravi@example.com" "secret"); reflexivity.
Defined.

(** ** Learning progress *)

Section SiteHoare.

Context {A B : Type}.

Lemma site_hoare_ret (P : Site -> Prop) (a : A) (Q : A -> Site -> Prop)
    (E : SiteError -> Site -> Prop) :
  (forall s, P s -> Q a s) -> site_hoare P (site_ret a) Q E.
Proof. intros H s Hs. apply H, Hs. Qed.

Lemma site_hoare_bind (P : Site -> Prop) (m : SiteEff A) (k : A -> SiteEff B)
    (R : A -> Site -> Prop) (Q : B -> Site -> Prop) (E : SiteError -> Site -> Prop) :
  site_hoare P m R E ->
  (forall a, site_hoare (R a) (k a) Q E) ->
  site_hoare P (site_bind m k) Q E.
Proof.
  intros Hm Hk s Hs. unfold site_bind. specialize (Hm s Hs).
  destruct (m s) as [[a | e] s1]; [apply Hk, Hm | exact Hm].
Qed.

Lemma site_hoare_try (P : Site -> Prop) (body : SiteEff A) (handler : SiteError -> SiteEff A)
    (Q : A -> Site -> Prop) (R E : SiteError -> Site -> Prop) :
  site_hoare P body Q R ->
  (forall e, site_hoare (R e) (handler e) Q E) ->
  site_hoare P (site_try body handler) Q E.
Proof.
  intros Hb Hh s Hs. unfold site_try. specialize (Hb s Hs).
  destruct (body s) as [[a | e] s1]; [exact Hb | apply Hh, Hb].
Qed.

Lemma site_hoare_weaken (P P' : Site -> Prop) (m : SiteEff A) (Q Q' : A -> Site -> Prop)
    (E E' : SiteError -> Site -> Prop) :
  site_hoare P' m Q' E' ->
  (forall s, P s -> P' s) ->
  (forall a s, Q' a s -> Q a s) ->
  (forall e s, E' e s -> E e s) ->
  site_hoare P m Q E.
Proof.
  intros Hm HP HQ HE s Hs. specialize (Hm s (HP s Hs)).
  destruct (m s) as [[a | e] s1]; [apply HQ, Hm | apply HE, Hm].
Qed.

Lemma site_hoare_execute (P : Site -> Prop) (conn : Connection) (stmt : SiteStmt A)
    (Q : A -> Site -> Prop) (E : SiteError -> Site -> Prop) :
  of_tables P ->
  (forall s, P s ->
     match stmt s with
     | (inl e, s2) => E e s2
     | (inr a, s2) => Q a s2
     end) ->
  (forall s, P s -> E (StoreError OperationalError) s) ->
  site_hoare P (site_execute conn stmt) Q E.
Proof.
  intros HP Hstmt Hdown s Hs. unfold site_execute.
  destruct (next_outage (world s)) as [down w1].
  assert (Hs1 : P (set_world w1 s)) by exact (HP s _ _ _ Hs).
  destruct down; [apply Hdown, Hs1|].
  specialize (Hstmt _ Hs1). destruct (stmt (set_world w1 s)) as [[e | a] s2]; exact Hstmt.
Qed.

End SiteHoare.

Lemma site_hoare_get_connection (P : Site -> Prop) (E : SiteError -> Site -> Prop) :
  of_tables P -> site_hoare P get_connection (fun _ => P) E.
Proof.
  intros HP s Hs. unfold get_connection.
  destruct (manager_connection s); [exact Hs|].
  destruct (next_outage (world s)) as [[|] w1]; exact (HP s _ _ _ Hs).
Qed.

Lemma site_hoare_connect (P : Site -> Prop) (E : SiteError -> Site -> Prop) :
  of_tables P -> site_hoare P (lift get_db_connection) (fun _ => P) E.
Proof.
  intros HP s Hs. unfold lift, get_db_connection.
  destruct (next_outage (world s)) as [[|] w1]; exact (HP s _ _ _ Hs).
Qed.

Lemma site_hoare_commit (P : Site -> Prop) (conn : Connection) (E : SiteError -> Site -> Prop) :
  of_tables P -> site_hoare P (lift (commit conn)) (fun _ => P) E.
Proof. intros HP s Hs. exact (HP s _ _ _ Hs). Qed.

Lemma site_hoare_rollback (P : Site -> Prop) (conn : Connection)
    (E : SiteError -> Site -> Prop) :
  of_tables P -> site_hoare P (lift (rollback conn)) (fun _ => P) E.
Proof.
  intros HP s Hs. unfold lift, rollback. destruct (autocommit conn); exact (HP s _ _ _ Hs).
Qed.

Lemma site_hoare_notice (P : Site -> Prop) (n : Notice) (E : SiteError -> Site -> Prop) :
  of_tables P -> site_hoare P (st_notice n) (fun _ => P) E.
Proof. intros HP s Hs. exact (HP s _ _ _ Hs). Qed.

Lemma find_map_completed (user_id : Z) (course_category lesson_name : string)
    (rows : list ProgressRow) :
  find (lesson_matches user_id course_category lesson_name)
    (map (completed_row user_id course_category lesson_name) rows)
  = match find (lesson_matches user_id course_category lesson_name) rows with
    | Some r => Some (mkProgressRow (lp_user_id r) (lp_course_category r) (lp_lesson_name r) true)
    | None => None
    end.
Proof.
  induction rows as [|r rows IH]; [reflexivity|].
  cbn [map find].
  assert (Hsame : lesson_matches user_id course_category lesson_name
                    (completed_row user_id course_category lesson_name r)
                  = lesson_matches user_id course_category lesson_name r).
  { unfold completed_row.
    destruct (lesson_matches user_id course_category lesson_name r) eqn:Hm; [|exact Hm].
    exact Hm. }
  rewrite Hsame.
  destruct (lesson_matches user_id course_category lesson_name r) eqn:Hm; [|exact IH].
  unfold completed_row. now rewrite Hm.
Qed.

Lemma find_none_existsb {X : Type} (f : X -> bool) (l : list X) :
  find f l = None -> existsb f l = false.
Proof.
  induction l as [|x l IH]; [reflexivity|].
  cbn [find existsb]. destruct (f x); [discriminate | exact IH].
Qed.

(** Every successful [mark_lesson_complete] leaves the lesson recorded as
    completed. *)
Lemma mark_lesson_complete_records (self : User.t) (course_category lesson_name : string) :
  site_hoare (fun _ => True) (mark_lesson_complete self course_category lesson_name)
    (fun marked s =>
       marked = true ->
       recorded (User.user_id self) course_category lesson_name s = Some true)
    (fun _ _ => False).
Proof.
  unfold mark_lesson_complete.
  eapply site_hoare_bind; [apply site_hoare_get_connection; intros ? ? ? ? ?; exact I|].
  intros [conn|]; [|apply site_hoare_ret; intros; discriminate].
  eapply site_hoare_try with (R := fun _ _ => True).
  - eapply site_hoare_bind with
      (R := fun existing s =>
              recorded (User.user_id self) course_category lesson_name s = existing).
    + apply site_hoare_execute; [intros ? ? ? ? ?; exact I | | intros; exact I].
      intros s _. reflexivity.
    + intros [[|]|].
      * apply site_hoare_ret. intros; discriminate.
      * eapply site_hoare_bind with
          (R := fun _ s =>
                  recorded (User.user_id self) course_category lesson_name s = Some true).
        -- apply site_hoare_execute.
           ++ intros s w n c H. exact H.
           ++ intros s Hs. unfold sql_update_completed, recorded in *.
              cbn [tbl_learning_progress set_learning_progress].
              rewrite find_map_completed.
              destruct (find _ (tbl_learning_progress s)); [reflexivity | discriminate].
           ++ intros; exact I.
        -- intros ?. eapply site_hoare_bind.
           ++ apply site_hoare_commit. intros s w n c H. exact H.
           ++ intros ?. apply site_hoare_ret. intros s Hs _. exact Hs.
      * eapply site_hoare_bind with
          (R := fun _ s =>
                  recorded (User.user_id self) course_category lesson_name s = Some true).
        -- apply site_hoare_execute.
           ++ intros s w n c H. exact H.
           ++ intros s Hs. unfold sql_insert_completed, recorded in *.
              destruct (find _ (tbl_learning_progress s)) as [r|] eqn:Hf; [discriminate|].
              rewrite (find_none_existsb _ _ Hf).
              destruct (user_exists (User.user_id self) s); [|exact I].
              cbn [tbl_learning_progress set_learning_progress].
              rewrite (find_snoc_none _ _ _ Hf).
              unfold lesson_matches. cbn [lp_user_id lp_course_category lp_lesson_name].
              now rewrite Z.eqb_refl, !String.eqb_refl.
           ++ intros; exact I.
        -- intros ?. eapply site_hoare_bind.
           ++ apply site_hoare_commit. intros s w n c H. exact H.
           ++ intros ?. apply site_hoare_ret. intros s Hs _. exact Hs.
  - intros e.
    eapply site_hoare_bind; [apply site_hoare_rollback; intros ? ? ? ? ?; exact I|].
    intros ?. eapply site_hoare_bind; [apply site_hoare_notice; intros ? ? ? ? ?; exact I|].
    intros ?. apply site_hoare_ret. intros; discriminate.
Qed.

(** A lesson recorded as completed is not marked again, and the table stays
    as it is. *)
Lemma mark_lesson_complete_again (self : User.t) (course_category lesson_name : string)
    (rows : list ProgressRow) :
  site_hoare
    (fun s => tbl_learning_progress s = rows /\
              recorded (User.user_id self) course_category lesson_name s = Some true)
    (mark_lesson_complete self course_category lesson_name)
    (fun marked s => marked = false /\ tbl_learning_progress s = rows)
    (fun _ _ => False).
Proof.
  set (P := fun s => tbl_learning_progress s = rows /\
                     recorded (User.user_id self) course_category lesson_name s = Some true).
  assert (HP : of_tables P) by (intros s w n c H; exact H).
  unfold mark_lesson_complete.
  eapply site_hoare_bind; [apply site_hoare_get_connection, HP|].
  intros [conn|]; [|apply site_hoare_ret; intros s [H _]; auto].
  eapply site_hoare_try with (R := fun _ => P).
  - eapply site_hoare_bind with (R := fun existing s => existing = Some true /\ P s).
    + apply site_hoare_execute; [exact HP| |intros s Hs; exact Hs].
      intros s Hs. cbn. split; [|exact Hs]. destruct Hs as [_ Hr]. exact Hr.
    + intros existing. apply site_hoare_weaken with
        (P' := fun s => existing = Some true /\ P s)
        (Q' := fun marked s => marked = false /\ tbl_learning_progress s = rows)
        (E' := fun _ => P); auto.
      intros s [He Hs]. subst existing. cbn. split; [reflexivity | apply Hs].
  - intros e.
    eapply site_hoare_bind; [apply site_hoare_rollback, HP|].
    intros ?. eapply site_hoare_bind; [apply site_hoare_notice, HP|].
    intros ?. apply site_hoare_ret. intros s [H _]; auto.
Qed.

(** X24. [mark_lesson_complete] completes a lesson once: whenever it returns
    [True] the table records the lesson of the user as completed, and from then
    on a further call for the same lesson does not return [True] and leaves
    the table as it is, whatever outages are scheduled; while the store works
    that call returns [False]. *)
Theorem lesson_is_completed_once :
  forall (s : Site) (self : User.t) (course_category lesson_name : string),
    site_result (mark_lesson_complete self course_category lesson_name) s = Returns true ->
    let s' := site_exec (mark_lesson_complete self course_category lesson_name) s in
    recorded (User.user_id self) course_category lesson_name s' = Some true /\
    site_result (mark_lesson_complete self course_category lesson_name) s' <> Returns true /\
    (working s' ->
     site_result (mark_lesson_complete self course_category lesson_name) s' = Returns false) /\
    tbl_learning_progress (site_exec (mark_lesson_complete self course_category lesson_name) s')
    = tbl_learning_progress s'.
Proof.
  intros s self course_category lesson_name Hres.
  pose proof (mark_lesson_complete_records self course_category lesson_name s I) as H1.
  unfold site_result, site_exec in *.
  destruct (mark_lesson_complete self course_category lesson_name s) as [[marked | e] s'];
    [|contradiction].
  cbn [fst snd] in *. inversion Hres; subst marked. specialize (H1 eq_refl).
  pose proof (mark_lesson_complete_again self course_category lesson_name
                (tbl_learning_progress s') s' (conj eq_refl H1)) as H2.
  destruct (mark_lesson_complete self course_category lesson_name s') as [[marked | e] s''];
    [|contradiction].
  cbn [fst snd]. destruct H2 as [-> H2].
  split; [exact H1 | split; [discriminate | split; [reflexivity | exact H2]]].
Qed.

Lemma lesson_is_completed_once_witness :
  let s := site_with [mkUserRow 1 "asha" "asha@example.com" "h" false] 2 [] in
  let self := User.mk 1 "asha" in
  let s' := site_exec (mark_lesson_complete self "Basics" "What is a stock") s in
  recorded (User.user_id self) "Basics" "What is a stock" s' = Some true /\
  site_result (mark_lesson_complete self "Basics" "What is a stock") s' <> Returns true /\
  (working s' ->
   site_result (mark_lesson_complete self "Basics" "What is a stock") s' = Returns false) /\
  tbl_learning_progress (site_exec (mark_lesson_complete self "Basics" "What is a stock") s')
  = tbl_learning_progress s'.
Proof.
  apply (lesson_is_completed_once
           (site_with [mkUserRow 1 "asha" "asha@example.com" "h" false] 2 [])
           (User.mk 1 "asha") "Basics" "What is a stock").
  reflexivity.
Defined.

Lemma assoc_get_set {V : Type} (k k' : string) (v : V) (d : list (string * V)) :
  assoc_get k (assoc_set k' v d) = if String.eqb k' k then Some v else assoc_get k d.
Proof.
  induction d as [|[k0 v0] d IH]; cbn [assoc_set assoc_get].
  - reflexivity.
  - destruct (String.eqb k0 k') eqn:E0; cbn [assoc_get].
    + apply String.eqb_eq in E0. subst k0.
      destruct (String.eqb k' k); reflexivity.
    + destruct (String.eqb k0 k) eqn:E1; [|exact IH].
      apply String.eqb_eq in E1. subst k0.
      rewrite String.eqb_sym, E0. reflexivity.
Qed.

Lemma completed_in_cons (course_category : string) (r : ProgressRow) (rows : list ProgressRow) :
  completed_in course_category (r :: rows)
  = ((if String.eqb (lp_course_category r) course_category && lp_completed r then 1 else 0)
     + completed_in course_category rows)%Z.
Proof.
  unfold completed_in. cbn [filter].
  destruct (String.eqb (lp_course_category r) course_category && lp_completed r).
  - cbn [List.length]. lia.
  - lia.
Qed.

(** The loop over the rows adds the completed rows of a category to the
    [completed] count of its entry. *)
Lemma fold_count_lesson (course_category : string) (rows : list ProgressRow) :
  forall progress : list (string * CategoryProgress.t),
    match assoc_get course_category (fold_left count_lesson rows progress) with
    | Some entry =>
        CategoryProgress.completed entry
        = (match assoc_get course_category progress with
           | Some entry0 => CategoryProgress.completed entry0
           | None => 0
           end + completed_in course_category rows)%Z
    | None =>
        assoc_get course_category progress = None /\
        completed_in course_category rows = 0%Z
    end.
Proof.
  induction rows as [|r rows IH]; intros progress.
  - cbn [fold_left]. unfold completed_in. cbn.
    destruct (assoc_get course_category progress); [lia | auto].
  - cbn [fold_left]. specialize (IH (count_lesson progress r)).
    rewrite completed_in_cons.
    destruct (assoc_get course_category (fold_left count_lesson rows (count_lesson progress r)))
      as [entry|].
    + rewrite IH. unfold count_lesson. rewrite assoc_get_set.
      destruct (String.eqb (lp_course_category r) course_category) eqn:Ec.
      * apply String.eqb_eq in Ec. rewrite Ec.
        cbn [CategoryProgress.completed andb].
        destruct (assoc_get course_category progress); destruct (lp_completed r);
          cbn [CategoryProgress.completed]; lia.
      * cbn [andb]. lia.
    + destruct IH as [IH1 IH2]. unfold count_lesson in IH1. rewrite assoc_get_set in IH1.
      destruct (String.eqb (lp_course_category r) course_category); [discriminate|].
      cbn [andb]. split; [exact IH1 | lia].
Qed.

Lemma fold_set_total_other (course_category : string) (courses : list (string * list string)) :
  ~ In course_category (map fst courses) ->
  forall progress,
    assoc_get course_category (fold_left set_total courses progress)
    = assoc_get course_category progress.
Proof.
  induction courses as [|[c l] courses IH]; intros Hnot progress; [reflexivity|].
  cbn [fold_left]. cbn [map fst In] in Hnot.
  rewrite IH by tauto. unfold set_total.
  assert (Hne : String.eqb c course_category = false) by (apply String.eqb_neq; tauto).
  destruct (assoc_get c progress); rewrite assoc_get_set, Hne; reflexivity.
Qed.

(** The loop over the course table gives every category of the table an
    entry with the number of its lessons as [total], and keeps the
    [completed] count. *)
Lemma fold_set_total (course_category : string) (course_lessons : list string)
    (courses : list (string * list string)) :
  NoDup (map fst courses) ->
  In (course_category, course_lessons) courses ->
  forall progress,
    exists entry,
      assoc_get course_category (fold_left set_total courses progress) = Some entry /\
      CategoryProgress.total entry = Z.of_nat (List.length course_lessons) /\
      CategoryProgress.completed entry
      = match assoc_get course_category progress with
        | Some entry0 => CategoryProgress.completed entry0
        | None => 0%Z
        end.
Proof.
  induction courses as [|[c l] courses IH]; intros Hnd Hin progress; [destruct Hin|].
  cbn [map fst] in Hnd. inversion Hnd as [|? ? Hnot Hnd']; subst.
  cbn [fold_left]. destruct Hin as [Heq | Hin].
  - inversion Heq; subst c l.
    rewrite (fold_set_total_other _ _ Hnot). unfold set_total.
    destruct (assoc_get course_category progress) as [entry0|];
      rewrite assoc_get_set, String.eqb_refl; eexists; repeat split.
  - assert (Hne : String.eqb c course_category = false).
    { apply String.eqb_neq. intros ->. apply Hnot.
      change course_category with (fst (course_category, course_lessons)).
      now apply in_map. }
    destruct (IH Hnd' Hin (set_total progress (c, l))) as (entry & H1 & H2 & H3).
    exists entry. repeat split; auto. rewrite H3. unfold set_total.
    destruct (assoc_get c progress); rewrite assoc_get_set, Hne; reflexivity.
Qed.

Lemma get_connection_working (s : Site) :
  working s ->
  exists conn s1,
    get_connection s = (Returns (Some conn), s1) /\
    working s1 /\
    tbl_learning_progress s1 = tbl_learning_progress s.
Proof.
  unfold working, get_connection. intros Hw.
  destruct (manager_connection s) as [conn|].
  - exists conn, s. auto.
  - rewrite (next_outage_working _ Hw). do 2 eexists. split; [reflexivity|]. split.
    + exact Hw.
    + reflexivity.
Qed.

(** X25. [get_learning_progress] counts what the table records: on a
    working store, every category of the course table has an entry whose
    [total] is the number of lessons of the category in the course table and
    whose [completed] is the number of the user's completed rows of that
    category. *)
Theorem learning_progress_counts_completed_lessons :
  forall (STOCK_MARKET_COURSES : list (string * list string)) (s : Site) (self : User.t)
         (course_category : string) (course_lessons : list string),
    working s ->
    NoDup (map fst STOCK_MARKET_COURSES) ->
    In (course_category, course_lessons) STOCK_MARKET_COURSES ->
    exists progress entry,
      site_result (get_learning_progress STOCK_MARKET_COURSES self) s = Returns progress /\
      assoc_get course_category progress = Some entry /\
      CategoryProgress.total entry = Z.of_nat (List.length course_lessons) /\
      CategoryProgress.completed entry
      = completed_in course_category
          (filter (progress_of (User.user_id self)) (tbl_learning_progress s)).
Proof.
  intros courses s self course_category course_lessons Hw Hnd Hin.
  destruct (get_connection_working s Hw) as (conn & s1 & Hconn & Hw1 & Htbl).
  unfold site_result, get_learning_progress, site_bind, site_try.
  rewrite Hconn, (site_execute_working _ _ s1 Hw1).
  unfold sql_select_progress, site_query. cbn [fst site_ret]. rewrite Htbl.
  set (rows := filter (progress_of (User.user_id self)) (tbl_learning_progress s)).
  destruct (fold_set_total course_category course_lessons courses Hnd Hin
              (fold_left count_lesson rows [])) as (entry & H1 & H2 & H3).
  exists (fold_left set_total courses (fold_left count_lesson rows [])), entry.
  repeat split; auto. rewrite H3.
  pose proof (fold_count_lesson course_category rows []) as Hc.
  destruct (assoc_get course_category (fold_left count_lesson rows [])) as [entry0|].
  - rewrite Hc. cbn [assoc_get]. lia.
  - destruct Hc as [_ Hc]. now rewrite Hc.
Qed.

Lemma learning_progress_counts_completed_lessons_witness :
  exists progress entry,
    site_result
      (get_learning_progress [("Basics"%string, ["What is a stock"%string; "Orders"%string])]
         (User.mk 1 "asha"))
      (mkSite (healthy empty_database) [mkUserRow 1 "asha" "asha@example.com" "h" false] 2 []
         [mkProgressRow 1 "Basics" "Orders" true] [] None)
    = Returns progress /\
    assoc_get "Basics" progress = Some entry /\
    CategoryProgress.total entry
    = Z.of_nat (List.length ["What is a stock"%string; "Orders"%string]) /\
    CategoryProgress.completed entry
    = completed_in "Basics"
        (filter (progress_of (User.user_id (User.mk 1 "asha")))
           (tbl_learning_progress
              (mkSite (healthy empty_database)
                 [mkUserRow 1 "asha" "asha@example.com" "h" false] 2 []
                 [mkProgressRow 1 "Basics" "Orders" true] [] None))).
Proof.
  apply (learning_progress_counts_completed_lessons
           [("Basics"%string, ["What is a stock"%string; "Orders"%string])]
           (mkSite (healthy empty_database) [mkUserRow 1 "asha" "asha@example.com" "h" false] 2 []
              [mkProgressRow 1 "Basics" "Orders" true] [] None)
           (User.mk 1 "asha") "Basics" ["What is a stock"%string; "Orders"%string]).
  - reflexivity.
  - repeat constructor. intros [].
  - left. reflexivity.
Defined.

Close Scope site_scope.
